(** * SWMM binary output reader (outputAPI.c) and its date helper (datetime.c)

    A shallow embedding of the C sources and the properties proved about it.

    Data model.  The headers pin the Windows ABI ([__declspec(dllexport)
    __cdecl], [fseeko64]/[off64_t]), so the embedding takes [int] and [long]
    as 32-bit two's-complement integers and [off64_t] and [size_t] as 64-bit
    ones.  A C integer is a [Z]; every C expression that can leave its type's
    range is wrapped by [int], [long] or [off64] at the point where C would
    store it (wrapping a whole expression once equals wrapping after every
    operation, the wrap being a ring morphism modulo [2^w]).  Enumeration
    arguments are [int]s.  [/] and [%] are C's truncating [Z.quot] and
    [Z.rem]. *)

From Stdlib Require Import ZArith QArith Qround List Lia Bool.
From Stdlib Require Import Strings.String Strings.Byte.
From Equations Require Import Equations.
From stdpp Require Import base list.
Import ListNotations.
Local Open Scope Z_scope.

(** ** Machine integers *)

Definition wrap (w x : Z) : Z := (x + 2 ^ (w - 1)) mod 2 ^ w - 2 ^ (w - 1).

Definition int (x : Z) : Z := wrap 32 x.
Definition long (x : Z) : Z := wrap 32 x.
Definition off64 (x : Z) : Z := wrap 64 x.

Definition INT_MIN : Z := - 2 ^ 31.
Definition INT_MAX : Z := 2 ^ 31 - 1.
Definition in_int (x : Z) : Prop := INT_MIN <= x <= INT_MAX.
Definition in_long (x : Z) : Prop := INT_MIN <= x <= INT_MAX.
Definition in_off64 (x : Z) : Prop := - 2 ^ 63 <= x <= 2 ^ 63 - 1.

(** ** datetime.c *)

Module Datetime.

(** [typedef double DateTime].  The two functions modelled here only move
    whole numbers of days (of magnitude below [2^31]) through the double,
    which binary64 holds exactly, so a [DateTime] is the rational it
    denotes and [floor] is [Qfloor]. *)
Definition DateTime : Set := Q.

Definition DaysPerMonth : list (list Z) :=
  [[31; 28; 31; 30; 31; 30; 31; 31; 30; 31; 30; 31];
   [31; 29; 31; 30; 31; 30; 31; 31; 30; 31; 30; 31]].

Definition DateDelta : Z := 693594.

(** [DaysPerMonth[i]], a row of the table. *)
Definition DaysPerMonth_row (i : Z) : list Z :=
  nth (Z.to_nat i) DaysPerMonth [].

(** [DaysPerMonth[i][j]]. *)
Definition DaysPerMonth_at (i j : Z) : Z :=
  nth (Z.to_nat j) (DaysPerMonth_row i) 0.

Definition divMod (n d : Z) : Z * Z :=
  if d =? 0 then (0, 0)
  else let result := n ÷ d in (result, int (n - d * result)).

Definition isLeapYear (year : Z) : Z :=
  if (Z.rem year 4 =? 0)
     && (negb (Z.rem year 100 =? 0) || (Z.rem year 400 =? 0))
  then 1 else 0.

Definition datetime_encodeDate (year month day : Z) : DateTime :=
  let i := isLeapYear year in
  if (1 <=? year) && (year <=? 9999) && (1 <=? month) && (month <=? 12)
     && (1 <=? day) && (day <=? DaysPerMonth_at i (month - 1))
  then
    (* for (j = 0; j < month-1; j++) day += DaysPerMonth[i][j]; *)
    let day :=
      fold_left Z.add (firstn (Z.to_nat (month - 1)) (DaysPerMonth_row i)) day in
    let i := year - 1 in
    inject_Z (int (i * 365 + i ÷ 4 - i ÷ 100 + i ÷ 400 + day - DateDelta))
  else inject_Z (- DateDelta).

Definition D1 : Z := 365.
Definition D4 : Z := D1 * 4 + 1.
Definition D100 : Z := D4 * 25 - 1.
Definition D400 : Z := D100 * 4 + 1.

(** [while (t >= D400) { t -= D400; y += 400; }], returning [(t, y)]. *)
Equations? while_D400 (t y : Z) : Z * Z by wf (Z.to_nat t) lt :=
  while_D400 t y with Z_ge_lt_dec t D400 => {
    | left _ := while_D400 (t - D400) (y + 400);
    | right _ := (t, y) }.
Proof. unfold D400, D100, D4, D1 in *. lia. Qed.

(** [for (;;) { i = DaysPerMonth[k][m-1]; if (d < i) break; d -= i; m++; }]
    run on the part of row [k] from index [m-1] on, returning [(m, d)].
    Running off the end of the row is a read outside the table: [None]. *)
Fixpoint month_loop (row : list Z) (m d : Z) : option (Z * Z) :=
  match row with
  | [] => None
  | i :: row' => if d <? i then Some (m, d) else month_loop row' (m + 1) (d - i)
  end.

(** The three out-parameters are returned as [(year, month, day)].
    [(int)floor(date)] has a value in C only when the floor is an [int];
    outside that range the conversion is undefined and the wrap written
    here is not what the code does, so every statement about this function
    keeps to [INT_MIN <= Qfloor date <= INT_MAX]. *)
Definition datetime_decodeDate (date : DateTime) : option (Z * Z * Z) :=
  let t := int (int (Qfloor date) + DateDelta) in
  if t <=? 0 then Some (0, 1, 1)
  else
    let t := t - 1 in
    let y := 1 in
    let '(t, y) := while_D400 t y in
    let '(i, d) := divMod t D100 in
    let '(i, d) := if i =? 4 then (i - 1, d + D100) else (i, d) in
    let y := y + i * 100 in
    let '(i, d) := divMod d D4 in
    let y := y + i * 4 in
    let '(i, d) := divMod d D1 in
    let '(i, d) := if i =? 4 then (i - 1, d + D1) else (i, d) in
    let y := y + i in
    let k := isLeapYear y in
    match month_loop (DaysPerMonth_row k) 1 d with
    | Some (m, d) => Some (y, m, d + 1)
    | None => None
    end.

Definition datetime_daysPerMonth (year month : Z) : Z :=
  if (month <? 1) || (month >? 12) then 0
  else DaysPerMonth_at (isLeapYear year) (month - 1).

(** *** Month names, day of week, date format *)

Definition Y_M_D : Z := 0.
Definition M_D_Y : Z := 1.
Definition D_M_Y : Z := 2.
Definition DATE_STR_SIZE : Z := 12.

Definition MonthTxt : list (list byte) :=
  map list_byte_of_string
    ["JAN"; "FEB"; "MAR"; "APR"; "MAY"; "JUN";
     "JUL"; "AUG"; "SEP"; "OCT"; "NOV"; "DEC"]%string.

(** A [char] as the [int] it promotes to ([char] is signed). *)
Definition char_value (b : byte) : Z :=
  let u := Z.of_N (Byte.to_N b) in if u <? 128 then u else u - 256.

(** [s[i]] for a C string given by its characters, without the NUL: the
    NUL itself at index [length s].  The code never reads further, the
    comparisons of [datetime_findMonth] stopping at the first that fails. *)
Definition char_at (s : list byte) (i : nat) : Z :=
  match nth_error s i with
  | Some b => char_value b
  | None => 0
  end.

(** [#define UCHAR(x) (((x) >= 'a' && (x) <= 'z') ? ((x)&~32) : (x))]. *)
Definition UCHAR (x : Z) : Z :=
  if (97 <=? x) && (x <=? 122) then Z.land x (Z.lnot 32) else x.

(** The loop of [datetime_findMonth] from index [i] on, over the names not
    yet tried. *)
Fixpoint findMonth_loop (month : list byte) (i : Z) (names : list (list byte))
  : Z :=
  match names with
  | [] => 0
  | txt :: names' =>
      if (UCHAR (char_at month 0) =? char_at txt 0)
         && (UCHAR (char_at month 1) =? char_at txt 1)
         && (UCHAR (char_at month 2) =? char_at txt 2)
      then i + 1
      else findMonth_loop month (i + 1) names'
  end.

Definition datetime_findMonth (month : list byte) : Z :=
  findMonth_loop month 0 MonthTxt.

(** [static int DateFormat] is passed in and returned. *)
Definition datetime_setDateFormat (fmt : Z) (DateFormat : Z) : Z :=
  if (fmt >=? Y_M_D) && (fmt <=? M_D_Y) then fmt else DateFormat.

Definition datetime_monthOfYear (date : DateTime) : option Z :=
  match datetime_decodeDate date with
  | Some (year, month, day) => Some month
  | None => None
  end.

(** [date - startOfYear] is a subtraction of doubles; it is exact, the
    start of the year being a whole number no larger in magnitude than the
    date it was decoded from. *)
Definition datetime_dayOfYear (date : DateTime) : option Z :=
  match datetime_decodeDate date with
  | Some (year, month, day) =>
      let startOfYear := datetime_encodeDate year 1 1 in
      Some (int (int (Qfloor (date - startOfYear)) + 1))
  | None => None
  end.

(** As in [datetime_decodeDate], [(int)floor(date)] is meant for a floor
    that is an [int]. *)
Definition datetime_dayOfWeek (date : DateTime) : Z :=
  let t := int (int (Qfloor date) + DateDelta) in
  int (Z.rem t 7 + 1).

(** *** Formatting a date

    [sprintf] for the three conversions the date formats use.  An [int] has
    at most ten decimal digits. *)

Definition digit (n : Z) : byte :=
  match Byte.of_N (Z.to_N (48 + n)) with
  | Some b => b
  | None => x00
  end.

(** The decimal digits of [n >= 0], most significant first. *)
Fixpoint decimal (fuel : nat) (n : Z) : list byte :=
  match fuel with
  | O => []
  | S fuel' =>
      (if n <? 10 then [] else decimal fuel' (n / 10)) ++ [digit (n mod 10)]
  end.

Definition pad (width : nat) (c : byte) (len : nat) : list byte :=
  repeat c (width - len).

(** [%<width>d], padded with spaces on the left. *)
Definition fmt_d (width : nat) (n : Z) : list byte :=
  let body := if n <? 0 then "-"%byte :: decimal 10 (- n) else decimal 10 n in
  pad width " "%byte (length body) ++ body.

(** [%0<width>d], padded with zeros after the sign. *)
Definition fmt_0d (width : nat) (n : Z) : list byte :=
  if n <? 0
  then "-"%byte :: pad (width - 1) "0"%byte (length (decimal 10 (- n)))
                ++ decimal 10 (- n)
  else pad width "0"%byte (length (decimal 10 n)) ++ decimal 10 n.

(** [%<width>s]. *)
Definition fmt_s (width : nat) (s : list byte) : list byte :=
  pad width " "%byte (length s) ++ s.

(** [strcpy(s, src)] into the caller's array [s], for a string [src] given
    without its NUL; [None] when the copy runs past the end of [s]. *)
Definition strcpy (s src : list byte) : option (list byte) :=
  if (length src + 1 <=? length s)%nat
  then Some (src ++ [x00] ++ skipn (length src + 1) s)
  else None.

(** [s] is the caller's array and the result what it holds afterwards;
    [None] when [sprintf] writes past [dateStr[DATE_STR_SIZE]], when
    [MonthTxt[m-1]] is outside the table or when [strcpy] overruns [s]. *)
Definition datetime_dateToStr (DateFormat : Z) (date : DateTime)
    (s : list byte) : option (list byte) :=
  match datetime_decodeDate date with
  | None => None
  | Some (y, m, d) =>
      if (m <? 1) then None
      else
        match nth_error MonthTxt (Z.to_nat (m - 1)) with
        | None => None
        | Some month =>
            let sep := ["-"%byte] in
            let dateStr :=
              if DateFormat =? Y_M_D
              then fmt_d 4 y ++ sep ++ fmt_s 3 month ++ sep ++ fmt_0d 2 d
              else if DateFormat =? M_D_Y
              then fmt_s 3 month ++ sep ++ fmt_0d 2 d ++ sep ++ fmt_d 4 y
              else fmt_0d 2 d ++ sep ++ fmt_s 3 month ++ sep ++ fmt_d 4 y in
            if Z.of_nat (length dateStr) + 1 <=? DATE_STR_SIZE
            then strcpy s dateStr
            else None
        end
  end.

End Datetime.

(** ** outputAPI.c *)

Module OutputAPI.

Definition RECORDSIZE : Z := 4.
Definition DATESIZE : Z := 8.

Definition ERR411 : string := "Input Error 411: no memory allocated for results.".
Definition ERR412 : string := "Input Error 412: no results; binary file hasn't been opened.".
Definition ERR421 : string := "Input Error 421: invalid parameter code.".
Definition ERR434 : string := "File Error  434: unable to open binary output file.".
Definition ERR435 : string := "File Error  435: run terminated; no results in binary file.".
Definition ERR441 : string := "Error 441: need to call SMO_open before calling this function".

(** The enumerations of outputAPI.h, by value. *)
Definition subcatchCount : Z := 0.
Definition nodeCount : Z := 1.
Definition linkCount : Z := 2.
Definition pollutantCount : Z := 3.
Definition flow_rate : Z := 0.
Definition concentration : Z := 1.
Definition getAttribute : Z := 0.
Definition getResult : Z := 1.
Definition subcatch : Z := 0.
Definition node : Z := 1.
Definition link : Z := 2.
Definition sys : Z := 3.
Definition reportStep : Z := 0.
Definition numPeriods : Z := 1.

(** *** Bytes and objects *)

Definition SIZE_MAX : Z := 2 ^ 64 - 1.
Definition OFF_MAX : Z := 2 ^ 63 - 1.

(** Conversion of a signed argument to [size_t]. *)
Definition size_t (x : Z) : Z := x mod 2 ^ 64.

Definition byte_of_Z (x : Z) : byte :=
  default x00 (Byte.of_N (Z.to_N (x mod 256))).

(** Little-endian value of a run of bytes, and the [n] bytes of a value. *)
Fixpoint uint_le (bs : list byte) : Z :=
  match bs with
  | [] => 0
  | b :: bs' => Z.of_N (Byte.to_N b) + 256 * uint_le bs'
  end.

Fixpoint le_bytes (n : nat) (x : Z) : list byte :=
  match n with
  | O => []
  | S n' => byte_of_Z x :: le_bytes n' (x / 256)
  end.

(** What an object of [width] bytes holding [old] holds once [fread] has
    stored the bytes [bs] it obtained over its leading bytes (the transfer
    is byte by byte, in order; bytes not reached keep their content). *)
Definition overlay (width : nat) (old : Z) (bs : list byte) : Z :=
  uint_le (take width (bs ++ drop (length bs) (le_bytes width old))).

(** A [float] object ([REAL4]): its 32-bit pattern, or no determinate
    content (an uninitialised local that no read has filled).  The reader
    only moves floats, it never computes with them. *)
Inductive REAL4 : Type :=
| Float (bits : Z)
| Indeterminate.

Definition store_REAL4 (old : REAL4) (bs : list byte) : REAL4 :=
  if (length bs =? 4)%nat then Float (uint_le bs)
  else match old with
       | Float b => Float (overlay 4 b bs)
       | Indeterminate => Indeterminate
       end.

(** The [double] [-1.0], as stored by [*time = -1]. *)
Definition double_minus_1 : Z := 0xBFF0000000000000.

(** *** The stdio stream *)

Inductive whence : Type := SEEK_SET | SEEK_CUR | SEEK_END.

Inductive io_call : Type :=
| io_fseeko64 (offset : Z) (origin : whence)
| io_fread (size nmemb : Z).

(** An open stream: the file's bytes, the position indicator, and the calls
    made on the stream so far, oldest first. *)
Record FILE : Type := mkFILE {
  f_data : list byte;
  f_pos : Z;
  f_calls : list io_call
}.

(** [fseeko64]: a target before the start of the file (or beyond [off64_t])
    fails and leaves the position alone; no caller looks at the result. *)
Definition file_seek (f : FILE) (offset : Z) (origin : whence) : FILE :=
  let base := match origin with
              | SEEK_SET => 0
              | SEEK_CUR => f_pos f
              | SEEK_END => Z.of_nat (length (f_data f))
              end in
  let target := base + offset in
  mkFILE (f_data f)
         (if (0 <=? target) && (target <=? OFF_MAX) then target else f_pos f)
         (f_calls f ++ [io_fseeko64 offset origin]).

(** [fread]: the bytes obtained, at most [size * nmemb] and at most what
    lies between the position and the end of the file. *)
Definition file_read (f : FILE) (size nmemb : Z) : list byte * FILE :=
  let want := size_t size * size_t nmemb in
  let rest := drop (Z.to_nat (f_pos f)) (f_data f) in
  let got := take (Z.to_nat (Z.min want (Z.of_nat (length rest)))) rest in
  (got, mkFILE (f_data f) (f_pos f + Z.of_nat (length got))
               (f_calls f ++ [io_fread size nmemb])).

(** *** The handle *)

Record idEntry : Type := mkIDentry {
  IDname : option (list byte);     (* [None]: a null pointer *)
  IDlength : Z                     (* the field [length] *)
}.

(** [struct SMOutputAPI].  [char name[]] is written once by [SMO_open] and
    never read; it is left out.  [file] and [elementNames] are [None] for a
    null pointer.  [StartDate] is the bit pattern of the double. *)
Record SMOutputAPI : Type := mkSMOutputAPI {
  file : option FILE;
  elementNames : option (list idEntry);
  Nperiods : Z;
  FlowUnits : Z;
  Nsubcatch : Z;
  Nnodes : Z;
  Nlinks : Z;
  Npolluts : Z;
  SubcatchVars : Z;
  NodeVars : Z;
  LinkVars : Z;
  SysVars : Z;
  StartDate : Z;
  ReportStep : Z;
  IDPos : Z;
  ObjPropPos : Z;
  ResultsPos : Z;
  BytesPerPeriod : Z
}.

(** Field assignments [smoapi->field = x]. *)
Definition set_file (x : option FILE) (s : SMOutputAPI) : SMOutputAPI :=
  mkSMOutputAPI x (elementNames s) (Nperiods s) (FlowUnits s) (Nsubcatch s) (Nnodes s) (Nlinks s) (Npolluts s) (SubcatchVars s) (NodeVars s) (LinkVars s) (SysVars s) (StartDate s) (ReportStep s) (IDPos s) (ObjPropPos s) (ResultsPos s) (BytesPerPeriod s).
Definition set_elementNames (x : option (list idEntry)) (s : SMOutputAPI) : SMOutputAPI :=
  mkSMOutputAPI (file s) x (Nperiods s) (FlowUnits s) (Nsubcatch s) (Nnodes s) (Nlinks s) (Npolluts s) (SubcatchVars s) (NodeVars s) (LinkVars s) (SysVars s) (StartDate s) (ReportStep s) (IDPos s) (ObjPropPos s) (ResultsPos s) (BytesPerPeriod s).
Definition set_Nperiods (x : Z) (s : SMOutputAPI) : SMOutputAPI :=
  mkSMOutputAPI (file s) (elementNames s) x (FlowUnits s) (Nsubcatch s) (Nnodes s) (Nlinks s) (Npolluts s) (SubcatchVars s) (NodeVars s) (LinkVars s) (SysVars s) (StartDate s) (ReportStep s) (IDPos s) (ObjPropPos s) (ResultsPos s) (BytesPerPeriod s).
Definition set_FlowUnits (x : Z) (s : SMOutputAPI) : SMOutputAPI :=
  mkSMOutputAPI (file s) (elementNames s) (Nperiods s) x (Nsubcatch s) (Nnodes s) (Nlinks s) (Npolluts s) (SubcatchVars s) (NodeVars s) (LinkVars s) (SysVars s) (StartDate s) (ReportStep s) (IDPos s) (ObjPropPos s) (ResultsPos s) (BytesPerPeriod s).
Definition set_Nsubcatch (x : Z) (s : SMOutputAPI) : SMOutputAPI :=
  mkSMOutputAPI (file s) (elementNames s) (Nperiods s) (FlowUnits s) x (Nnodes s) (Nlinks s) (Npolluts s) (SubcatchVars s) (NodeVars s) (LinkVars s) (SysVars s) (StartDate s) (ReportStep s) (IDPos s) (ObjPropPos s) (ResultsPos s) (BytesPerPeriod s).
Definition set_Nnodes (x : Z) (s : SMOutputAPI) : SMOutputAPI :=
  mkSMOutputAPI (file s) (elementNames s) (Nperiods s) (FlowUnits s) (Nsubcatch s) x (Nlinks s) (Npolluts s) (SubcatchVars s) (NodeVars s) (LinkVars s) (SysVars s) (StartDate s) (ReportStep s) (IDPos s) (ObjPropPos s) (ResultsPos s) (BytesPerPeriod s).
Definition set_Nlinks (x : Z) (s : SMOutputAPI) : SMOutputAPI :=
  mkSMOutputAPI (file s) (elementNames s) (Nperiods s) (FlowUnits s) (Nsubcatch s) (Nnodes s) x (Npolluts s) (SubcatchVars s) (NodeVars s) (LinkVars s) (SysVars s) (StartDate s) (ReportStep s) (IDPos s) (ObjPropPos s) (ResultsPos s) (BytesPerPeriod s).
Definition set_Npolluts (x : Z) (s : SMOutputAPI) : SMOutputAPI :=
  mkSMOutputAPI (file s) (elementNames s) (Nperiods s) (FlowUnits s) (Nsubcatch s) (Nnodes s) (Nlinks s) x (SubcatchVars s) (NodeVars s) (LinkVars s) (SysVars s) (StartDate s) (ReportStep s) (IDPos s) (ObjPropPos s) (ResultsPos s) (BytesPerPeriod s).
Definition set_SubcatchVars (x : Z) (s : SMOutputAPI) : SMOutputAPI :=
  mkSMOutputAPI (file s) (elementNames s) (Nperiods s) (FlowUnits s) (Nsubcatch s) (Nnodes s) (Nlinks s) (Npolluts s) x (NodeVars s) (LinkVars s) (SysVars s) (StartDate s) (ReportStep s) (IDPos s) (ObjPropPos s) (ResultsPos s) (BytesPerPeriod s).
Definition set_NodeVars (x : Z) (s : SMOutputAPI) : SMOutputAPI :=
  mkSMOutputAPI (file s) (elementNames s) (Nperiods s) (FlowUnits s) (Nsubcatch s) (Nnodes s) (Nlinks s) (Npolluts s) (SubcatchVars s) x (LinkVars s) (SysVars s) (StartDate s) (ReportStep s) (IDPos s) (ObjPropPos s) (ResultsPos s) (BytesPerPeriod s).
Definition set_LinkVars (x : Z) (s : SMOutputAPI) : SMOutputAPI :=
  mkSMOutputAPI (file s) (elementNames s) (Nperiods s) (FlowUnits s) (Nsubcatch s) (Nnodes s) (Nlinks s) (Npolluts s) (SubcatchVars s) (NodeVars s) x (SysVars s) (StartDate s) (ReportStep s) (IDPos s) (ObjPropPos s) (ResultsPos s) (BytesPerPeriod s).
Definition set_SysVars (x : Z) (s : SMOutputAPI) : SMOutputAPI :=
  mkSMOutputAPI (file s) (elementNames s) (Nperiods s) (FlowUnits s) (Nsubcatch s) (Nnodes s) (Nlinks s) (Npolluts s) (SubcatchVars s) (NodeVars s) (LinkVars s) x (StartDate s) (ReportStep s) (IDPos s) (ObjPropPos s) (ResultsPos s) (BytesPerPeriod s).
Definition set_StartDate (x : Z) (s : SMOutputAPI) : SMOutputAPI :=
  mkSMOutputAPI (file s) (elementNames s) (Nperiods s) (FlowUnits s) (Nsubcatch s) (Nnodes s) (Nlinks s) (Npolluts s) (SubcatchVars s) (NodeVars s) (LinkVars s) (SysVars s) x (ReportStep s) (IDPos s) (ObjPropPos s) (ResultsPos s) (BytesPerPeriod s).
Definition set_ReportStep (x : Z) (s : SMOutputAPI) : SMOutputAPI :=
  mkSMOutputAPI (file s) (elementNames s) (Nperiods s) (FlowUnits s) (Nsubcatch s) (Nnodes s) (Nlinks s) (Npolluts s) (SubcatchVars s) (NodeVars s) (LinkVars s) (SysVars s) (StartDate s) x (IDPos s) (ObjPropPos s) (ResultsPos s) (BytesPerPeriod s).
Definition set_IDPos (x : Z) (s : SMOutputAPI) : SMOutputAPI :=
  mkSMOutputAPI (file s) (elementNames s) (Nperiods s) (FlowUnits s) (Nsubcatch s) (Nnodes s) (Nlinks s) (Npolluts s) (SubcatchVars s) (NodeVars s) (LinkVars s) (SysVars s) (StartDate s) (ReportStep s) x (ObjPropPos s) (ResultsPos s) (BytesPerPeriod s).
Definition set_ObjPropPos (x : Z) (s : SMOutputAPI) : SMOutputAPI :=
  mkSMOutputAPI (file s) (elementNames s) (Nperiods s) (FlowUnits s) (Nsubcatch s) (Nnodes s) (Nlinks s) (Npolluts s) (SubcatchVars s) (NodeVars s) (LinkVars s) (SysVars s) (StartDate s) (ReportStep s) (IDPos s) x (ResultsPos s) (BytesPerPeriod s).
Definition set_ResultsPos (x : Z) (s : SMOutputAPI) : SMOutputAPI :=
  mkSMOutputAPI (file s) (elementNames s) (Nperiods s) (FlowUnits s) (Nsubcatch s) (Nnodes s) (Nlinks s) (Npolluts s) (SubcatchVars s) (NodeVars s) (LinkVars s) (SysVars s) (StartDate s) (ReportStep s) (IDPos s) (ObjPropPos s) x (BytesPerPeriod s).
Definition set_BytesPerPeriod (x : Z) (s : SMOutputAPI) : SMOutputAPI :=
  mkSMOutputAPI (file s) (elementNames s) (Nperiods s) (FlowUnits s) (Nsubcatch s) (Nnodes s) (Nlinks s) (Npolluts s) (SubcatchVars s) (NodeVars s) (LinkVars s) (SysVars s) (StartDate s) (ReportStep s) (IDPos s) (ObjPropPos s) (ResultsPos s) x.

(** *** Execution

    The state is the block [SMO_init] allocated ([None] once [SMO_close] has
    freed it).  A computation returns a value and a new state, or is
    undefined behaviour: a stdio call on a null stream, a store through a
    null or past the end of a buffer, a branch on an uninitialised local, a
    use of the freed block. *)

Definition heap : Type := option SMOutputAPI.

Inductive outcome (A : Type) : Type :=
| Ret (a : A) (h : heap)
| Undefined (h : heap).
Arguments Ret {A} a h.
Arguments Undefined {A} h.

Definition M (A : Type) : Type := heap -> outcome A.

Definition ret {A : Type} (a : A) : M A := fun h => Ret a h.

Definition bind {A B : Type} (m : M A) (k : A -> M B) : M B :=
  fun h => match m h with
           | Ret a h' => k a h'
           | Undefined h' => Undefined h'
           end.

Definition undefined {A : Type} : M A := fun h => Undefined h.

Notation "x <- m ;; k" := (bind m (fun x => k))
  (at level 100, m at level 90, right associativity, only parsing).
Notation "m ;;; k" := (bind m (fun _ => k))
  (at level 100, right associativity, only parsing).

(** [*smoapi], and an assignment to a field of it. *)
Definition deref : M SMOutputAPI :=
  fun h => match h with
           | Some s => Ret s h
           | None => Undefined h
           end.

Definition assign (upd : SMOutputAPI -> SMOutputAPI) : M unit :=
  fun h => match h with
           | Some s => Ret tt (Some (upd s))
           | None => Undefined h
           end.

Definition is_NULL {A : Type} (p : option A) : bool :=
  match p with Some _ => false | None => true end.

(** [for (k = k0; ...; k++)] run [n] times over a local [a]. *)
Fixpoint for_loop {A : Type} (n : nat) (k : Z) (body : Z -> A -> M A) (a : A)
  : M A :=
  match n with
  | O => ret a
  | S n' => a' <- body k a ;; for_loop n' (k + 1) body a'
  end.

(** [fseeko64(smoapi->file, offset, origin)] and
    [fread(_, size, nmemb, smoapi->file)], the latter returning the bytes
    obtained. *)
Definition fseeko64 (offset : Z) (origin : whence) : M unit :=
  smoapi <- deref ;;
  match file smoapi with
  | None => undefined
  | Some f => assign (set_file (Some (file_seek f offset origin)))
  end.

Definition fread (size nmemb : Z) : M (list byte) :=
  smoapi <- deref ;;
  match file smoapi with
  | None => undefined
  | Some f => let '(got, f') := file_read f size nmemb in
              assign (set_file (Some f')) ;;; ret got
  end.

(** [fread(&x, RECORDSIZE, 1, file)] for [x] an [int] or [long] holding
    [old]; for [x] an [F_OFF], whose upper four bytes the read does not
    reach; for [x] an uninitialised [INT4] or [REAL4] local. *)
Definition fread_INT4 (old : Z) : M Z :=
  bs <- fread RECORDSIZE 1 ;; ret (int (overlay 4 old bs)).

Definition fread_F_OFF (old : Z) : M Z :=
  bs <- fread RECORDSIZE 1 ;; ret (off64 (overlay 8 old bs)).

Definition fread_INT4_local : M (option Z) :=
  bs <- fread RECORDSIZE 1 ;;
  ret (if (length bs =? 4)%nat then Some (int (uint_le bs)) else None).

Definition fread_REAL4_local : M REAL4 :=
  bs <- fread RECORDSIZE 1 ;; ret (store_REAL4 Indeterminate bs).

(** [fread(&smoapi->StartDate, DATESIZE, 1, file)]. *)
Definition fread_double (old : Z) : M Z :=
  bs <- fread DATESIZE 1 ;; ret (overlay 8 old bs).

(** The items [fread] makes of the bytes it obtained, the last one partial
    when the file ended inside it. *)
Fixpoint read_items (bs : list byte) : list (list byte) :=
  match bs with
  | b0 :: b1 :: b2 :: b3 :: rest => [b0; b1; b2; b3] :: read_items rest
  | [] => []
  | partial => [partial]
  end.

(** Storing items from index [k] on; [None] when an item falls outside the
    array. *)
Fixpoint store_items (buf : list REAL4) (k : nat) (items : list (list byte))
  : option (list REAL4) :=
  match items with
  | [] => Some buf
  | item :: rest =>
      match buf !! k with
      | Some old => store_items (<[k := store_REAL4 old item]> buf) (S k) rest
      | None => None
      end
  end.

(** [fread(outValueArray, RECORDSIZE, nmemb, file)]. *)
Definition fread_array (outValueArray : option (list REAL4)) (nmemb : Z)
  : M (option (list REAL4)) :=
  bs <- fread RECORDSIZE nmemb ;;
  match outValueArray with
  | None => match bs with [] => ret None | _ => undefined end
  | Some buf => match store_items buf 0 (read_items bs) with
                | Some buf' => ret (Some buf')
                | None => undefined
                end
  end.

(** [outValue[k] = value]. *)
Definition store (out : list REAL4) (k : Z) (value : REAL4) : M (list REAL4) :=
  if (0 <=? k) && (k <? Z.of_nat (length out))
  then ret (<[Z.to_nat k := value]> out)
  else undefined.

(** *** Strings and allocation *)

(** The C string stored in [mem]: the bytes before the first NUL; [None]
    when [mem] holds no NUL. *)
Fixpoint c_string (mem : list byte) : option (list byte) :=
  match mem with
  | [] => None
  | b :: rest => if Byte.eqb b x00 then Some []
                 else option_map (cons b) (c_string rest)
  end.

(** [strncpy(dst, src, n)] for a string [src] given without its NUL:
    exactly [n] bytes are written, the string and then NULs; [None] when
    that runs past the end of [dst]. *)
Definition strncpy (dst src : list byte) (n : Z) : option (list byte) :=
  let n := size_t n in
  if n <=? Z.of_nat (length dst)
  then Some (take (Z.to_nat n) (src ++ replicate (Z.to_nat n) x00)
             ++ drop (Z.to_nat n) dst)
  else None.

Definition MEMCHECK {A : Type} (x : option A) : Z :=
  if is_NULL x then 411 else 0.

Section Environment.

(** The allocator: whether a request of so many bytes is granted. *)
Variable heap_grants : Z -> bool.

(** The file system seen by [fopen(path, "rb")]: the bytes of the file at
    [path], if it can be opened. *)
Variable fopen_rb : list byte -> option (list byte).

(** [calloc(nmemb, size)]: the number of zeroed objects obtained, [None]
    for a null result.  A request whose byte count does not fit [size_t]
    is never granted. *)
Definition calloc (nmemb size : Z) : option nat :=
  let n := size_t nmemb in
  if (n * size <=? SIZE_MAX) && heap_grants (n * size)
  then Some (Z.to_nat n) else None.

Definition calloc_REAL4 (nmemb : Z) : option (list REAL4) :=
  option_map (fun n => replicate n (Float 0)) (calloc nmemb 4).

Definition calloc_char (nmemb : Z) : option (list byte) :=
  option_map (fun n => replicate n x00) (calloc nmemb 1).

(** [sizeof(idEntry)] is 16: a pointer, an [int], padding. *)
Definition calloc_idEntry (nmemb : Z) : option (list idEntry) :=
  option_map (fun n => replicate n (mkIDentry None 0)) (calloc nmemb 16).

(** *** Local functions *)

Definition validateFile : M Z :=
  fseeko64 (-6 * RECORDSIZE) SEEK_END ;;;
  smoapi <- deref ;;
  v <- fread_F_OFF (IDPos smoapi) ;; assign (set_IDPos v) ;;;
  v <- fread_F_OFF (ObjPropPos smoapi) ;; assign (set_ObjPropPos v) ;;;
  v <- fread_F_OFF (ResultsPos smoapi) ;; assign (set_ResultsPos v) ;;;
  v <- fread_INT4 (Nperiods smoapi) ;; assign (set_Nperiods v) ;;;
  errcode <- fread_INT4_local ;;
  magic2 <- fread_INT4_local ;;
  fseeko64 0 SEEK_SET ;;;
  magic1 <- fread_INT4_local ;;
  smoapi <- deref ;;
  match magic1, magic2 with
  | Some magic1, Some magic2 =>
      if negb (magic1 =? magic2) then ret 435
      else if Nperiods smoapi <=? 0 then ret 436
      else match errcode with
           | Some errcode => if negb (errcode =? 0) then ret 435 else ret 0
           | None => undefined
           end
  | _, _ => undefined
  end.

(** One turn of the loop of [initElementNames]. *)
Definition read_IDentry (j : Z) (u : unit) : M unit :=
  smoapi <- deref ;;
  match elementNames smoapi with
  | None => undefined
  | Some names =>
      match names !! Z.to_nat j with
      | None => undefined
      | Some entry =>
          len <- fread_INT4 (IDlength entry) ;;
          let mem := calloc_char (int (len + 1)) in
          bs <- fread 1 len ;;
          match mem with
          | None =>
              match bs with
              | [] => assign (set_elementNames
                        (Some (<[Z.to_nat j := mkIDentry None len]> names)))
              | _ => undefined
              end
          | Some mem =>
              if (length bs <=? length mem)%nat
              then assign (set_elementNames
                     (Some (<[Z.to_nat j :=
                               mkIDentry (Some (bs ++ drop (length bs) mem)) len]>
                            names)))
              else undefined
          end
      end
  end.

Definition initElementNames : M unit :=
  smoapi <- deref ;;
  let numNames := int (Nsubcatch smoapi + Nnodes smoapi + Nlinks smoapi
                       + Npolluts smoapi) in
  assign (set_elementNames (calloc_idEntry numNames)) ;;;
  fseeko64 (IDPos smoapi) SEEK_SET ;;;
  for_loop (Z.to_nat numNames) 0 read_IDentry tt.

(** The common start of the four scalar offsets:
    [ResultsPos + timeIndex*BytesPerPeriod + 2*RECORDSIZE]. *)
Definition period_offset (smoapi : SMOutputAPI) (timeIndex : Z) : Z :=
  off64 (ResultsPos smoapi + timeIndex * BytesPerPeriod smoapi + 2 * RECORDSIZE).

Definition getSubcatchValue (timeIndex subcatchIndex attr : Z) : M REAL4 :=
  smoapi <- deref ;;
  let offset := period_offset smoapi timeIndex in
  let offset := off64 (offset + int (RECORDSIZE *
                  (subcatchIndex * SubcatchVars smoapi + attr))) in
  fseeko64 offset SEEK_SET ;;;
  value <- fread_REAL4_local ;;
  ret value.

Definition getNodeValue (timeIndex nodeIndex attr : Z) : M REAL4 :=
  smoapi <- deref ;;
  let offset := period_offset smoapi timeIndex in
  let offset := off64 (offset + int (RECORDSIZE *
                  (Nsubcatch smoapi * SubcatchVars smoapi
                   + nodeIndex * NodeVars smoapi + attr))) in
  fseeko64 offset SEEK_SET ;;;
  value <- fread_REAL4_local ;;
  ret value.

Definition getLinkValue (timeIndex linkIndex attr : Z) : M REAL4 :=
  smoapi <- deref ;;
  let offset := period_offset smoapi timeIndex in
  let offset := off64 (offset + int (RECORDSIZE *
                  (Nsubcatch smoapi * SubcatchVars smoapi
                   + Nnodes smoapi * NodeVars smoapi
                   + linkIndex * LinkVars smoapi + attr))) in
  fseeko64 offset SEEK_SET ;;;
  value <- fread_REAL4_local ;;
  ret value.

Definition getSystemValue (timeIndex attr : Z) : M REAL4 :=
  smoapi <- deref ;;
  let offset := period_offset smoapi timeIndex in
  let offset := off64 (offset + int (RECORDSIZE *
                  (Nsubcatch smoapi * SubcatchVars smoapi
                   + Nnodes smoapi * NodeVars smoapi
                   + Nlinks smoapi * LinkVars smoapi + attr))) in
  fseeko64 offset SEEK_SET ;;;
  value <- fread_REAL4_local ;;
  ret value.

(** *** The exported functions

    Out-parameters are returned next to the error code; an out-parameter
    that a path leaves untouched comes back as it was passed in. *)

(** [SMO_init]: the block comes from [malloc], so every field but
    [elementNames] holds whatever [garbage] the block held. *)
Definition SMO_init (garbage : SMOutputAPI) : heap :=
  Some (set_elementNames None garbage).

Definition SMO_close : M Z :=
  smoapi <- deref ;;
  if is_NULL (file smoapi) then ret 412
  else
    let n := int (Nsubcatch smoapi + Nnodes smoapi + Nlinks smoapi
                  + Npolluts smoapi) in
    match elementNames smoapi with
    | Some names =>
        (* for (i = 0; i < n; i++) free(smoapi->elementNames[i].IDname); *)
        if n <=? Z.of_nat (length names)
        then fun _ => Ret 0 None
        else undefined
    | None => fun _ => Ret 0 None
    end.

Definition SMO_open (path : list byte) : M Z :=
  match fopen_rb path with
  | None =>
      assign (set_file None) ;;;
      SMO_close ;;;
      ret 434
  | Some data =>
      assign (set_file (Some (mkFILE data 0 []))) ;;;
      err <- validateFile ;;
      if negb (err =? 0) then SMO_close ;;; ret err
      else
        version <- fread_INT4_local ;;
        smoapi <- deref ;;
        v <- fread_INT4 (FlowUnits smoapi) ;; assign (set_FlowUnits v) ;;;
        v <- fread_INT4 (Nsubcatch smoapi) ;; assign (set_Nsubcatch v) ;;;
        v <- fread_INT4 (Nnodes smoapi) ;; assign (set_Nnodes v) ;;;
        v <- fread_INT4 (Nlinks smoapi) ;; assign (set_Nlinks v) ;;;
        v <- fread_INT4 (Npolluts smoapi) ;; assign (set_Npolluts v) ;;;
        smoapi <- deref ;;
        let offset := int ((Nsubcatch smoapi + 2) * RECORDSIZE
                           + (3 * Nnodes smoapi + 4) * RECORDSIZE
                           + (5 * Nlinks smoapi + 6) * RECORDSIZE) in
        let offset := off64 (offset + ObjPropPos smoapi) in
        fseeko64 offset SEEK_SET ;;;
        v <- fread_INT4 (SubcatchVars smoapi) ;; assign (set_SubcatchVars v) ;;;
        fseeko64 (int (v * RECORDSIZE)) SEEK_CUR ;;;
        v <- fread_INT4 (NodeVars smoapi) ;; assign (set_NodeVars v) ;;;
        fseeko64 (int (v * RECORDSIZE)) SEEK_CUR ;;;
        v <- fread_INT4 (LinkVars smoapi) ;; assign (set_LinkVars v) ;;;
        fseeko64 (int (v * RECORDSIZE)) SEEK_CUR ;;;
        v <- fread_INT4 (SysVars smoapi) ;; assign (set_SysVars v) ;;;
        let offset := off64 (ResultsPos smoapi - 3 * RECORDSIZE) in
        fseeko64 offset SEEK_SET ;;;
        v <- fread_double (StartDate smoapi) ;; assign (set_StartDate v) ;;;
        v <- fread_INT4 (ReportStep smoapi) ;; assign (set_ReportStep v) ;;;
        smoapi <- deref ;;
        assign (set_BytesPerPeriod
                  (int (DATESIZE
                        + (Nsubcatch smoapi * SubcatchVars smoapi
                           + Nnodes smoapi * NodeVars smoapi
                           + Nlinks smoapi * LinkVars smoapi
                           + SysVars smoapi) * RECORDSIZE))) ;;;
        ret 0
  end.

(** Returns [(errorcode, *count)]. *)
Definition SMO_getProjectSize (code : Z) : M (Z * Z) :=
  smoapi <- deref ;;
  let count := -1 in
  if is_NULL (file smoapi) then ret (412, count)
  else if code =? subcatchCount then ret (0, Nsubcatch smoapi)
  else if code =? nodeCount then ret (0, Nnodes smoapi)
  else if code =? linkCount then ret (0, Nlinks smoapi)
  else if code =? pollutantCount then ret (0, Npolluts smoapi)
  else ret (421, count).

(** Returns [(errorcode, *unitFlag)]. *)
Definition SMO_getUnits (code : Z) : M (Z * Z) :=
  smoapi <- deref ;;
  let unitFlag := -1 in
  if is_NULL (file smoapi) then ret (412, unitFlag)
  else if code =? flow_rate then ret (0, FlowUnits smoapi)
  else ret (421, unitFlag).

(** Returns [(errorcode, *time)], [*time] a double. *)
Definition SMO_getStartTime : M (Z * Z) :=
  smoapi <- deref ;;
  let time := double_minus_1 in
  if is_NULL (file smoapi) then ret (412, time)
  else ret (0, StartDate smoapi).

(** Returns [(errorcode, *time)]. *)
Definition SMO_getTimes (code : Z) : M (Z * Z) :=
  smoapi <- deref ;;
  let time := -1 in
  if is_NULL (file smoapi) then ret (412, time)
  else if code =? reportStep then ret (0, ReportStep smoapi)
  else if code =? numPeriods then ret (0, int (Nperiods smoapi))
  else ret (421, time).

(** [name] is the caller's array ([None]: null), [length] the content of
    [*length] on entry.  Returns [(errorcode, name, *length)]. *)
Definition SMO_getElementName (type index : Z) (name : option (list byte))
    (length : Z) : M (Z * option (list byte) * Z) :=
  smoapi <- deref ;;
  (if is_NULL (elementNames smoapi) then initElementNames else ret tt) ;;;
  smoapi <- deref ;;
  let '(errorcode, idx) :=
    if type =? subcatch then
      if (index <? 0) || (index >=? Nsubcatch smoapi) then (423, 0)
      else (0, index)
    else if type =? node then
      if (index <? 0) || (index >=? Nnodes smoapi) then (423, 0)
      else (0, int (Nsubcatch smoapi + index))
    else if type =? link then
      if (index <? 0) || (index >=? Nlinks smoapi) then (423, 0)
      else (0, int (Nsubcatch smoapi + Nnodes smoapi + index))
    else if type =? sys then
      if (index <? 0) || (index >=? Npolluts smoapi) then (423, 0)
      else (0, int (Nsubcatch smoapi + Nnodes smoapi + Nlinks smoapi + index))
    else (421, 0) in
  if errorcode =? 0 then
    match elementNames smoapi with
    | None => undefined
    | Some names =>
        if idx <? 0 then undefined
        else match names !! Z.to_nat idx with
             | None => undefined
             | Some entry =>
                 match IDname entry, name with
                 | Some mem, Some dst =>
                     match c_string mem with
                     | Some src =>
                         match strncpy dst src length with
                         | Some dst' => ret (0, Some dst', IDlength entry)
                         | None => undefined
                         end
                     | None => undefined
                     end
                 | _, _ => undefined
                 end
             end
    end
  else ret (errorcode, name, length).

(** [length] and [errcode] are the contents of [*length] and [*errcode] on
    entry.  Returns [(array, *length, *errcode)]. *)
Definition SMO_newOutValueSeries (seriesStart seriesLength : Z)
    (length errcode : Z) : M (option (list REAL4) * Z * Z) :=
  smoapi <- deref ;;
  if is_NULL (file smoapi) then ret (None, length, 412)
  else
    let size := long (seriesLength - seriesStart) in
    let size := if size >? Nperiods smoapi then Nperiods smoapi else size in
    let array := calloc_REAL4 size in
    ret (array, size, MEMCHECK array).

Definition SMO_newOutValueArray (func type : Z) (length errcode : Z)
  : M (option (list REAL4) * Z * Z) :=
  smoapi <- deref ;;
  if is_NULL (file smoapi) then ret (None, length, 412)
  else
    let sized (size : Z) :=
      let array := calloc_REAL4 size in
      ret (array, size, MEMCHECK array) in
    if func =? getAttribute then
      sized (if type =? subcatch then Nsubcatch smoapi
             else if type =? node then Nnodes smoapi
             else if type =? link then Nlinks smoapi
             else 1)
    else if func =? getResult then
      sized (if type =? subcatch then SubcatchVars smoapi
             else if type =? node then NodeVars smoapi
             else if type =? link then LinkVars smoapi
             else SysVars smoapi)
    else ret (None, length, 421).

(** The series, attribute and result functions return
    [(errorcode, outValue)], [outValue] being the caller's array after the
    call ([None]: a null pointer was passed). *)

Definition SMO_getSubcatchSeries (subcatchIndex attr timeIndex length : Z)
    (outValueSeries : option (list REAL4)) : M (Z * option (list REAL4)) :=
  smoapi <- deref ;;
  if is_NULL (file smoapi) then ret (412, outValueSeries)
  else match outValueSeries with
       | None => ret (411, None)
       | Some out =>
           out <- for_loop (Z.to_nat length) 0
                    (fun k out =>
                       value <- getSubcatchValue (long (timeIndex + k))
                                  subcatchIndex attr ;;
                       store out k value) out ;;
           ret (0, Some out)
       end.

Definition SMO_getNodeSeries (nodeIndex attr timeIndex length : Z)
    (outValueSeries : option (list REAL4)) : M (Z * option (list REAL4)) :=
  smoapi <- deref ;;
  if is_NULL (file smoapi) then ret (412, outValueSeries)
  else match outValueSeries with
       | None => ret (411, None)
       | Some out =>
           out <- for_loop (Z.to_nat length) 0
                    (fun k out =>
                       value <- getNodeValue (long (timeIndex + k))
                                  nodeIndex attr ;;
                       store out k value) out ;;
           ret (0, Some out)
       end.

Definition SMO_getLinkSeries (linkIndex attr timeIndex length : Z)
    (outValueSeries : option (list REAL4)) : M (Z * option (list REAL4)) :=
  smoapi <- deref ;;
  if is_NULL (file smoapi) then ret (412, outValueSeries)
  else match outValueSeries with
       | None => ret (411, None)
       | Some out =>
           out <- for_loop (Z.to_nat length) 0
                    (fun k out =>
                       value <- getLinkValue (long (timeIndex + k))
                                  linkIndex attr ;;
                       store out k value) out ;;
           ret (0, Some out)
       end.

Definition SMO_getSystemSeries (attr timeIndex length : Z)
    (outValueSeries : option (list REAL4)) : M (Z * option (list REAL4)) :=
  smoapi <- deref ;;
  if is_NULL (file smoapi) then ret (412, outValueSeries)
  else match outValueSeries with
       | None => ret (411, None)
       | Some out =>
           out <- for_loop (Z.to_nat length) 0
                    (fun k out =>
                       value <- getSystemValue (long (timeIndex + k)) attr ;;
                       store out k value) out ;;
           ret (0, Some out)
       end.

Definition SMO_getSubcatchAttribute (timeIndex attr : Z)
    (outValueArray : option (list REAL4)) : M (Z * option (list REAL4)) :=
  smoapi <- deref ;;
  if is_NULL (file smoapi) then ret (412, outValueArray)
  else match outValueArray with
       | None => ret (411, None)
       | Some out =>
           out <- for_loop (Z.to_nat (Nsubcatch smoapi)) 0
                    (fun k out =>
                       value <- getSubcatchValue timeIndex (int k) attr ;;
                       store out k value) out ;;
           ret (0, Some out)
       end.

Definition SMO_getNodeAttribute (timeIndex attr : Z)
    (outValueArray : option (list REAL4)) : M (Z * option (list REAL4)) :=
  smoapi <- deref ;;
  if is_NULL (file smoapi) then ret (412, outValueArray)
  else match outValueArray with
       | None => ret (411, None)
       | Some out =>
           out <- for_loop (Z.to_nat (Nnodes smoapi)) 0
                    (fun k out =>
                       value <- getNodeValue timeIndex (int k) attr ;;
                       store out k value) out ;;
           ret (0, Some out)
       end.

Definition SMO_getLinkAttribute (timeIndex attr : Z)
    (outValueArray : option (list REAL4)) : M (Z * option (list REAL4)) :=
  smoapi <- deref ;;
  if is_NULL (file smoapi) then ret (412, outValueArray)
  else match outValueArray with
       | None => ret (411, None)
       | Some out =>
           out <- for_loop (Z.to_nat (Nlinks smoapi)) 0
                    (fun k out =>
                       value <- getLinkValue timeIndex (int k) attr ;;
                       store out k value) out ;;
           ret (0, Some out)
       end.

Definition SMO_getSystemAttribute (timeIndex attr : Z)
    (outValueArray : option (list REAL4)) : M (Z * option (list REAL4)) :=
  smoapi <- deref ;;
  if is_NULL (file smoapi) then ret (412, outValueArray)
  else match outValueArray with
       | None => ret (411, None)
       | Some out =>
           value <- getSystemValue timeIndex attr ;;
           out <- store out 0 value ;;
           ret (0, Some out)
       end.

Definition SMO_getSubcatchResult (timeIndex subcatchIndex : Z)
    (outValueArray : option (list REAL4)) : M (Z * option (list REAL4)) :=
  smoapi <- deref ;;
  if is_NULL (file smoapi) then ret (412, outValueArray)
  else if is_NULL outValueArray then ret (411, outValueArray)
  else
    let offset := period_offset smoapi timeIndex in
    let offset := off64 (offset + int ((subcatchIndex * SubcatchVars smoapi)
                                       * RECORDSIZE)) in
    fseeko64 offset SEEK_SET ;;;
    out <- fread_array outValueArray (SubcatchVars smoapi) ;;
    ret (0, out).

Definition SMO_getNodeResult (timeIndex nodeIndex : Z)
    (outValueArray : option (list REAL4)) : M (Z * option (list REAL4)) :=
  smoapi <- deref ;;
  if is_NULL (file smoapi) then ret (412, outValueArray)
  else if is_NULL outValueArray then ret (411, outValueArray)
  else
    let offset := period_offset smoapi timeIndex in
    let offset := off64 (offset + int ((Nsubcatch smoapi * SubcatchVars smoapi
                                        + nodeIndex * NodeVars smoapi)
                                       * RECORDSIZE)) in
    fseeko64 offset SEEK_SET ;;;
    out <- fread_array outValueArray (NodeVars smoapi) ;;
    ret (0, out).

Definition SMO_getLinkResult (timeIndex linkIndex : Z)
    (outValueArray : option (list REAL4)) : M (Z * option (list REAL4)) :=
  smoapi <- deref ;;
  if is_NULL (file smoapi) then ret (412, outValueArray)
  else if is_NULL outValueArray then ret (411, outValueArray)
  else
    let offset := period_offset smoapi timeIndex in
    let offset := off64 (offset + int ((Nsubcatch smoapi * SubcatchVars smoapi
                                        + Nnodes smoapi * NodeVars smoapi
                                        + linkIndex * LinkVars smoapi)
                                       * RECORDSIZE)) in
    fseeko64 offset SEEK_SET ;;;
    out <- fread_array outValueArray (LinkVars smoapi) ;;
    ret (0, out).

(** The source has no [else] before the block: the two guards only choose
    the error code, and the seek and the read run in every case. *)
Definition SMO_getSystemResult (timeIndex : Z)
    (outValueArray : option (list REAL4)) : M (Z * option (list REAL4)) :=
  smoapi <- deref ;;
  let errorcode := if is_NULL (file smoapi) then 412
                   else if is_NULL outValueArray then 411
                   else 0 in
  let offset := period_offset smoapi timeIndex in
  let offset := off64 (offset + int ((Nsubcatch smoapi * SubcatchVars smoapi
                                      + Nnodes smoapi * NodeVars smoapi
                                      + Nlinks smoapi * LinkVars smoapi)
                                     * RECORDSIZE)) in
  fseeko64 offset SEEK_SET ;;;
  out <- fread_array outValueArray (SysVars smoapi) ;;
  ret (errorcode, out).

End Environment.

(** [errmsg] is the caller's array ([None]: null).  Returns
    [(result, errmsg)]; the outer [None] is a copy through a null pointer or
    past the end of the array. *)
Definition SMO_errMessage (errcode : Z) (errmsg : option (list byte)) (n : Z)
  : option (Z * option (list byte)) :=
  let copy (msg : string) :=
    match errmsg with
    | Some dst => option_map (fun dst' => (0, Some dst'))
                    (strncpy dst (list_byte_of_string msg) n)
    | None => None
    end in
  if errcode =? 411 then copy ERR411
  else if errcode =? 412 then copy ERR412
  else if errcode =? 421 then copy ERR421
  else if errcode =? 434 then copy ERR434
  else if errcode =? 435 then copy ERR435
  else Some (421, errmsg).

(** [getTimeValue], which no function of the file calls: the date of a
    period, a [double] read into an uninitialised local ([None] when the
    read does not fill it). *)
Definition fread_double_local : M (option Z) :=
  bs <- fread (RECORDSIZE * 2) 1 ;;
  ret (if (length bs =? 8)%nat then Some (uint_le bs) else None).

Definition getTimeValue (timeIndex : Z) : M (option Z) :=
  smoapi <- deref ;;
  let offset := off64 (ResultsPos smoapi
                       + timeIndex * BytesPerPeriod smoapi) in
  fseeko64 offset SEEK_SET ;;;
  value <- fread_double_local ;;
  ret value.

End OutputAPI.

(** * Vocabulary of the statements

    Names for what the spec talks about (kinds, offsets, the fields of the
    epilogue) and for how a run is observed. *)

Import Datetime OutputAPI.

(** [post m h Q U]: the run of [m] from [h] returns a value and state
    satisfying [Q]; [U] says whether undefined behaviour is tolerated. *)
Definition post {A : Type} (m : M A) (h : heap) (Q : A -> heap -> Prop)
    (U : Prop) : Prop :=
  match m h with
  | Ret a h' => Q a h'
  | Undefined _ => U
  end.

(** The bytes of [data] from [pos], [n] of them at most. *)
Definition bytes_at (data : list byte) (pos n : Z) : list byte :=
  take (Z.to_nat n) (drop (Z.to_nat pos) data).

(** The messages [SMO_errMessage] knows, by code. *)
Definition message_text (code : Z) : option string :=
  if code =? 411 then Some ERR411
  else if code =? 412 then Some ERR412
  else if code =? 421 then Some ERR421
  else if code =? 434 then Some ERR434
  else if code =? 435 then Some ERR435
  else None.

(** The four entity kinds, and the source's functions by kind. *)
Inductive kind : Type := Subcatchment | Node | Link | System.

Definition get_value (K : kind) (timeIndex index attr : Z) : M REAL4 :=
  match K with
  | Subcatchment => getSubcatchValue timeIndex index attr
  | Node => getNodeValue timeIndex index attr
  | Link => getLinkValue timeIndex index attr
  | System => getSystemValue timeIndex attr
  end.

Definition get_series (K : kind) (index attr timeIndex length : Z)
    (out : option (list REAL4)) : M (Z * option (list REAL4)) :=
  match K with
  | Subcatchment => SMO_getSubcatchSeries index attr timeIndex length out
  | Node => SMO_getNodeSeries index attr timeIndex length out
  | Link => SMO_getLinkSeries index attr timeIndex length out
  | System => SMO_getSystemSeries attr timeIndex length out
  end.

Definition get_attribute (K : kind) (timeIndex attr : Z)
    (out : option (list REAL4)) : M (Z * option (list REAL4)) :=
  match K with
  | Subcatchment => SMO_getSubcatchAttribute timeIndex attr out
  | Node => SMO_getNodeAttribute timeIndex attr out
  | Link => SMO_getLinkAttribute timeIndex attr out
  | System => SMO_getSystemAttribute timeIndex attr out
  end.

Definition get_result (K : kind) (timeIndex index : Z)
    (out : option (list REAL4)) : M (Z * option (list REAL4)) :=
  match K with
  | Subcatchment => SMO_getSubcatchResult timeIndex index out
  | Node => SMO_getNodeResult timeIndex index out
  | Link => SMO_getLinkResult timeIndex index out
  | System => SMO_getSystemResult timeIndex out
  end.

(** Entities and variables of a kind; the system is one entity. *)
Definition count_of (K : kind) (s : SMOutputAPI) : Z :=
  match K with
  | Subcatchment => Nsubcatch s
  | Node => Nnodes s
  | Link => Nlinks s
  | System => 1
  end.

Definition vars_of (K : kind) (s : SMOutputAPI) : Z :=
  match K with
  | Subcatchment => SubcatchVars s
  | Node => NodeVars s
  | Link => LinkVars s
  | System => SysVars s
  end.

(** The spec's layout (sections 3 and 4.3), in exact arithmetic: the number
    of values in a period, and the file offset of a scalar. *)
Definition values_per_period (s : SMOutputAPI) : Z :=
  Nsubcatch s * SubcatchVars s + Nnodes s * NodeVars s
  + Nlinks s * LinkVars s + SysVars s.

Definition value_index (K : kind) (s : SMOutputAPI) (i a : Z) : Z :=
  match K with
  | Subcatchment => i * SubcatchVars s + a
  | Node => Nsubcatch s * SubcatchVars s + i * NodeVars s + a
  | Link => Nsubcatch s * SubcatchVars s + Nnodes s * NodeVars s
            + i * LinkVars s + a
  | System => Nsubcatch s * SubcatchVars s + Nnodes s * NodeVars s
              + Nlinks s * LinkVars s + a
  end.

Definition scalar_offset (K : kind) (s : SMOutputAPI) (p i a : Z) : Z :=
  ResultsPos s + p * BytesPerPeriod s + 8 + 4 * value_index K s i a.

(** The offset the code computes, in machine arithmetic. *)
Definition code_offset (K : kind) (s : SMOutputAPI) (p i a : Z) : Z :=
  off64 (period_offset s p + int (RECORDSIZE * value_index K s i a)).

(** Counts and variable counts are not negative and a period's values are
    counted without [int] overflow. *)
Definition layout_ok (s : SMOutputAPI) : Prop :=
  0 <= Nsubcatch s /\ 0 <= Nnodes s /\ 0 <= Nlinks s
  /\ 0 <= SubcatchVars s /\ 0 <= NodeVars s /\ 0 <= LinkVars s
  /\ 0 <= SysVars s
  /\ DATESIZE + values_per_period s * RECORDSIZE <= INT_MAX.

(** Period [p] lies inside the file. *)
Definition period_inside (s : SMOutputAPI) (data : list byte) (p : Z) : Prop :=
  0 <= p <= INT_MAX /\ 0 <= ResultsPos s /\ 0 <= BytesPerPeriod s
  /\ ResultsPos s + p * BytesPerPeriod s + 8 + 4 * values_per_period s
     <= Z.of_nat (length data)
  /\ Z.of_nat (length data) <= OFF_MAX.

Definition valid_index (K : kind) (s : SMOutputAPI) (i a : Z) : Prop :=
  0 <= i < count_of K s /\ 0 <= a < vars_of K s.

(** [s'] is [s] with the stream moved: same fields, same file bytes. *)
Definition moved (s s' : SMOutputAPI) : Prop :=
  exists f f', file s = Some f /\ s' = set_file (Some f') s
               /\ f_data f' = f_data f.

(** What a scalar read at [offset] does to the stream and obtains. *)
Definition scalar_read (f : FILE) (offset : Z) : list byte * FILE :=
  file_read (file_seek f offset SEEK_SET) RECORDSIZE 1.

(** The value of a scalar that lies inside the file. *)
Definition value_at (data : list byte) (X : Z) : REAL4 :=
  Float (uint_le (bytes_at data X 4)).

(** The fields of the file that [validateFile] looks at (spec 4.1, steps 1
    and 2): the leading magic number and the six integers of the epilogue,
    numbered from 0. *)
Definition leading_magic (data : list byte) : Z :=
  int (uint_le (bytes_at data 0 4)).

Definition epilogue_field (data : list byte) (k : Z) : Z :=
  int (uint_le (bytes_at data (Z.of_nat (length data) - 24 + 4 * k) 4)).

Definition n_periods (data : list byte) : Z := epilogue_field data 3.
Definition terminating_error (data : list byte) : Z := epilogue_field data 4.
Definition magic_trailer (data : list byte) : Z := epilogue_field data 5.

(** The verdict of [validateFile], in the order the code tests. *)
Definition validation_code (data : list byte) : Z :=
  if negb (leading_magic data =? magic_trailer data) then 435
  else if n_periods data <=? 0 then 436
  else if negb (terminating_error data =? 0) then 435
  else 0.

(** The offset [SMO_getSystemResult] seeks to. *)
Definition system_row_offset (s : SMOutputAPI) (timeIndex : Z) : Z :=
  off64 (period_offset s timeIndex
         + int ((Nsubcatch s * SubcatchVars s + Nnodes s * NodeVars s
                 + Nlinks s * LinkVars s) * RECORDSIZE)).

(** ** A sample file

    One subcatchment, one node, two links, no pollutant; 2, 1, 3 and 2
    variables; two periods.  The value stored for a variable is a small
    integer that tells period, kind, entity and attribute apart. *)

Definition le32 (x : Z) : list byte := le_bytes 4 x.

Definition id_entry (s : string) : list byte :=
  le32 (Z.of_nat (length (list_byte_of_string s))) ++ list_byte_of_string s.

Definition sample_period (p : Z) : list byte :=
  le_bytes 8 (p + 1)
  ++ concat (map (fun v => le32 (1000 * p + v))
               [100; 101; 200; 300; 301; 302; 310; 311; 312; 400; 401]).

Definition sample_file : list byte :=
  concat (map le32 [516114522; 51000; 0; 1; 1; 2; 0])
  ++ id_entry "S1" ++ id_entry "N1" ++ id_entry "L1" ++ id_entry "L2"
  ++ concat (map le32 (replicate 26 7))
  ++ concat (map le32 [2; 0; 1; 1; 0; 3; 0; 1; 2; 2; 0; 1])
  ++ le_bytes 8 0x40E4000000000000 ++ le32 60
  ++ sample_period 0 ++ sample_period 1
  ++ concat (map le32 [28; 52; 216; 2; 0; 516114522]).

(** A run that was terminated before any period was written: the magic
    numbers agree, [n_periods] is 0 and the error field is 1. *)
Definition terminated_file : list byte :=
  concat (map le32 [516114522; 0; 0; 0; 0; 1; 516114522]).

(** The same with two periods counted. *)
Definition terminated_late_file : list byte :=
  concat (map le32 [516114522; 0; 0; 0; 2; 1; 516114522]).

Definition disk_of (data : list byte) (path : list byte) : option (list byte) :=
  Some data.

Definition grant_all (bytes : Z) : bool := true.

(** A block whose bytes are all zero: in particular a null stream. *)
Definition blank : SMOutputAPI :=
  mkSMOutputAPI None None 0 0 0 0 0 0 0 0 0 0 0 0 0 0 0 0.

(** The handle after [SMO_open] of the sample file, and its stream. *)
Definition sample_handle : SMOutputAPI :=
  Eval vm_compute in
    match SMO_open (disk_of sample_file) [] (SMO_init blank) with
    | Ret _ (Some s) => s
    | _ => blank
    end.

Definition sample_stream : FILE :=
  Eval vm_compute in
    match file sample_handle with
    | Some f => f
    | None => mkFILE [] 0 []
    end.

(** ** The calendar, in exact arithmetic *)

(** Days from 1 January of year 1 to 1 January of year [y], and from
    1 January to the first of month [m] in a year of leap flag [k]. *)
Definition days_before_year (y : Z) : Z :=
  (y - 1) * 365 + (y - 1) / 4 - (y - 1) / 100 + (y - 1) / 400.

Definition days_before_month (k m : Z) : Z :=
  fold_left Z.add (firstn (Z.to_nat (m - 1)) (DaysPerMonth_row k)) 0.

(** A date [datetime_encodeDate] accepts. *)
Definition valid_date (y m d : Z) : Prop :=
  1 <= y <= 9999 /\ 1 <= m <= 12 /\ 1 <= d <= datetime_daysPerMonth y m.

(** Calendar order. *)
Definition date_before (y1 m1 d1 y2 m2 d2 : Z) : Prop :=
  y1 < y2 \/ (y1 = y2 /\ (m1 < m2 \/ (m1 = m2 /\ d1 < d2))).

(** A calendar date of any year from 1 on, and its day count: 1 for
    1 January of year 1. *)
Definition calendar_date (y m d : Z) : Prop :=
  1 <= y /\ 1 <= m <= 12 /\ 1 <= d <= DaysPerMonth_at (isLeapYear y) (m - 1).

Definition day_count (y m d : Z) : Z :=
  days_before_year y + days_before_month (isLeapYear y) m + d.

(** The upper-case form of a character, as [UCHAR] computes it. *)
Definition to_upper (b : byte) : byte :=
  let u := Z.of_N (Byte.to_N b) in
  if (97 <=? u) && (u <=? 122) then byte_of_Z (u - 32) else b.

(** The format after a run of [datetime_setDateFormat] calls, the static
    starting at zero. *)
Definition DateFormat_after (fmts : list Z) : Z :=
  fold_left (fun DateFormat fmt => datetime_setDateFormat fmt DateFormat)
    fmts 0.

(** The 32-bit integers at the start of the file, numbered from 0: the
    magic number, the version, the flow units and the four counts. *)
Definition header_field (data : list byte) (k : Z) : Z :=
  int (uint_le (bytes_at data (4 * k) 4)).

(** The unsigned value of the four bytes of epilogue field [k]. *)
Definition epilogue_word (data : list byte) (k : Z) : Z :=
  uint_le (bytes_at data (Z.of_nat (length data) - 24 + 4 * k) 4).

(** The element type code of a kind. *)
Definition type_of (K : kind) : Z :=
  match K with
  | Subcatchment => subcatch
  | Node => node
  | Link => link
  | System => sys
  end.

(** The table of element names in the file: for each name, its length as a
    32-bit integer and then its characters. *)
Definition id_record (e : list byte) : list byte :=
  le_bytes 4 (Z.of_nat (length e)) ++ e.

Definition id_table (es : list (list byte)) : list byte :=
  concat (map id_record es).

(** The entry [initElementNames] makes of a name: the characters in a
    zeroed block one byte longer, and the length. *)
Definition loaded_entry (e : list byte) : idEntry :=
  mkIDentry (Some (e ++ [x00])) (Z.of_nat (length e)).

(** Names are stored subcatchments first, then nodes, links and
    pollutants; the type code [sys] selects the pollutants. *)
Definition name_count (K : kind) (s : SMOutputAPI) : Z :=
  match K with
  | Subcatchment => Nsubcatch s
  | Node => Nnodes s
  | Link => Nlinks s
  | System => Npolluts s
  end.

Definition name_index (K : kind) (s : SMOutputAPI) (i : Z) : Z :=
  match K with
  | Subcatchment => i
  | Node => Nsubcatch s + i
  | Link => Nsubcatch s + Nnodes s + i
  | System => Nsubcatch s + Nnodes s + Nlinks s + i
  end.

(** ** More samples *)

(** A block as [malloc] may return it: every bit of [IDPos] and of
    [ResultsPos] is set. *)
Definition dirty_block : SMOutputAPI :=
  set_ResultsPos (-1) (set_IDPos (-1) blank).

Definition dirty_handle : SMOutputAPI :=
  Eval vm_compute in
    match SMO_open (disk_of sample_file) [] (SMO_init dirty_block) with
    | Ret _ (Some s) => s
    | _ => blank
    end.

(** The names of the sample file, in the order of its table. *)
Definition sample_names : list (list byte) :=
  map list_byte_of_string ["S1"; "N1"; "L1"; "L2"]%string.

Definition no_disk (path : list byte) : option (list byte) := None.

(** ** The layout [SMO_open] reads

    Where the file keeps what [SMO_open] stores in the handle, as the code
    walks it: the positions in the epilogue, the variable counts after the
    saved input values, the start date and the report step just before the
    results. *)
Definition word_at (data : list byte) (pos : Z) : Z :=
  int (uint_le (bytes_at data pos 4)).

Definition file_ObjPropPos (data : list byte) : Z := epilogue_word data 1.
Definition file_ResultsPos (data : list byte) : Z := epilogue_word data 2.

(** The bytes skipped after [ObjPropPos]: the saved input values of the
    subcatchments, nodes and links. *)
Definition file_inputs_size (data : list byte) : Z :=
  (header_field data 3 + 2) * 4 + (3 * header_field data 4 + 4) * 4
  + (5 * header_field data 5 + 6) * 4.

Definition file_SubcatchVars_pos (data : list byte) : Z :=
  file_ObjPropPos data + file_inputs_size data.
Definition file_SubcatchVars (data : list byte) : Z :=
  word_at data (file_SubcatchVars_pos data).

Definition file_NodeVars_pos (data : list byte) : Z :=
  file_SubcatchVars_pos data + 4 + 4 * file_SubcatchVars data.
Definition file_NodeVars (data : list byte) : Z :=
  word_at data (file_NodeVars_pos data).

Definition file_LinkVars_pos (data : list byte) : Z :=
  file_NodeVars_pos data + 4 + 4 * file_NodeVars data.
Definition file_LinkVars (data : list byte) : Z :=
  word_at data (file_LinkVars_pos data).

Definition file_SysVars_pos (data : list byte) : Z :=
  file_LinkVars_pos data + 4 + 4 * file_LinkVars data.
Definition file_SysVars (data : list byte) : Z :=
  word_at data (file_SysVars_pos data).

Definition file_StartDate (data : list byte) : Z :=
  uint_le (bytes_at data (file_ResultsPos data - 12) 8).
Definition file_ReportStep (data : list byte) : Z :=
  word_at data (file_ResultsPos data - 4).

(** Every position of the walk lies inside the file and no [int]
    overflows on the way. *)
Definition readable_layout (data : list byte) : Prop :=
  28 <= Z.of_nat (length data) <= OFF_MAX
  /\ 0 <= header_field data 3 /\ 0 <= header_field data 4
  /\ 0 <= header_field data 5
  /\ file_inputs_size data <= INT_MAX
  /\ 0 <= file_SubcatchVars data /\ 4 * file_SubcatchVars data <= INT_MAX
  /\ 0 <= file_NodeVars data /\ 4 * file_NodeVars data <= INT_MAX
  /\ 0 <= file_LinkVars data /\ 4 * file_LinkVars data <= INT_MAX
  /\ file_SysVars_pos data + 4 <= Z.of_nat (length data)
  /\ 12 <= file_ResultsPos data <= Z.of_nat (length data).

(** The sample handle once its names have been asked for. *)
Definition named_handle : SMOutputAPI :=
  set_elementNames (Some (map loaded_entry sample_names)) sample_handle.

(** * Properties *)

(** ** Machine integers *)

Lemma wrap_small w x : 0 < w -> - 2 ^ (w - 1) <= x < 2 ^ (w - 1) -> wrap w x = x.
Proof.
  intros Hw Hx. unfold wrap.
  replace (2 ^ w) with (2 * 2 ^ (w - 1)).
  - rewrite Z.mod_small; lia.
  - rewrite <- Z.pow_succ_r by lia. f_equal. lia.
Qed.

Lemma int_small x : in_int x -> int x = x.
Proof. unfold in_int, INT_MIN, INT_MAX, int. intros. apply wrap_small; lia. Qed.

Lemma D400_val : D400 = 146097. Proof. reflexivity. Qed.
Lemma D100_val : D100 = 36524. Proof. reflexivity. Qed.
Lemma D4_val : D4 = 1461. Proof. reflexivity. Qed.
Lemma D1_val : D1 = 365. Proof. reflexivity. Qed.

Lemma while_D400_spec t y :
  0 <= t -> while_D400 t y = (t mod D400, y + 400 * (t / D400)).
Proof.
  funelim (while_D400 t y); intros Ht; clear Heq;
    pose proof D400_val as E; rewrite E in *.
  - rewrite H by lia. f_equal; Z.div_mod_to_equations; lia.
  - f_equal; Z.div_mod_to_equations; lia.
Qed.

(** The Gregorian day count splits along the 400/100/4/1-year cycles. *)
Lemma split_year n :
  0 <= n ->
  let q := n / 400 in let r := n mod 400 in
  let c := r / 100 in let r' := r mod 100 in
  let f := r' / 4 in let s := r' mod 4 in
  n * 365 + n / 4 - n / 100 + n / 400
  = 146097 * q + 36524 * c + 1461 * f + 365 * s
  /\ 0 <= c <= 3 /\ 0 <= f <= 24 /\ 0 <= s <= 3
  /\ n = 400 * q + 100 * c + 4 * f + s /\ 0 <= q.
Proof.
  intros Hn. cbv zeta. Z.div_mod_to_equations. lia.
Qed.

Lemma divMod_nonneg n d :
  0 <= n <= INT_MAX -> 0 < d -> divMod n d = (n / d, n mod d).
Proof.
  intros Hn Hd. unfold divMod.
  destruct (Z.eqb_spec d 0); [lia|].
  rewrite Z.quot_div_nonneg by lia.
  f_equal. rewrite <- Z.mod_eq by lia. apply int_small.
  pose proof (Z.mod_pos_bound n d Hd). pose proof (Z.mod_le n d).
  unfold in_int, INT_MIN, INT_MAX in *. lia.
Qed.

Lemma isLeapYear_split q c f s :
  0 <= q -> 0 <= c <= 3 -> 0 <= f <= 24 -> 0 <= s <= 3 ->
  isLeapYear (400 * q + 100 * c + 4 * f + s + 1)
  = if (s =? 3) && (negb (f =? 24) || (c =? 3)) then 1 else 0.
Proof.
  intros Hq Hc Hf Hs. unfold isLeapYear.
  rewrite !Z.rem_mod_nonneg by lia.
  repeat match goal with
         | |- context [?a =? ?b] => destruct (Z.eqb_spec a b)
         end; cbn; try reflexivity; exfalso; Z.div_mod_to_equations; lia.
Qed.

(** The straight-line part of [datetime_decodeDate] between the two loops. *)
Lemma year_of_day_count q c f s e :
  0 <= q -> 0 <= c <= 3 -> 0 <= f <= 24 -> 0 <= s <= 3 ->
  0 <= e < 365 + (if (s =? 3) && (negb (f =? 24) || (c =? 3)) then 1 else 0) ->
  146097 * q + 36524 * c + 1461 * f + 365 * s + e <= INT_MAX ->
  let t := 146097 * q + 36524 * c + 1461 * f + 365 * s + e in
  let '(t, y) := while_D400 t 1 in
  let '(i, d) := divMod t D100 in
  let '(i, d) := if i =? 4 then (i - 1, d + D100) else (i, d) in
  let y := y + i * 100 in
  let '(i, d) := divMod d D4 in
  let y := y + i * 4 in
  let '(i, d) := divMod d D1 in
  let '(i, d) := if i =? 4 then (i - 1, d + D1) else (i, d) in
  (y + i, d) = (400 * q + 100 * c + 4 * f + s + 1, e).
Proof.
  intros Hq Hc Hf Hs He Hmax. cbv zeta.
  assert (Hleap : 0 <= e < 366 /\ (e = 365 -> s = 3 /\ (f <> 24 \/ c = 3))).
  { destruct (Z.eqb_spec s 3), (Z.eqb_spec f 24), (Z.eqb_spec c 3);
      cbn in He; lia. }
  clear He. destruct Hleap as [He He'].
  rewrite while_D400_spec by lia.
  rewrite D400_val, D100_val, D4_val, D1_val.
  set (R := 36524 * c + 1461 * f + 365 * s + e).
  assert (HR : 0 <= R < 146097) by (unfold R; lia).
  replace (146097 * q + 36524 * c + 1461 * f + 365 * s + e)
    with (R + q * 146097) by (unfold R; lia).
  rewrite Z.div_add, Z.mod_add by lia.
  rewrite Z.mod_small, Z.div_small by lia.
  unfold INT_MAX in *.
  rewrite divMod_nonneg by (unfold INT_MAX; lia).
  set (R1 := 1461 * f + 365 * s + e).
  assert (H1 : R / 36524 = 4 /\ R mod 36524 = 0 /\ R1 = 36524
               \/ R / 36524 = c /\ R mod 36524 = R1 /\ R1 < 36524).
  { unfold R, R1. Z.div_mod_to_equations. lia. }
  assert (HR1 : 0 <= R1 <= 36524) by (unfold R1; lia).
  assert (Hd1 : (let '(i, d) := if R / 36524 =? 4
                                then (R / 36524 - 1, R mod 36524 + 36524)
                                else (R / 36524, R mod 36524) in (i, d))
                = (c, R1)).
  { destruct H1 as [(-> & -> & E)|(-> & -> & E)].
    - rewrite Z.eqb_refl. f_equal; unfold R1 in *; lia.
    - destruct (Z.eqb_spec c 4); [lia|reflexivity]. }
  destruct (if R / 36524 =? 4 then _ else _) as [i1 d1].
  injection Hd1 as -> ->.
  rewrite divMod_nonneg by (unfold INT_MAX; lia).
  set (R2 := 365 * s + e).
  assert (H2 : R1 / 1461 = f /\ R1 mod 1461 = R2 /\ 0 <= R2 <= 1460).
  { unfold R1, R2. Z.div_mod_to_equations. lia. }
  destruct H2 as (-> & -> & HR2).
  rewrite divMod_nonneg by (unfold INT_MAX; lia).
  assert (H3 : R2 / 365 = 4 /\ R2 mod 365 = 0 /\ s = 3 /\ e = 365
               \/ R2 / 365 = s /\ R2 mod 365 = e /\ e < 365).
  { unfold R2. Z.div_mod_to_equations. lia. }
  destruct H3 as [(-> & -> & E1 & E2)|(-> & -> & E)].
  - rewrite Z.eqb_refl. f_equal; lia.
  - destruct (Z.eqb_spec s 4); [lia|]. f_equal; lia.
Qed.

Lemma fold_left_add_shift (l : list Z) (x p : Z) :
  fold_left Z.add l (x + p) = fold_left Z.add l x + p.
Proof.
  revert x. induction l as [|a l IH]; intros x; cbn [fold_left]; [reflexivity|].
  replace (x + p + a) with (x + a + p) by lia. apply IH.
Qed.

Lemma fold_left_add_nonneg (l : list Z) (x : Z) :
  Forall (fun i => 0 <= i) l -> x <= fold_left Z.add l x.
Proof.
  intros H. revert x. induction H as [|a l Ha _ IH]; intros x; cbn [fold_left].
  - lia.
  - specialize (IH (x + a)). lia.
Qed.

(** The month loop stops at the entry whose days contain the offset. *)
Lemma month_loop_prefix (pre post : list Z) (i m0 x : Z) :
  Forall (fun i => 0 <= i) pre -> 0 <= x < i ->
  month_loop (pre ++ i :: post) m0 (fold_left Z.add pre x)
  = Some (m0 + Z.of_nat (length pre), x).
Proof.
  intros Hpre Hx. revert m0.
  induction Hpre as [|p pre Hp Hpre IH]; intros m0; cbn [app month_loop fold_left length].
  - destruct (Z.ltb_spec x i); [|lia]. f_equal; f_equal; lia.
  - rewrite fold_left_add_shift.
    pose proof (fold_left_add_nonneg pre x Hpre).
    destruct (Z.ltb_spec (fold_left Z.add pre x + p) p); [lia|].
    replace (fold_left Z.add pre x + p - p) with (fold_left Z.add pre x) by lia.
    rewrite IH. f_equal; f_equal; lia.
Qed.

Lemma split_at_nth (l : list Z) (n : nat) :
  (n < length l)%nat -> l = firstn n l ++ nth n l 0 :: skipn (S n) l.
Proof.
  revert n. induction l as [|a l IH]; intros [|n] Hn; cbn in *; try lia.
  - reflexivity.
  - f_equal. apply IH. lia.
Qed.

Lemma Forall_take (P : Z -> Prop) (n : nat) (l : list Z) :
  Forall P l -> Forall P (firstn n l).
Proof.
  intros H. revert n. induction H; intros [|n]; cbn; constructor; auto.
Qed.

Lemma DaysPerMonth_row_nonneg k :
  k = 0 \/ k = 1 -> Forall (fun i => 0 <= i) (DaysPerMonth_row k).
Proof.
  intros [-> | ->]; unfold DaysPerMonth_row; cbn;
    repeat constructor; lia.
Qed.

(** Day-of-year and back: the month loop undoes the summation of
    [datetime_encodeDate]. *)
Lemma month_loop_day_of_year k m d :
  k = 0 \/ k = 1 -> 1 <= m <= 12 -> 1 <= d <= DaysPerMonth_at k (m - 1) ->
  let e := fold_left Z.add (firstn (Z.to_nat (m - 1)) (DaysPerMonth_row k)) d - 1 in
  0 <= e < 365 + k /\ month_loop (DaysPerMonth_row k) 1 e = Some (m, d - 1).
Proof.
  intros Hk Hm Hd e. split.
  - assert (Hcases : m = 1 \/ m = 2 \/ m = 3 \/ m = 4 \/ m = 5 \/ m = 6 \/ m = 7
                   \/ m = 8 \/ m = 9 \/ m = 10 \/ m = 11 \/ m = 12) by lia.
    subst e. unfold DaysPerMonth_at in Hd.
    destruct Hk as [-> | ->];
      repeat (destruct Hcases as [-> | Hcases]); try subst m;
      unfold DaysPerMonth_row in *; simpl in *; lia.
  - assert (Hlen : (Z.to_nat (m - 1) < length (DaysPerMonth_row k))%nat).
    { replace (length (DaysPerMonth_row k)) with 12%nat
        by (destruct Hk as [-> | ->]; reflexivity).
      lia. }
    pose proof (split_at_nth _ _ Hlen) as Hrow.
    rewrite Hrow at 1. subst e.
    replace (fold_left Z.add (firstn (Z.to_nat (m - 1)) (DaysPerMonth_row k)) d - 1)
      with (fold_left Z.add (firstn (Z.to_nat (m - 1)) (DaysPerMonth_row k)) (d - 1)).
    2:{ replace d with (d - 1 + 1) at 2 by lia.
        rewrite fold_left_add_shift. lia. }
    rewrite month_loop_prefix.
    + rewrite length_firstn, Nat.min_l by lia. f_equal; f_equal; lia.
    + apply Forall_take. apply DaysPerMonth_row_nonneg; assumption.
    + unfold DaysPerMonth_at in Hd. lia.
Qed.

(** C8.  For every year from 1 to 9999, month from 1 to 12 and day from 1
    to [datetime_daysPerMonth year month], decoding the [DateTime] that
    [datetime_encodeDate] produced gives back exactly the year, the month
    and the day. *)
Theorem date_round_trip (y m d : Z) :
  1 <= y <= 9999 -> 1 <= m <= 12 -> 1 <= d <= datetime_daysPerMonth y m ->
  datetime_decodeDate (datetime_encodeDate y m d) = Some (y, m, d).
Proof.
  intros Hy Hm Hd.
  unfold datetime_daysPerMonth in Hd.
  destruct (Z.ltb_spec m 1); [lia|]. destruct (Z.gtb_spec m 12); [lia|].
  cbn [orb] in Hd.
  destruct (split_year (y - 1)) as (Hsum & Hc & Hf & Hs & Hn & Hq); [lia|].
  set (q := (y - 1) / 400) in *. set (c := (y - 1) mod 400 / 100) in *.
  set (f := (y - 1) mod 400 mod 100 / 4) in *.
  set (s := (y - 1) mod 400 mod 100 mod 4) in *.
  assert (Hleap : isLeapYear y
                  = if (s =? 3) && (negb (f =? 24) || (c =? 3)) then 1 else 0).
  { rewrite <- (isLeapYear_split q c f s) by lia. f_equal. lia. }
  set (k := isLeapYear y) in *.
  assert (Hk : k = 0 \/ k = 1).
  { rewrite Hleap. destruct (_ && _); auto. }
  destruct (month_loop_day_of_year k m d Hk Hm Hd) as [He Hloop].
  set (e := fold_left Z.add (firstn (Z.to_nat (m - 1)) (DaysPerMonth_row k)) d - 1) in *.
  unfold datetime_encodeDate. fold k.
  replace ((1 <=? y) && (y <=? 9999) && (1 <=? m) && (m <=? 12) && (1 <=? d)
           && (d <=? DaysPerMonth_at k (m - 1))) with true.
  2:{ symmetry. repeat (apply andb_true_intro; split); apply Z.leb_le; lia. }
  rewrite !Z.quot_div_nonneg by lia.
  replace ((y - 1) * 365 + (y - 1) / 4 - (y - 1) / 100 + (y - 1) / 400
           + fold_left Z.add (firstn (Z.to_nat (m - 1)) (DaysPerMonth_row k)) d
           - DateDelta)
    with (146097 * q + 36524 * c + 1461 * f + 365 * s + e + 1 - DateDelta)
    by (unfold e; lia).
  unfold datetime_decodeDate, DateDelta. rewrite Qfloor_Z.
  assert (Hqb : q <= 24) by (unfold q; Z.div_mod_to_equations; lia).
  rewrite (int_small (_ - 693594)) by (unfold in_int, INT_MIN, INT_MAX; lia).
  rewrite (int_small (_ - 693594)) by (unfold in_int, INT_MIN, INT_MAX; lia).
  rewrite int_small by (unfold in_int, INT_MIN, INT_MAX; lia).
  replace (146097 * q + 36524 * c + 1461 * f + 365 * s + e + 1 - 693594 + 693594)
    with (146097 * q + 36524 * c + 1461 * f + 365 * s + e + 1) by lia.
  destruct (Z.leb_spec (146097 * q + 36524 * c + 1461 * f + 365 * s + e + 1) 0); [lia|].
  replace (146097 * q + 36524 * c + 1461 * f + 365 * s + e + 1 - 1)
    with (146097 * q + 36524 * c + 1461 * f + 365 * s + e) by lia.
  pose proof (year_of_day_count q c f s e) as Hyear.
  rewrite <- Hleap in Hyear. cbv zeta in Hyear.
  specialize (Hyear ltac:(lia) ltac:(lia) ltac:(lia) ltac:(lia) ltac:(lia)
                    ltac:(unfold INT_MAX; lia)).
  destruct (while_D400 _ 1) as [t0 y0].
  destruct (divMod t0 D100) as [i1 d1].
  destruct (if i1 =? 4 then _ else _) as [i1' d1'].
  destruct (divMod d1' D4) as [i2 d2].
  destruct (divMod d2 D1) as [i3 d3].
  destruct (if i3 =? 4 then _ else _) as [i3' d3'].
  apply pair_equal_spec in Hyear. destruct Hyear as [Ey Ed].
  replace (y0 + i1' * 100 + i2 * 4 + i3') with y by lia.
  fold k. subst d3'. rewrite Hloop. f_equal. f_equal. lia.
Qed.

Lemma long_small x : in_long x -> long x = x.
Proof. apply int_small. Qed.

Lemma off64_small x : in_off64 x -> off64 x = x.
Proof. unfold in_off64, off64. intros. apply wrap_small; lia. Qed.

Lemma wrap_range w x : 0 < w -> - 2 ^ (w - 1) <= wrap w x < 2 ^ (w - 1).
Proof.
  intros Hw. unfold wrap.
  assert (E : 2 ^ w = 2 * 2 ^ (w - 1)).
  { rewrite <- Z.pow_succ_r by lia. f_equal. lia. }
  pose proof (Z.mod_pos_bound (x + 2 ^ (w - 1)) (2 ^ w)) as B.
  assert (0 < 2 ^ (w - 1)) by (apply Z.pow_pos_nonneg; lia).
  lia.
Qed.

Lemma int_range x : in_int (int x).
Proof.
  unfold in_int, INT_MIN, INT_MAX, int.
  pose proof (wrap_range 32 x). change (32 - 1) with 31 in *. lia.
Qed.

(** ** Running the reader *)

Section PostRules.
Context {A B : Type}.
Implicit Types (Q : A -> heap -> Prop) (U : Prop).

Lemma post_ret (a : A) h Q U : Q a h -> post (ret a) h Q U.
Proof. intros HQ. exact HQ. Qed.

Lemma post_bind (m : M A) (k : A -> M B) h (R : B -> heap -> Prop) U :
  post m h (fun a h' => post (k a) h' R U) U -> post (bind m k) h R U.
Proof. unfold post, bind. destruct (m h); auto. Qed.

Lemma post_weaken (m : M A) h Q (Q' : A -> heap -> Prop) U :
  post m h Q U -> (forall a h', Q a h' -> Q' a h') -> post m h Q' U.
Proof. unfold post. destruct (m h); auto. Qed.

Lemma post_any (m : M A) h Q : (forall a h', Q a h') -> post m h Q True.
Proof. unfold post. destruct (m h); auto. Qed.

Lemma post_returns (m : M A) h Q :
  post m h Q False <-> exists a h', m h = Ret a h' /\ Q a h'.
Proof.
  unfold post. destruct (m h) as [a h'|h'].
  - split; [eauto|]. intros (a' & h'' & E & HQ). congruence.
  - split; [tauto|]. intros (a' & h'' & E & _). discriminate.
Qed.

Lemma post_of_eq (m : M A) h a h' Q U : m h = Ret a h' -> Q a h' -> post m h Q U.
Proof. unfold post. intros ->. auto. Qed.

Lemma post_inv (m : M A) h a h' Q U : post m h Q U -> m h = Ret a h' -> Q a h'.
Proof. unfold post. intros H E. rewrite E in H. exact H. Qed.
End PostRules.

Lemma post_deref s (Q : SMOutputAPI -> heap -> Prop) U :
  Q s (Some s) -> post deref (Some s) Q U.
Proof. intros HQ. exact HQ. Qed.

Lemma post_assign upd s (Q : unit -> heap -> Prop) U :
  Q tt (Some (upd s)) -> post (assign upd) (Some s) Q U.
Proof. intros HQ. exact HQ. Qed.

(** The state after a stdio call: only the stream moved. *)
Lemma fseeko64_open s f offset origin :
  file s = Some f ->
  fseeko64 offset origin (Some s)
  = Ret tt (Some (set_file (Some (file_seek f offset origin)) s)).
Proof. intros Hf. unfold fseeko64, bind, deref. rewrite Hf. reflexivity. Qed.

Lemma fread_open s f size nmemb :
  file s = Some f ->
  fread size nmemb (Some s)
  = Ret (fst (file_read f size nmemb))
        (Some (set_file (Some (snd (file_read f size nmemb))) s)).
Proof.
  intros Hf. unfold fread, bind, deref. rewrite Hf.
  destruct (file_read f size nmemb). reflexivity.
Qed.

Lemma fseeko64_closed s offset origin :
  file s = None -> fseeko64 offset origin (Some s) = Undefined (Some s).
Proof. intros Hf. unfold fseeko64, bind, deref. rewrite Hf. reflexivity. Qed.

Lemma set_file_set_file x y s : set_file x (set_file y s) = set_file x s.
Proof. reflexivity. Qed.

Lemma set_file_same s f : file s = Some f -> set_file (Some f) s = s.
Proof. destruct s; cbn. intros ->. reflexivity. Qed.

Lemma length_bytes_at data pos n :
  0 <= pos -> 0 <= n -> pos + n <= Z.of_nat (length data) ->
  length (bytes_at data pos n) = Z.to_nat n.
Proof.
  intros Hp Hn Hlen. unfold bytes_at.
  rewrite length_take, length_drop. lia.
Qed.

Lemma size_t_small x : 0 <= x <= SIZE_MAX -> size_t x = x.
Proof. unfold size_t, SIZE_MAX. intros. apply Z.mod_small. lia. Qed.

(** A read of [size * nmemb] bytes that lie inside the file. *)
Lemma file_read_inside f size nmemb :
  0 <= size <= 8 -> 0 <= nmemb <= INT_MAX -> 0 <= f_pos f ->
  f_pos f + size * nmemb <= Z.of_nat (length (f_data f)) ->
  file_read f size nmemb
  = (bytes_at (f_data f) (f_pos f) (size * nmemb),
     mkFILE (f_data f) (f_pos f + size * nmemb)
            (f_calls f ++ [io_fread size nmemb])).
Proof.
  intros Hs Hn Hp Hlen. unfold file_read.
  rewrite !size_t_small by (unfold SIZE_MAX, INT_MAX in *; lia).
  assert (Hmin : Z.min (size * nmemb)
                   (Z.of_nat (length (drop (Z.to_nat (f_pos f)) (f_data f))))
                 = size * nmemb).
  { rewrite length_drop. unfold INT_MAX in *. nia. }
  rewrite Hmin. fold (bytes_at (f_data f) (f_pos f) (size * nmemb)).
  rewrite length_bytes_at by (unfold INT_MAX in *; nia).
  f_equal. f_equal. unfold INT_MAX in *. nia.
Qed.

(** ** The getters, the allocator and the message lookup *)

(** C10.  [SMO_getProjectSize], [SMO_getUnits], [SMO_getStartTime] and
    [SMO_getTimes] always return, leave the handle as it was, and whenever
    the error code is not zero the out-parameter holds the sentinel [-1]
    ([-1.0] for the start time). *)
Theorem getters_leave_sentinel_on_failure (s : SMOutputAPI) (code : Z) :
  (exists e v, SMO_getProjectSize code (Some s) = Ret (e, v) (Some s)
               /\ (e <> 0 -> v = -1))
  /\ (exists e v, SMO_getUnits code (Some s) = Ret (e, v) (Some s)
                  /\ (e <> 0 -> v = -1))
  /\ (exists e v, SMO_getStartTime (Some s) = Ret (e, v) (Some s)
                  /\ (e <> 0 -> v = double_minus_1))
  /\ (exists e v, SMO_getTimes code (Some s) = Ret (e, v) (Some s)
                  /\ (e <> 0 -> v = -1)).
Proof.
  unfold SMO_getProjectSize, SMO_getUnits, SMO_getStartTime, SMO_getTimes,
    bind, deref, ret.
  destruct (file s) as [f|]; cbn [is_NULL].
  - repeat split.
    + destruct (code =? subcatchCount); [eexists _, _; split; [reflexivity|lia]|].
      destruct (code =? nodeCount); [eexists _, _; split; [reflexivity|lia]|].
      destruct (code =? linkCount); [eexists _, _; split; [reflexivity|lia]|].
      destruct (code =? pollutantCount); eexists _, _; split;
        try reflexivity; lia.
    + destruct (code =? flow_rate); eexists _, _; split; try reflexivity; lia.
    + eexists _, _; split; [reflexivity|lia].
    + destruct (code =? reportStep); [eexists _, _; split; [reflexivity|lia]|].
      destruct (code =? numPeriods); eexists _, _; split; try reflexivity; lia.
  - repeat split; eexists _, _; split; try reflexivity; auto.
Qed.

Lemma calloc_negative heap_grants nmemb size :
  INT_MIN <= nmemb < 0 -> 4 <= size <= 16 -> calloc heap_grants nmemb size = None.
Proof.
  intros Hn Hs. unfold calloc, size_t, SIZE_MAX, INT_MIN in *.
  assert (E : nmemb mod 2 ^ 64 = nmemb + 2 ^ 64).
  { symmetry. apply (Z.mod_unique _ _ (-1)); lia. }
  rewrite E. destruct (Z.leb_spec ((nmemb + 2 ^ 64) * size) (2 ^ 64 - 1)); [nia|].
  reflexivity.
Qed.

Lemma calloc_REAL4_cases heap_grants size :
  in_long size ->
  match calloc_REAL4 heap_grants size with
  | Some buf => 0 <= size /\ buf = replicate (Z.to_nat size) (Float 0)
  | None => True
  end.
Proof.
  intros Hsize. unfold calloc_REAL4.
  destruct (Z.lt_ge_cases size 0) as [Hneg|Hpos].
  - rewrite calloc_negative by (unfold in_long in *; lia). exact I.
  - unfold calloc. rewrite size_t_small
      by (unfold in_long, INT_MAX, SIZE_MAX in *; lia).
    destruct (_ && _); cbn; auto.
Qed.

(** [calloc] of [size] floats: the zeroed array when [size] is not
    negative and the allocator grants the [size * 4] bytes, null
    otherwise. *)
Lemma calloc_REAL4_granted heap_grants size :
  in_long size -> 0 <= size -> heap_grants (size * 4) = true ->
  calloc_REAL4 heap_grants size = Some (replicate (Z.to_nat size) (Float 0)).
Proof.
  intros Hsize Hpos Hgrant. unfold calloc_REAL4, calloc.
  rewrite size_t_small by (unfold in_long, INT_MAX, SIZE_MAX in *; lia).
  rewrite Hgrant, andb_true_r.
  destruct (Z.leb_spec (size * 4) SIZE_MAX);
    [reflexivity|unfold in_long, INT_MAX, SIZE_MAX in *; lia].
Qed.

Lemma calloc_REAL4_refused heap_grants size :
  in_long size -> size < 0 \/ heap_grants (size * 4) = false ->
  calloc_REAL4 heap_grants size = None.
Proof.
  intros Hsize Hcase. unfold calloc_REAL4.
  destruct (Z.lt_ge_cases size 0) as [Hneg|Hpos].
  - rewrite calloc_negative by (unfold in_long in *; lia). reflexivity.
  - destruct Hcase as [Hneg|Hrefuse]; [lia|]. unfold calloc.
    rewrite size_t_small by (unfold in_long, INT_MAX, SIZE_MAX in *; lia).
    rewrite Hrefuse, andb_false_r. reflexivity.
Qed.

(** C6, as the code has it.  On an open handle [SMO_newOutValueSeries]
    reports the length [min(seriesLength - seriesStart, Nperiods)] (the
    subtraction being C's, on [long]: it is the exact difference whenever
    that is a [long]), be it positive, zero or negative.  When that length
    is not negative and the allocator grants its [4 * length] bytes, the
    function returns an array of exactly that many elements, all zero,
    with error code 0.  When the length is negative or the allocator
    refuses, it returns a null array with error code 411: a negative
    length never gives a buffer. *)
Theorem newOutValueSeries_zeroed_min (heap_grants : Z -> bool)
    (s : SMOutputAPI) (f : FILE) (seriesStart seriesLength length0 errcode0 : Z) :
  file s = Some f -> in_long (Nperiods s) ->
  exists array size errcode,
    SMO_newOutValueSeries heap_grants seriesStart seriesLength length0 errcode0
      (Some s) = Ret (array, size, errcode) (Some s)
    /\ size = Z.min (long (seriesLength - seriesStart)) (Nperiods s)
    /\ (in_long (seriesLength - seriesStart) ->
        size = Z.min (seriesLength - seriesStart) (Nperiods s))
    /\ match array with
       | Some buf => errcode = 0 /\ 0 <= size
                     /\ buf = replicate (Z.to_nat size) (Float 0)
       | None => errcode = 411
       end
    /\ (size < 0 -> array = None)
    /\ (0 <= size -> heap_grants (size * 4) = true ->
        array = Some (replicate (Z.to_nat size) (Float 0)) /\ errcode = 0)
    /\ (size < 0 \/ heap_grants (size * 4) = false ->
        array = None /\ errcode = 411).
Proof.
  intros Hf HN. unfold SMO_newOutValueSeries, bind, deref, ret.
  rewrite Hf. cbn [is_NULL].
  set (d := long (seriesLength - seriesStart)).
  assert (Hd : in_long d) by apply int_range.
  set (size := if d >? Nperiods s then Nperiods s else d).
  assert (Hsize : size = Z.min d (Nperiods s)).
  { unfold size. destruct (Z.gtb_spec d (Nperiods s)); lia. }
  assert (Hrange : in_long size) by (unfold in_long in *; lia).
  eexists _, _, _. split; [reflexivity|].
  split; [exact Hsize|]. split.
  { intros Hexact. rewrite Hsize. unfold d. rewrite long_small by assumption.
    reflexivity. }
  pose proof (calloc_REAL4_cases heap_grants size Hrange) as Hc.
  split; [|split; [|split]].
  - unfold MEMCHECK. destruct (calloc_REAL4 heap_grants size); cbn; tauto.
  - intros Hneg. destruct (calloc_REAL4 heap_grants size); [lia|reflexivity].
  - intros Hpos Hgrant.
    rewrite (calloc_REAL4_granted heap_grants size Hrange Hpos Hgrant).
    split; reflexivity.
  - intros Hcase.
    rewrite (calloc_REAL4_refused heap_grants size Hrange Hcase).
    split; reflexivity.
Qed.

Lemma strncpy_inside dst src n :
  in_int n -> 0 <= n <= Z.of_nat (length dst) ->
  exists dst', strncpy dst src n = Some dst'
    /\ length dst' = length dst
    /\ take (Z.to_nat n) dst'
       = take (Z.to_nat n) (src ++ replicate (Z.to_nat n) x00)
    /\ drop (Z.to_nat n) dst' = drop (Z.to_nat n) dst.
Proof.
  intros Hint Hn. unfold strncpy.
  rewrite size_t_small by (unfold in_int, INT_MAX, SIZE_MAX in *; lia).
  destruct (Z.leb_spec n (Z.of_nat (length dst))); [|lia].
  eexists. split; [reflexivity|].
  assert (Hlen : length (take (Z.to_nat n) (src ++ replicate (Z.to_nat n) x00))
                 = Z.to_nat n).
  { rewrite length_take, length_app, length_replicate. lia. }
  repeat split.
  - rewrite length_app, Hlen, length_drop. lia.
  - rewrite take_app_length'; [reflexivity|symmetry; exact Hlen].
  - rewrite drop_app_length'; [reflexivity|symmetry; exact Hlen].
Qed.

(** C5, as the code has it.  For the codes 411, 412, 421, 434 and 435
    [SMO_errMessage] writes exactly [n] bytes to [errmsg], the message cut
    at [n] and padded with NULs when shorter, and returns 0; for every other
    code, 423, 436 and 441 among them, it returns 421 and leaves [errmsg]
    alone. *)
Theorem errMessage_known_codes (code : Z) (errmsg : list byte) (n : Z) :
  in_int n -> 0 <= n <= Z.of_nat (length errmsg) ->
  match message_text code with
  | Some msg =>
      exists errmsg',
        SMO_errMessage code (Some errmsg) n = Some (0, Some errmsg')
        /\ length errmsg' = length errmsg
        /\ take (Z.to_nat n) errmsg'
           = take (Z.to_nat n)
               (list_byte_of_string msg ++ replicate (Z.to_nat n) x00)
        /\ drop (Z.to_nat n) errmsg' = drop (Z.to_nat n) errmsg
  | None => SMO_errMessage code (Some errmsg) n = Some (421, Some errmsg)
  end
  /\ message_text 423 = None /\ message_text 436 = None
  /\ message_text 441 = None.
Proof.
  intros Hint Hn. split; [|repeat split].
  unfold message_text, SMO_errMessage.
  repeat match goal with
         | |- context [code =? ?c] => destruct (code =? c)
         end;
    try reflexivity;
    match goal with
    | |- context [strncpy errmsg ?src n] =>
        destruct (strncpy_inside errmsg src n Hint Hn) as (d & -> & H1 & H2 & H3);
        exists d; cbn [option_map]; auto
    end.
Qed.

(** C5 as the spec states it fails at code 423: nothing is copied and the
    result is 421, not 0. *)
Lemma errMessage_423_not_copied :
  SMO_errMessage 423 (Some (replicate 8 x00)) 8
  = Some (421, Some (replicate 8 x00)).
Proof. reflexivity. Qed.

(** ** Reading results *)

Lemma moved_refl s f : file s = Some f -> moved s s.
Proof.
  intros Hf. exists f, f. rewrite (set_file_same s f Hf). auto.
Qed.

Lemma moved_trans s1 s2 s3 : moved s1 s2 -> moved s2 s3 -> moved s1 s3.
Proof.
  intros (f1 & f2 & H1 & -> & D1) (f2' & f3 & H2 & -> & D2).
  cbn in H2. injection H2 as <-.
  exists f1, f3. rewrite set_file_set_file. repeat split; congruence.
Qed.

Lemma moved_file s s' f :
  moved s s' -> file s = Some f ->
  exists f', file s' = Some f' /\ f_data f' = f_data f.
Proof.
  intros (f0 & f' & H0 & -> & D) Hf. exists f'. cbn. split; congruence.
Qed.

Lemma get_value_run K s f p i a :
  file s = Some f ->
  get_value K p i a (Some s)
  = Ret (store_REAL4 Indeterminate (fst (scalar_read f (code_offset K s p i a))))
        (Some (set_file (Some (snd (scalar_read f (code_offset K s p i a)))) s)).
Proof.
  intros Hf.
  destruct K; cbn [get_value];
    unfold getSubcatchValue, getNodeValue, getLinkValue, getSystemValue;
    unfold bind at 1, deref at 1;
    unfold bind at 1; rewrite (fseeko64_open _ f) by exact Hf;
    unfold bind at 1, fread_REAL4_local; unfold bind at 1;
    rewrite (fread_open _ (file_seek f _ SEEK_SET)) by reflexivity;
    unfold ret; rewrite set_file_set_file; reflexivity.
Qed.

Lemma get_value_moved K s f p i a :
  file s = Some f ->
  exists v s', get_value K p i a (Some s) = Ret v (Some s') /\ moved s s'.
Proof.
  intros Hf. rewrite (get_value_run K s f) by exact Hf.
  eexists _, _. split; [reflexivity|].
  exists f. eexists. split; [exact Hf|split; reflexivity].
Qed.

(** An index below [n * v] for a valid pair. *)
Lemma row_index_bound n v i a :
  0 <= i < n -> 0 <= a < v -> 0 <= i * v + a < n * v.
Proof. intros Hi Ha. nia. Qed.

Lemma value_index_bounds K s i a :
  layout_ok s -> valid_index K s i a ->
  0 <= value_index K s i a
  /\ value_index K s i a + (vars_of K s - a) <= values_per_period s.
Proof.
  unfold layout_ok, valid_index, values_per_period.
  intros (Hs & Hn & Hl & Hvs & Hvn & Hvl & Hvy & _) [Hi Ha].
  assert (0 <= Nsubcatch s * SubcatchVars s) by nia.
  assert (0 <= Nnodes s * NodeVars s) by nia.
  assert (0 <= Nlinks s * LinkVars s) by nia.
  destruct K; cbn [value_index count_of vars_of] in *;
    try (pose proof (row_index_bound _ _ _ _ Hi Ha)); nia.
Qed.

(** Without overflow the code's offset is the spec's. *)
Lemma code_offset_exact K s data p i a :
  layout_ok s -> period_inside s data p -> valid_index K s i a ->
  code_offset K s p i a = scalar_offset K s p i a
  /\ 0 <= scalar_offset K s p i a
  /\ scalar_offset K s p i a + 4 * (vars_of K s - a) <= Z.of_nat (length data).
Proof.
  intros Hlay Hin Hidx.
  destruct (value_index_bounds K s i a Hlay Hidx) as [Hlo Hhi].
  destruct Hin as (Hp & Hr & Hb & Hlen & Hmax).
  destruct Hidx as [Hi Ha].
  assert (Hint : values_per_period s * 4 + 8 <= INT_MAX).
  { destruct Hlay as (_ & _ & _ & _ & _ & _ & _ & H).
    unfold DATESIZE, RECORDSIZE in H. lia. }
  assert (0 <= p * BytesPerPeriod s) by nia.
  unfold code_offset, scalar_offset, period_offset, RECORDSIZE.
  unfold INT_MAX, OFF_MAX in *.
  rewrite (int_small (4 * value_index K s i a))
    by (unfold in_int, INT_MIN, INT_MAX; lia).
  rewrite (off64_small (ResultsPos s + p * BytesPerPeriod s + 2 * 4))
    by (unfold in_off64; lia).
  rewrite off64_small by (unfold in_off64; lia).
  lia.
Qed.

(** A scalar read at an offset inside the file. *)
Lemma scalar_read_inside f X :
  0 <= X -> X + 4 <= Z.of_nat (length (f_data f)) ->
  Z.of_nat (length (f_data f)) <= OFF_MAX ->
  scalar_read f X
  = (bytes_at (f_data f) X 4,
     mkFILE (f_data f) (X + 4)
            (f_calls f ++ [io_fseeko64 X SEEK_SET; io_fread RECORDSIZE 1])).
Proof.
  intros HX Hlen Hmax. unfold scalar_read, RECORDSIZE.
  rewrite file_read_inside; unfold file_seek; cbn [f_data f_pos f_calls];
    rewrite ?Z.add_0_l;
    destruct (Z.leb_spec 0 X); try lia;
    destruct (Z.leb_spec X OFF_MAX); try lia; cbn [andb];
    unfold INT_MAX; try lia.
  rewrite <- app_assoc. reflexivity.
Qed.

Lemma store_REAL4_full old bs :
  length bs = 4%nat -> store_REAL4 old bs = Float (uint_le bs).
Proof. intros H. unfold store_REAL4. rewrite H. reflexivity. Qed.

Lemma get_value_inside K s f p i a :
  file s = Some f -> layout_ok s -> period_inside s (f_data f) p ->
  valid_index K s i a ->
  exists s',
    get_value K p i a (Some s)
    = Ret (value_at (f_data f) (scalar_offset K s p i a)) (Some s')
    /\ moved s s'.
Proof.
  intros Hf Hlay Hin Hidx.
  destruct (code_offset_exact K s (f_data f) p i a Hlay Hin Hidx)
    as (E & Hlo & Hhi).
  assert (Ha : 0 <= a < vars_of K s) by apply Hidx.
  rewrite (get_value_run K s f) by exact Hf. rewrite E.
  rewrite scalar_read_inside by (try apply Hin; lia).
  cbn [fst snd]. eexists. split.
  - rewrite store_REAL4_full by (rewrite length_bytes_at; lia). reflexivity.
  - exists f. eexists. split; [exact Hf|split; reflexivity].
Qed.

(** The loops of the series and attribute functions: [n] turns from index
    [k0], each storing at [k] what [g k] read, on a handle that differs from
    [s0] by its stream only.  [P] is what is known of the value read at
    turn [k]. *)
Lemma for_loop_store (g : Z -> M REAL4) (P : Z -> REAL4 -> Prop)
    (s0 : SMOutputAPI) :
  (forall k s, moved s0 s ->
     exists v s', g k (Some s) = Ret v (Some s') /\ moved s s' /\ P k v) ->
  forall (n : nat) (k0 : Z) (out : list REAL4) s,
    moved s0 s ->
    0 <= k0 -> k0 + Z.of_nat n <= Z.of_nat (length out) ->
    exists out' s',
      for_loop n k0 (fun k out => value <- g k ;; store out k value) out (Some s)
      = Ret out' (Some s')
      /\ moved s s' /\ length out' = length out
      /\ (forall j, k0 <= j < k0 + Z.of_nat n ->
            exists v, out' !! Z.to_nat j = Some v /\ P j v)
      /\ (forall j : nat, (j < Z.to_nat k0)%nat -> out' !! j = out !! j).
Proof.
  intros Hg n. induction n as [|n IH]; intros k0 out s Hs Hk Hlen.
  - exists out, s. cbn [for_loop]. split; [reflexivity|].
    split.
    { destruct Hs as (f & f' & _ & -> & _). eapply moved_refl. reflexivity. }
    split; [reflexivity|]. split; [lia|auto].
  - cbn [for_loop].
    destruct (Hg k0 s Hs) as (v & s1 & Eg & Hm1 & Hv).
    unfold bind at 1. unfold bind at 1. rewrite Eg.
    unfold store.
    destruct (Z.leb_spec 0 k0); [|lia].
    destruct (Z.ltb_spec k0 (Z.of_nat (length out))); [|lia].
    cbn [andb ret].
    destruct (IH (k0 + 1) (<[Z.to_nat k0 := v]> out) s1)
      as (out' & s' & Erun & Hm2 & Hl & Hnew & Hold);
      [eapply moved_trans; eassumption|lia|rewrite length_insert; lia|].
    exists out', s'. split; [exact Erun|].
    split; [eapply moved_trans; eassumption|].
    split; [rewrite Hl; apply length_insert|].
    split.
    + intros j Hj. destruct (Z.eq_dec j k0) as [->|Hne].
      * exists v. split; [|exact Hv].
        rewrite Hold by lia. apply list_lookup_insert_eq. lia.
      * apply Hnew. lia.
    + intros j Hj. rewrite Hold by lia.
      apply list_lookup_insert_ne. lia.
Qed.




(** The series and attribute functions, by kind, on an open handle and a
    non-null array: the loop around [get_value]. *)
Lemma get_series_open K s f index attr timeIndex length (out : list REAL4) :
  file s = Some f ->
  get_series K index attr timeIndex length (Some out) (Some s)
  = (out' <- for_loop (Z.to_nat length) 0
               (fun k out =>
                  value <- get_value K (long (timeIndex + k)) index attr ;;
                  store out k value) out ;;
     ret (0, Some out')) (Some s).
Proof.
  intros Hf.
  destruct K; cbn [get_series get_value];
    unfold SMO_getSubcatchSeries, SMO_getNodeSeries, SMO_getLinkSeries,
      SMO_getSystemSeries;
    unfold bind at 1, deref at 1; rewrite Hf; reflexivity.
Qed.

Lemma get_attribute_open K s f timeIndex attr (out : list REAL4) :
  file s = Some f ->
  get_attribute K timeIndex attr (Some out) (Some s)
  = (out' <- for_loop (Z.to_nat (count_of K s)) 0
               (fun k out =>
                  value <- get_value K timeIndex (int k) attr ;;
                  store out k value) out ;;
     ret (0, Some out')) (Some s).
Proof.
  intros Hf.
  destruct K; cbn [get_attribute get_value count_of];
    unfold SMO_getSubcatchAttribute, SMO_getNodeAttribute,
      SMO_getLinkAttribute, SMO_getSystemAttribute;
    unfold bind at 1, deref at 1; rewrite Hf; cbn [is_NULL];
    try reflexivity.
  (* the system: one turn, written without a loop *)
  change (Z.to_nat 1) with 1%nat. cbn [for_loop]. unfold bind, ret.
  destruct (getSystemValue timeIndex attr (Some s)) as [v h|h];
    [|reflexivity].
  destruct (store out 0 v h); reflexivity.
Qed.

(** C9.  On an open handle with a non-null array the four series functions
    validate nothing: whatever the entity index, attribute, start period
    and length, a run that returns returns 0 (never 421 or 423), and every
    run returns when the array has room for [length] values. *)
Theorem series_perform_no_validation (K : kind) (s : SMOutputAPI) (f : FILE)
    (index attr timeIndex length : Z) (out : list REAL4) :
  file s = Some f ->
  (forall e o h',
      get_series K index attr timeIndex length (Some out) (Some s)
      = Ret (e, o) h' -> e = 0)
  /\ (length <= Z.of_nat (List.length out) ->
      exists out' s',
        get_series K index attr timeIndex length (Some out) (Some s)
        = Ret (0, Some out') (Some s')
        /\ moved s s' /\ List.length out' = List.length out).
Proof.
  intros Hf. rewrite (get_series_open K s f) by exact Hf. split.
  - intros e o h'. unfold bind at 1.
    destruct (for_loop _ _ _ _ _); [|discriminate].
    unfold ret. intros [= <- _ _]. reflexivity.
  - intros Hroom.
    destruct (for_loop_store
                (fun k => get_value K (long (timeIndex + k)) index attr)
                (fun _ _ => True) s) with (n := Z.to_nat length) (k0 := 0)
                (out := out) (s := s)
      as (out' & s' & Erun & Hm & Hl & _).
    + intros k s1 Hs1.
      destruct Hs1 as (f0 & f1 & _ & -> & _).
      destruct (get_value_moved K (set_file (Some f1) s) f1
                  (long (timeIndex + k)) index attr eq_refl)
        as (v & s' & E & Hm).
      exists v, s'. auto.
    + eapply moved_refl; exact Hf.
    + lia.
    + lia.
    + exists out', s'. unfold bind at 1. rewrite Erun. auto.
Qed.

(** The result functions, by kind, on an open handle and a non-null array:
    a seek to entity [index]'s first value and one bulk read. *)
Lemma get_result_open K s f timeIndex index (out : list REAL4) :
  file s = Some f ->
  get_result K timeIndex index (Some out) (Some s)
  = (fseeko64 (code_offset K s timeIndex index 0) SEEK_SET ;;;
     out' <- fread_array (Some out) (vars_of K s) ;;
     ret (0, out')) (Some s).
Proof.
  intros Hf.
  assert (E : forall x, int (x * RECORDSIZE) = int (RECORDSIZE * (x + 0))).
  { intros x. f_equal. lia. }
  destruct K; cbn [get_result vars_of];
    unfold SMO_getSubcatchResult, SMO_getNodeResult, SMO_getLinkResult,
      SMO_getSystemResult;
    unfold bind at 1, deref at 1; rewrite Hf; cbn [is_NULL];
    unfold code_offset; cbn [value_index]; rewrite E; reflexivity.
Qed.


(** ** Opening a file *)

Lemma post_deref_live h (Q : SMOutputAPI -> heap -> Prop) :
  (forall s, h = Some s -> Q s h) -> post deref h Q True.
Proof. intros HQ. destruct h as [s|]; cbn; auto. Qed.

Lemma post_assign_live upd h (Q : unit -> heap -> Prop) :
  (forall s, h = Some s -> Q tt (Some (upd s))) -> post (assign upd) h Q True.
Proof. intros HQ. destruct h as [s|]; cbn; auto. Qed.

Lemma post_fread_INT4_live old h (Q : Z -> heap -> Prop) :
  (forall s f f' v, h = Some s -> file s = Some f ->
                    Q v (Some (set_file (Some f') s))) ->
  post (fread_INT4 old) h Q True.
Proof.
  intros HQ. destruct h as [s|]; [|exact I].
  unfold post, fread_INT4. unfold bind at 1.
  destruct (file s) as [f|] eqn:Hf.
  - rewrite (fread_open s f) by exact Hf. eapply HQ; [reflexivity|exact Hf].
  - unfold fread, bind, deref. rewrite Hf. exact I.
Qed.

Ltac skip_step := cbv zeta; apply post_bind; apply post_any; intros ? ?.

(** A successful [SMO_open] leaves a live handle with an open stream whose
    [BytesPerPeriod] is the [int] value of
    [DATESIZE + (values per period) * RECORDSIZE]. *)
Lemma SMO_open_success fopen_rb path h0 h1 :
  SMO_open fopen_rb path h0 = Ret 0 h1 ->
  exists s1 f1,
    h1 = Some s1 /\ file s1 = Some f1
    /\ BytesPerPeriod s1
       = int (DATESIZE + values_per_period s1 * RECORDSIZE).
Proof.
  intros Hrun.
  refine (post_inv (SMO_open fopen_rb path) h0 0 h1
            (fun e h => e = 0 -> exists s1 f1, h = Some s1 /\ file s1 = Some f1
               /\ BytesPerPeriod s1
                  = int (DATESIZE + values_per_period s1 * RECORDSIZE))
            True _ Hrun eq_refl).
  clear Hrun h1. unfold SMO_open.
  destruct (fopen_rb path) as [data|].
  2:{ do 2 skip_step. apply post_ret. discriminate. }
  do 2 skip_step.
  match goal with |- context [negb (?e =? 0)] => destruct (Z.eqb_spec e 0) end;
    cbn [negb].
  2:{ skip_step. apply post_ret. intros; contradiction. }
  do 28 skip_step.
  apply post_bind, post_fread_INT4_live. intros s f f' v -> Hf.
  apply post_bind, post_assign_live. intros s1 [= <-].
  apply post_bind, post_deref_live. intros s2 [= <-].
  apply post_bind, post_assign_live. intros s3 [= <-].
  apply post_ret. intros _. eexists _, f'. split; [reflexivity|].
  split; reflexivity.
Qed.

Lemma post_fseeko64 s f offset origin (Q : unit -> heap -> Prop) U :
  file s = Some f ->
  Q tt (Some (set_file (Some (file_seek f offset origin)) s)) ->
  post (fseeko64 offset origin) (Some s) Q U.
Proof.
  intros Hf HQ. unfold post. rewrite (fseeko64_open s f) by exact Hf. exact HQ.
Qed.

Lemma file_seek_set f X :
  0 <= X <= OFF_MAX ->
  file_seek f X SEEK_SET
  = mkFILE (f_data f) X (f_calls f ++ [io_fseeko64 X SEEK_SET]).
Proof.
  intros HX. unfold file_seek. rewrite Z.add_0_l.
  destruct (Z.leb_spec 0 X); [|lia]. destruct (Z.leb_spec X OFF_MAX); [|lia].
  reflexivity.
Qed.

Lemma overlay_full width old bs :
  length bs = width -> overlay width old bs = uint_le bs.
Proof.
  intros <-. unfold overlay. rewrite take_app_length. reflexivity.
Qed.

(** One record read whole, four bytes from the position. *)
Lemma fread_record_inside s f :
  file s = Some f -> 0 <= f_pos f ->
  f_pos f + 4 <= Z.of_nat (length (f_data f)) ->
  fread RECORDSIZE 1 (Some s)
  = Ret (bytes_at (f_data f) (f_pos f) 4)
        (Some (set_file
                 (Some (mkFILE (f_data f) (f_pos f + 4)
                               (f_calls f ++ [io_fread RECORDSIZE 1]))) s))
  /\ length (bytes_at (f_data f) (f_pos f) 4) = 4%nat.
Proof.
  intros Hf Hpos Hlen. rewrite (fread_open s f) by exact Hf.
  unfold RECORDSIZE. rewrite file_read_inside by (unfold INT_MAX; lia).
  split; [reflexivity|]. rewrite length_bytes_at; lia.
Qed.

Lemma post_fread_INT4 old s f (Q : Z -> heap -> Prop) U :
  file s = Some f -> 0 <= f_pos f ->
  f_pos f + 4 <= Z.of_nat (length (f_data f)) ->
  Q (int (uint_le (bytes_at (f_data f) (f_pos f) 4)))
    (Some (set_file
             (Some (mkFILE (f_data f) (f_pos f + 4)
                           (f_calls f ++ [io_fread RECORDSIZE 1]))) s)) ->
  post (fread_INT4 old) (Some s) Q U.
Proof.
  intros Hf Hpos Hlen HQ.
  destruct (fread_record_inside s f Hf Hpos Hlen) as [E L].
  unfold post, fread_INT4, bind. rewrite E. unfold ret.
  rewrite overlay_full by exact L. exact HQ.
Qed.

Lemma post_fread_F_OFF old s f (Q : Z -> heap -> Prop) U :
  file s = Some f -> 0 <= f_pos f ->
  f_pos f + 4 <= Z.of_nat (length (f_data f)) ->
  Q (off64 (overlay 8 old (bytes_at (f_data f) (f_pos f) 4)))
    (Some (set_file
             (Some (mkFILE (f_data f) (f_pos f + 4)
                           (f_calls f ++ [io_fread RECORDSIZE 1]))) s)) ->
  post (fread_F_OFF old) (Some s) Q U.
Proof.
  intros Hf Hpos Hlen HQ.
  destruct (fread_record_inside s f Hf Hpos Hlen) as [E L].
  unfold post, fread_F_OFF, bind. rewrite E. exact HQ.
Qed.

Lemma post_fread_INT4_local s f (Q : option Z -> heap -> Prop) U :
  file s = Some f -> 0 <= f_pos f ->
  f_pos f + 4 <= Z.of_nat (length (f_data f)) ->
  Q (Some (int (uint_le (bytes_at (f_data f) (f_pos f) 4))))
    (Some (set_file
             (Some (mkFILE (f_data f) (f_pos f + 4)
                           (f_calls f ++ [io_fread RECORDSIZE 1]))) s)) ->
  post fread_INT4_local (Some s) Q U.
Proof.
  intros Hf Hpos Hlen HQ.
  destruct (fread_record_inside s f Hf Hpos Hlen) as [E L].
  unfold post, fread_INT4_local, bind. rewrite E. unfold ret.
  rewrite L. exact HQ.
Qed.

Ltac stream_step rule :=
  apply post_bind; eapply rule;
  [reflexivity
  |cbn [f_pos f_data file_seek]; lia
  |cbn [f_pos f_data file_seek]; lia
  |cbn [f_pos f_data f_calls]].

Lemma validateFile_run s f :
  file s = Some f ->
  24 <= Z.of_nat (length (f_data f)) <= OFF_MAX ->
  exists s' f',
    validateFile (Some s) = Ret (validation_code (f_data f)) (Some s')
    /\ file s' = Some f' /\ f_data f' = f_data f
    /\ elementNames s' = elementNames s.
Proof.
  intros Hf Hlen.
  set (len := Z.of_nat (length (f_data f))) in *.
  assert (Hseek : file_seek f (-6 * RECORDSIZE) SEEK_END
                  = mkFILE (f_data f) (len - 24)
                      (f_calls f ++ [io_fseeko64 (-6 * RECORDSIZE) SEEK_END])).
  { unfold file_seek. fold len. change (-6 * RECORDSIZE) with (-24).
    destruct (Z.leb_spec 0 (len + -24)); [|lia].
    destruct (Z.leb_spec (len + -24) OFF_MAX); [|lia].
    cbn [andb]. f_equal; lia. }
  enough (H : post validateFile (Some s)
                (fun code h => code = validation_code (f_data f) /\
                   exists s' f', h = Some s' /\ file s' = Some f'
                     /\ f_data f' = f_data f
                     /\ elementNames s' = elementNames s) False).
  { apply post_returns in H. destruct H as (code & h & E & -> & s' & f' & -> & R).
    exists s', f'. auto. }
  unfold validateFile.
  apply post_bind. eapply post_fseeko64; [exact Hf|]. rewrite Hseek.
  apply post_bind, post_deref.
  stream_step post_fread_F_OFF. apply post_bind, post_assign.
  stream_step post_fread_F_OFF. apply post_bind, post_assign.
  stream_step post_fread_F_OFF. apply post_bind, post_assign.
  stream_step post_fread_INT4. apply post_bind, post_assign.
  stream_step post_fread_INT4_local.
  stream_step post_fread_INT4_local.
  apply post_bind. eapply post_fseeko64; [reflexivity|].
  rewrite file_seek_set by (unfold OFF_MAX; lia). cbn [f_data f_calls].
  stream_step post_fread_INT4_local.
  apply post_bind, post_deref. cbn [Nperiods set_Nperiods set_file].
  fold len.
  replace (len - 24 + 4 + 4 + 4) with (len - 24 + 4 * 3) by lia.
  replace (len - 24 + 4 * 3 + 4) with (len - 24 + 4 * 4) by lia.
  replace (len - 24 + 4 * 4 + 4) with (len - 24 + 4 * 5) by lia.
  unfold validation_code, leading_magic, magic_trailer, n_periods,
    terminating_error, epilogue_field. fold len.
  repeat match goal with
         | |- context [if ?b then _ else _] => destruct b
         end;
    (apply post_ret; split; [reflexivity|];
     eexists _, _; split; [reflexivity|]; cbn; auto).
Qed.

(** [SMO_open] on a file that [validateFile] rejects: the code is returned
    and the handle, fresh from [SMO_init], is freed. *)
Lemma SMO_open_rejected fopen_rb path data garbage :
  fopen_rb path = Some data ->
  24 <= Z.of_nat (length data) <= OFF_MAX ->
  validation_code data <> 0 ->
  SMO_open fopen_rb path (SMO_init garbage)
  = Ret (validation_code data) None.
Proof.
  intros Hpath Hlen Hcode. unfold SMO_open, SMO_init. rewrite Hpath.
  unfold bind at 1. cbn [assign].
  destruct (validateFile_run
              (set_file (Some (mkFILE data 0 [])) (set_elementNames None garbage))
              (mkFILE data 0 []) eq_refl Hlen)
    as (s' & f' & Erun & Hf' & _ & Hnames).
  cbn [f_data] in Erun. unfold bind at 1. rewrite Erun.
  destruct (Z.eqb_spec (validation_code data) 0); [contradiction|].
  cbn [negb]. unfold bind at 1, SMO_close. unfold bind at 1, deref.
  rewrite Hf', Hnames. reflexivity.
Qed.

(** C3, as the code has it.  A file whose leading magic equals its trailing
    magic and whose epilogue records a terminating error is refused with
    435 when it holds periods and with 436 when [n_periods <= 0]: the
    period count is tested first. *)
Theorem open_terminated_run (fopen_rb : list byte -> option (list byte))
    (path data : list byte) (garbage : SMOutputAPI) :
  fopen_rb path = Some data ->
  24 <= Z.of_nat (length data) <= OFF_MAX ->
  leading_magic data = magic_trailer data ->
  terminating_error data <> 0 ->
  SMO_open fopen_rb path (SMO_init garbage)
  = Ret (if n_periods data <=? 0 then 436 else 435) None.
Proof.
  intros Hpath Hlen Hmagic Herr.
  assert (E : validation_code data = if n_periods data <=? 0 then 436 else 435).
  { unfold validation_code. rewrite Hmagic, Z.eqb_refl. cbn [negb].
    destruct (n_periods data <=? 0); [reflexivity|].
    destruct (Z.eqb_spec (terminating_error data) 0); [contradiction|].
    reflexivity. }
  rewrite <- E. apply SMO_open_rejected; try assumption.
  rewrite E. destruct (n_periods data <=? 0); discriminate.
Qed.


(** ** The null-stream and null-array guards *)

(** Every exported function that tests [smoapi->file], on a handle whose
    stream is null: error 412, and nothing is touched.
    [SMO_getSystemResult] and [SMO_getElementName] are not among them. *)
Lemma closed_handle_NotOpen (heap_grants : Z -> bool) (s : SMOutputAPI)
    (c x y z w : Z) (out : option (list REAL4)) :
  file s = None ->
  SMO_getProjectSize c (Some s) = Ret (412, -1) (Some s)
  /\ SMO_getUnits c (Some s) = Ret (412, -1) (Some s)
  /\ SMO_getStartTime (Some s) = Ret (412, double_minus_1) (Some s)
  /\ SMO_getTimes c (Some s) = Ret (412, -1) (Some s)
  /\ SMO_newOutValueSeries heap_grants x y z w (Some s)
     = Ret (None, z, 412) (Some s)
  /\ SMO_newOutValueArray heap_grants x y z w (Some s)
     = Ret (None, z, 412) (Some s)
  /\ (forall K, get_series K x y z w out (Some s) = Ret (412, out) (Some s))
  /\ (forall K, get_attribute K x y out (Some s) = Ret (412, out) (Some s))
  /\ (forall K, K <> System ->
                get_result K x y out (Some s) = Ret (412, out) (Some s))
  /\ SMO_close (Some s) = Ret 412 (Some s).
Proof.
  intros Hf.
  repeat split; try (intros K); try (intros HK);
    try (destruct K; try contradiction;
         cbn [get_series get_attribute get_result]);
    unfold SMO_getProjectSize, SMO_getUnits, SMO_getStartTime, SMO_getTimes,
      SMO_newOutValueSeries, SMO_newOutValueArray,
      SMO_getSubcatchSeries, SMO_getNodeSeries, SMO_getLinkSeries,
      SMO_getSystemSeries, SMO_getSubcatchAttribute, SMO_getNodeAttribute,
      SMO_getLinkAttribute, SMO_getSystemAttribute, SMO_getSubcatchResult,
      SMO_getNodeResult, SMO_getLinkResult, SMO_close;
    unfold bind at 1, deref at 1; rewrite Hf; reflexivity.
Qed.

(** The three result functions that have the [else]: a null array on an
    open handle gives 411 and the stream is not touched. *)
Lemma result_null_array (K : kind) (s : SMOutputAPI) (f : FILE) (p i : Z) :
  K <> System -> file s = Some f ->
  get_result K p i None (Some s) = Ret (411, None) (Some s).
Proof.
  intros HK Hf. destruct K; try contradiction; cbn [get_result];
    unfold SMO_getSubcatchResult, SMO_getNodeResult, SMO_getLinkResult;
    unfold bind at 1, deref at 1; rewrite Hf; reflexivity.
Qed.

(** C7, what the code does instead.  [SMO_getSystemResult] runs its seek
    and its read whatever the guards found.  On a null stream the seek is
    undefined behaviour, so 412 is never returned; with a null array on an
    open handle the stream is sought and read before the function returns
    411, or faults storing through the null array. *)
Theorem getSystemResult_guards_fall_through (s : SMOutputAPI) (p : Z)
    (out : option (list REAL4)) :
  (file s = None -> SMO_getSystemResult p out (Some s) = Undefined (Some s))
  /\ (forall f, file s = Some f ->
        exists f',
          f_calls f' = f_calls f ++ [io_fseeko64 (system_row_offset s p) SEEK_SET;
                                     io_fread RECORDSIZE (SysVars s)]
          /\ (SMO_getSystemResult p None (Some s)
              = Ret (411, None) (Some (set_file (Some f') s))
              \/ SMO_getSystemResult p None (Some s)
                 = Undefined (Some (set_file (Some f') s)))).
Proof.
  split.
  - intros Hf. unfold SMO_getSystemResult.
    unfold bind at 1, deref at 1. unfold bind at 1.
    rewrite fseeko64_closed by exact Hf. reflexivity.
  - intros f Hf.
    set (r := file_read (file_seek f (system_row_offset s p) SEEK_SET)
                RECORDSIZE (SysVars s)).
    assert (E : SMO_getSystemResult p None (Some s)
                = match fst r with
                  | [] => Ret (411, None) (Some (set_file (Some (snd r)) s))
                  | _ => Undefined (Some (set_file (Some (snd r)) s))
                  end).
    { unfold SMO_getSystemResult.
      unfold bind at 1, deref at 1. unfold bind at 1.
      fold (system_row_offset s p).
      rewrite (fseeko64_open s f) by exact Hf.
      unfold fread_array. unfold bind at 1. unfold bind at 1.
      rewrite (fread_open _ (file_seek f (system_row_offset s p) SEEK_SET))
        by reflexivity.
      rewrite set_file_set_file, Hf. cbn [is_NULL]. fold r.
      destruct (fst r); reflexivity. }
    exists (snd r). split.
    + unfold r, file_read, file_seek. cbn [snd f_calls].
      rewrite <- app_assoc. reflexivity.
    + rewrite E. destruct (fst r); [left|right]; reflexivity.
Qed.

(** C4, where the code departs.  [SMO_getElementName] does not test
    [smoapi->file]: on a handle that was never opened (null stream, names
    not yet loaded) it calls [initElementNames], whose seek on the null
    stream is undefined behaviour; error 412 is not returned. *)
Theorem getElementName_closed_handle (heap_grants : Z -> bool)
    (s : SMOutputAPI) (type index : Z) (name : option (list byte))
    (length : Z) :
  file s = None -> elementNames s = None ->
  SMO_getElementName heap_grants type index name length (Some s)
  = Undefined
      (Some (set_elementNames
               (calloc_idEntry heap_grants
                  (int (Nsubcatch s + Nnodes s + Nlinks s + Npolluts s))) s)).
Proof.
  intros Hf Hnames. unfold SMO_getElementName.
  unfold bind at 1, deref at 1. rewrite Hnames. cbn [is_NULL].
  unfold bind at 1, initElementNames.
  unfold bind at 1, deref at 1. unfold bind at 1. cbn [assign].
  unfold bind at 1. rewrite fseeko64_closed by exact Hf. reflexivity.
Qed.

(** With the names loaded it answers from memory, and still never 412. *)
Lemma getElementName_never_NotOpen (heap_grants : Z -> bool)
    (s : SMOutputAPI) (type index : Z) (name : option (list byte))
    (length : Z) e name' length' h' :
  SMO_getElementName heap_grants type index name length (Some s)
  = Ret (e, name', length') h' ->
  e = 0 \/ e = 421 \/ e = 423.
Proof.
  unfold SMO_getElementName. unfold bind at 1, deref at 1. unfold bind at 1.
  match goal with
  | |- context [(if is_NULL (elementNames s) then ?m1 else ?m2) (Some s)] =>
      destruct ((if is_NULL (elementNames s) then m1 else m2) (Some s))
        as [[] h|h]; [|discriminate]
  end.
  unfold bind at 1, deref.
  destruct h as [s1|]; [|discriminate].
  repeat match goal with
         | |- context [if ?b then _ else _] => destruct b
         end;
    cbn [Z.eqb Pos.eqb];
    unfold undefined, ret;
    repeat match goal with
           | |- context [match ?x with _ => _ end] => destruct x
           end;
    intros [= <- _ _ _] || discriminate; auto.
Qed.

(** ** The theorems at concrete inputs *)

Lemma sample_opened :
  SMO_open (disk_of sample_file) [] (SMO_init blank) = Ret 0 (Some sample_handle).
Proof. vm_compute. reflexivity. Qed.

Lemma sample_layout :
  file sample_handle = Some sample_stream
  /\ layout_ok sample_handle
  /\ period_inside sample_handle (f_data sample_stream) 1.
Proof.
  split; [reflexivity|].
  unfold layout_ok, period_inside, values_per_period, DATESIZE, RECORDSIZE,
    INT_MAX, OFF_MAX.
  cbn; lia.
Qed.

(** 29 February 2024 goes through [datetime_encodeDate] and back. *)
Lemma date_round_trip_witness :
  datetime_decodeDate (datetime_encodeDate 2024 2 29) = Some (2024, 2, 29).
Proof.
  apply (date_round_trip 2024 2 29); [lia|lia|].
  change (datetime_daysPerMonth 2024 2) with 29. lia.
Defined.



(** A terminated run with two periods counted: 435. *)
Lemma open_terminated_run_witness :
  SMO_open (disk_of terminated_late_file) [] (SMO_init blank) = Ret 435 None.
Proof.
  apply (open_terminated_run (disk_of terminated_late_file) []
           terminated_late_file blank).
  - reflexivity.
  - unfold OFF_MAX. cbn. lia.
  - vm_compute. reflexivity.
  - vm_compute. discriminate.
Defined.

(** C3 as the spec states it fails on a terminated run without periods:
    the magic numbers agree, the error field is not zero, and the result is
    436, not 435. *)
Lemma open_terminated_run_436 :
  leading_magic terminated_file = magic_trailer terminated_file
  /\ terminating_error terminated_file <> 0
  /\ SMO_open (disk_of terminated_file) [] (SMO_init blank) = Ret 436 None.
Proof.
  split; [vm_compute; reflexivity|].
  split; [vm_compute; discriminate|].
  vm_compute. reflexivity.
Qed.

(** Message 412 cut at 16 bytes. *)
Lemma errMessage_known_codes_witness :
  (exists errmsg',
      SMO_errMessage 412 (Some (replicate 20 x00)) 16 = Some (0, Some errmsg')
      /\ length errmsg' = 20%nat
      /\ take 16 errmsg' = list_byte_of_string "Input Error 412:"
      /\ drop 16 errmsg' = replicate 4 x00)
  /\ message_text 423 = None /\ message_text 436 = None
  /\ message_text 441 = None.
Proof.
  apply (errMessage_known_codes 412 (replicate 20 x00) 16).
  - unfold in_int, INT_MIN, INT_MAX. lia.
  - cbn. lia.
Defined.

(** A series longer than the file, with an allocator that grants: two
    periods, a buffer of two zeros, code 0. *)
Lemma newOutValueSeries_zeroed_min_witness :
  SMO_newOutValueSeries grant_all 0 9 0 0 (Some sample_handle)
  = Ret (Some (replicate 2 (Float 0)), 2, 0) (Some sample_handle).
Proof.
  destruct (newOutValueSeries_zeroed_min grant_all sample_handle sample_stream
              0 9 0 0)
    as (array & size & errcode & E & Hsize & _ & _ & _ & Hgrant & _).
  - reflexivity.
  - unfold in_long, INT_MIN, INT_MAX. cbn. lia.
  - assert (Hs : size = 2) by (rewrite Hsize; reflexivity). subst size.
    destruct (Hgrant ltac:(lia) eq_refl) as [-> ->]. exact E.
Defined.

(** C6 as the spec states it fails when the series ends before it starts:
    even an allocator that grants every request returns no array, and the
    error code is 411. *)
Lemma newOutValueSeries_negative_no_buffer :
  SMO_newOutValueSeries grant_all 5 3 0 0 (Some sample_handle)
  = Ret (None, -2, 411) (Some sample_handle).
Proof. vm_compute. reflexivity. Qed.

(** A series for an entity, an attribute and periods that the file does
    not have: still 0. *)
Lemma series_perform_no_validation_witness :
  (forall e o h',
      get_series Link 99 99 (-5) 3 (Some (replicate 3 Indeterminate))
        (Some sample_handle) = Ret (e, o) h' -> e = 0)
  /\ (3 <= Z.of_nat (length (replicate 3 Indeterminate)) ->
      exists out' s',
        get_series Link 99 99 (-5) 3 (Some (replicate 3 Indeterminate))
          (Some sample_handle) = Ret (0, Some out') (Some s')
        /\ moved sample_handle s'
        /\ length out' = length (replicate 3 Indeterminate)).
Proof.
  apply (series_perform_no_validation Link sample_handle sample_stream
           99 99 (-5) 3 (replicate 3 Indeterminate)).
  reflexivity.
Defined.

(** An unknown code on the open sample handle, for the four getters. *)
Lemma getters_leave_sentinel_on_failure_witness :
  (exists e v, SMO_getProjectSize 7 (Some sample_handle)
               = Ret (e, v) (Some sample_handle) /\ (e <> 0 -> v = -1))
  /\ (exists e v, SMO_getUnits 7 (Some sample_handle)
                  = Ret (e, v) (Some sample_handle) /\ (e <> 0 -> v = -1))
  /\ (exists e v, SMO_getStartTime (Some sample_handle)
                  = Ret (e, v) (Some sample_handle)
                  /\ (e <> 0 -> v = double_minus_1))
  /\ (exists e v, SMO_getTimes 7 (Some sample_handle)
                  = Ret (e, v) (Some sample_handle) /\ (e <> 0 -> v = -1)).
Proof.
  exact (getters_leave_sentinel_on_failure sample_handle 7).
Defined.

(** [SMO_getSystemResult] on the blank block (null stream) and, with a null
    array, on the sample handle. *)
Lemma getSystemResult_guards_fall_through_witness :
  (file blank = None ->
   SMO_getSystemResult 1 None (Some blank) = Undefined (Some blank))
  /\ (forall f, file sample_handle = Some f ->
        exists f',
          f_calls f' = f_calls f
                       ++ [io_fseeko64 (system_row_offset sample_handle 1) SEEK_SET;
                           io_fread RECORDSIZE (SysVars sample_handle)]
          /\ (SMO_getSystemResult 1 None (Some sample_handle)
              = Ret (411, None) (Some (set_file (Some f') sample_handle))
              \/ SMO_getSystemResult 1 None (Some sample_handle)
                 = Undefined (Some (set_file (Some f') sample_handle)))).
Proof.
  split.
  - exact (proj1 (getSystemResult_guards_fall_through blank 1 None)).
  - exact (proj2 (getSystemResult_guards_fall_through sample_handle 1 None)).
Defined.

(** The name of link 0 asked of a handle that was never opened. *)
Lemma getElementName_closed_handle_witness :
  SMO_getElementName grant_all link 0 (Some (replicate 8 x00)) 8 (Some blank)
  = Undefined (Some (set_elementNames (Some []) blank)).
Proof.
  apply (getElementName_closed_handle grant_all blank link 0
           (Some (replicate 8 x00)) 8); reflexivity.
Defined.

(** What the two functions do at the failing inputs, evaluated: with a null
    array [SMO_getSystemResult] seeks to 312, reads the two system values
    and faults storing them; the sibling [SMO_getLinkResult] returns 411
    with the stream where it was. *)
Example getSystemResult_null_array_run :
  SMO_getSystemResult 1 None (Some sample_handle)
  = Undefined
      (Some (set_file
               (Some (mkFILE sample_file 320
                        (f_calls sample_stream
                         ++ [io_fseeko64 312 SEEK_SET; io_fread 4 2])))
               sample_handle))
  /\ SMO_getLinkResult 1 1 None (Some sample_handle)
     = Ret (411, None) (Some sample_handle).
Proof. split; vm_compute; reflexivity. Qed.

(** With an array, the system row of period 1. *)
Example getSystemResult_run :
  exists s',
    SMO_getSystemResult 1 (Some [Indeterminate; Indeterminate])
      (Some sample_handle)
    = Ret (0, Some [Float 1400; Float 1401]) (Some s').
Proof. eexists. vm_compute. reflexivity. Qed.

(** On the open sample handle the names are there. *)
Example getElementName_run :
  exists s',
    SMO_getElementName grant_all link 1 (Some (replicate 4 x00)) 4
      (Some sample_handle)
    = Ret (0, Some (list_byte_of_string "L2" ++ [x00; x00]), 2) (Some s').
Proof. eexists. vm_compute. reflexivity. Qed.

(** ** The calendar functions of datetime.c *)

Lemma isLeapYear_flag y : isLeapYear y = 0 \/ isLeapYear y = 1.
Proof. unfold isLeapYear. destruct (_ && _); auto. Qed.

Lemma daysPerMonth_at y m :
  1 <= m <= 12 ->
  datetime_daysPerMonth y m = DaysPerMonth_at (isLeapYear y) (m - 1).
Proof.
  intros Hm. unfold datetime_daysPerMonth.
  destruct (Z.ltb_spec m 1); [lia|]. destruct (Z.gtb_spec m 12); [lia|].
  reflexivity.
Qed.

Lemma fold_left_add_from (l : list Z) (x : Z) :
  fold_left Z.add l x = fold_left Z.add l 0 + x.
Proof. rewrite <- fold_left_add_shift. reflexivity. Qed.

Lemma DaysPerMonth_row_sum k :
  k = 0 \/ k = 1 -> fold_left Z.add (DaysPerMonth_row k) 0 = 365 + k.
Proof. intros [-> | ->]; reflexivity. Qed.

Lemma DaysPerMonth_row_length k :
  k = 0 \/ k = 1 -> length (DaysPerMonth_row k) = 12%nat.
Proof. intros [-> | ->]; reflexivity. Qed.

(** The month loop always stops inside a row that holds more days than the
    offset, at the month whose days contain it. *)
Lemma month_loop_total (row : list Z) :
  forall (m0 e : Z),
    Forall (fun i => 0 <= i) row -> 0 <= e < fold_left Z.add row 0 ->
    exists n d,
      month_loop row m0 e = Some (m0 + Z.of_nat n, d)
      /\ (n < length row)%nat
      /\ 0 <= d < nth n row 0
      /\ e = fold_left Z.add (firstn n row) 0 + d.
Proof.
  induction row as [|i row IH]; intros m0 e Hrow He.
  - cbn in He. lia.
  - cbn [month_loop]. inversion Hrow as [|? ? Hi Hrow']; subst.
    cbn [fold_left] in He. rewrite fold_left_add_from in He.
    destruct (Z.ltb_spec e i).
    + exists 0%nat, e. cbn. repeat split; try lia. f_equal. f_equal. lia.
    + destruct (IH (m0 + 1) (e - i) Hrow') as (n & d & E & Hn & Hd & Hsum); [lia|].
      exists (S n), d. rewrite E. cbn [length nth firstn fold_left].
      rewrite (fold_left_add_from _ (0 + i)).
      repeat split; try lia. f_equal. f_equal. lia.
Qed.

(** Every day count splits along the 400-, 100-, 4- and 1-year cycles, the
    last day of a cycle staying with its last year. *)
Lemma split_days (T : Z) :
  0 <= T ->
  exists q c f s e,
    T = 146097 * q + 36524 * c + 1461 * f + 365 * s + e
    /\ 0 <= q /\ 0 <= c <= 3 /\ 0 <= f <= 24 /\ 0 <= s <= 3
    /\ 0 <= e < 365 + (if (s =? 3) && (negb (f =? 24) || (c =? 3))
                       then 1 else 0).
Proof.
  intros HT.
  set (q := T / 146097). set (R := T mod 146097).
  assert (HR : 0 <= R < 146097) by (apply Z.mod_pos_bound; lia).
  assert (ET : T = 146097 * q + R) by (apply Z.div_mod; lia).
  assert (Hq : 0 <= q) by (apply Z.div_pos; lia).
  destruct (Z.eq_dec R 146096) as [E|NE].
  { exists q, 3, 24, 3, 365. cbn. lia. }
  set (c := R / 36524). set (R1 := R mod 36524).
  assert (HR1 : 0 <= R1 < 36524) by (apply Z.mod_pos_bound; lia).
  assert (ER : R = 36524 * c + R1) by (apply Z.div_mod; lia).
  assert (Hc : 0 <= c <= 3).
  { split; [apply Z.div_pos; lia|]. unfold c. Z.div_mod_to_equations. lia. }
  set (f := R1 / 1461). set (R2 := R1 mod 1461).
  assert (HR2 : 0 <= R2 < 1461) by (apply Z.mod_pos_bound; lia).
  assert (ER1 : R1 = 1461 * f + R2) by (apply Z.div_mod; lia).
  assert (Hf : 0 <= f <= 24).
  { split; [apply Z.div_pos; lia|]. unfold f. Z.div_mod_to_equations. lia. }
  destruct (Z.eq_dec R2 1460) as [E2|NE2].
  { exists q, c, f, 3, 365. rewrite Z.eqb_refl. cbn [andb].
    destruct (Z.eqb_spec f 24) as [F|F]; [lia|]. cbn. lia. }
  set (s := R2 / 365). set (e := R2 mod 365).
  assert (He : 0 <= e < 365) by (apply Z.mod_pos_bound; lia).
  assert (ER2 : R2 = 365 * s + e) by (apply Z.div_mod; lia).
  assert (Hs : 0 <= s <= 3).
  { split; [apply Z.div_pos; lia|]. unfold s. Z.div_mod_to_equations. lia. }
  exists q, c, f, s, e.
  destruct ((s =? 3) && (negb (f =? 24) || (c =? 3))); lia.
Qed.

Lemma days_before_year_split q c f s :
  0 <= q -> 0 <= c <= 3 -> 0 <= f <= 24 -> 0 <= s <= 3 ->
  days_before_year (400 * q + 100 * c + 4 * f + s + 1)
  = 146097 * q + 36524 * c + 1461 * f + 365 * s.
Proof.
  intros Hq Hc Hf Hs. unfold days_before_year.
  replace (400 * q + 100 * c + 4 * f + s + 1 - 1)
    with (400 * q + 100 * c + 4 * f + s) by lia.
  Z.div_mod_to_equations. lia.
Qed.

(** What [datetime_decodeDate] returns for a day count [t > 0]: a year from
    1 on, a month and a day of that month, which count back to [t]. *)
Lemma decodeDate_counts (date : DateTime) :
  let t := int (int (Qfloor date) + DateDelta) in
  0 < t ->
  exists y m d,
    datetime_decodeDate date = Some (y, m, d)
    /\ 1 <= y /\ 1 <= m <= 12
    /\ 1 <= d <= DaysPerMonth_at (isLeapYear y) (m - 1)
    /\ t = days_before_year y + days_before_month (isLeapYear y) m + d.
Proof.
  intros t Ht.
  assert (Hrange : in_int t) by apply int_range.
  destruct (split_days (t - 1)) as (q & c & f & s & e & ET & Hq & Hc & Hf & Hs & He);
    [lia|].
  set (y := 400 * q + 100 * c + 4 * f + s + 1).
  assert (Hleap : isLeapYear y
                  = if (s =? 3) && (negb (f =? 24) || (c =? 3)) then 1 else 0)
    by (apply isLeapYear_split; lia).
  rewrite <- Hleap in He.
  assert (Hdby : days_before_year y
                 = 146097 * q + 36524 * c + 1461 * f + 365 * s)
    by (apply days_before_year_split; lia).
  destruct (isLeapYear_flag y) as [Hk|Hk].
  all: destruct (month_loop_total (DaysPerMonth_row (isLeapYear y)) 1 e)
         as (n & d & Eloop & Hn & Hd & Hsum);
    [apply DaysPerMonth_row_nonneg; rewrite Hk; auto
    |rewrite DaysPerMonth_row_sum by (rewrite Hk; auto); lia|].
  all: rewrite DaysPerMonth_row_length in Hn by (rewrite Hk; auto).
  all: exists y, (1 + Z.of_nat n), (d + 1).
  all: split;
    [|split; [unfold y; lia|]; split; [lia|]; split;
      [unfold DaysPerMonth_at;
       replace (Z.to_nat (1 + Z.of_nat n - 1)) with n by lia; lia|];
      unfold days_before_month;
      replace (Z.to_nat (1 + Z.of_nat n - 1)) with n by lia;
      rewrite Hdby; lia].
  all: unfold datetime_decodeDate; fold t;
    destruct (Z.leb_spec t 0); [lia|];
    pose proof (year_of_day_count q c f s e) as Hyear;
    rewrite <- Hleap in Hyear; cbv zeta in Hyear;
    specialize (Hyear ltac:(lia) ltac:(lia) ltac:(lia) ltac:(lia) ltac:(lia)
                      ltac:(unfold in_int, INT_MAX in *; lia));
    rewrite <- ET in Hyear;
    destruct (while_D400 (t - 1) 1) as [t0 y0];
    destruct (divMod t0 D100) as [i1 d1];
    destruct (if i1 =? 4 then _ else _) as [i1' d1'];
    destruct (divMod d1' D4) as [i2 d2];
    destruct (divMod d2 D1) as [i3 d3];
    destruct (if i3 =? 4 then _ else _) as [i3' d3'];
    apply pair_equal_spec in Hyear; destruct Hyear as [Ey Ed];
    fold y in Ey; rewrite Ey, Ed, Eloop; reflexivity.
Qed.

Lemma prefix_sum_step (l : list Z) (n : nat) :
  (n < length l)%nat ->
  fold_left Z.add (firstn (S n) l) 0 = fold_left Z.add (firstn n l) 0 + nth n l 0.
Proof.
  revert n. induction l as [|a l IH]; intros n Hn; [cbn in Hn; lia|].
  destruct n as [|n].
  - simpl. lia.
  - cbn [firstn fold_left nth]. rewrite (fold_left_add_from _ (0 + a)).
    rewrite (fold_left_add_from (firstn n l) (0 + a)).
    rewrite IH by (cbn in Hn; lia). lia.
Qed.

Lemma prefix_sum_mono (l : list Z) (n1 n2 : nat) :
  Forall (fun i => 0 <= i) l -> (n1 <= n2)%nat ->
  fold_left Z.add (firstn n1 l) 0 <= fold_left Z.add (firstn n2 l) 0.
Proof.
  intros Hl. revert n1 n2.
  induction Hl as [|a l Ha Hl IH]; intros n1 n2 Hn.
  - rewrite !firstn_nil. lia.
  - destruct n1 as [|n1], n2 as [|n2]; try lia; cbn [firstn fold_left].
    + rewrite fold_left_add_from.
      pose proof (fold_left_add_nonneg (firstn n2 l) 0
                    (Forall_take _ n2 l Hl)). lia.
    + rewrite (fold_left_add_from _ (0 + a)).
      rewrite (fold_left_add_from (firstn n2 l) (0 + a)).
      specialize (IH n1 n2 ltac:(lia)). lia.
Qed.

Lemma prefix_sum_total (l : list Z) (n : nat) :
  Forall (fun i => 0 <= i) l ->
  fold_left Z.add (firstn n l) 0 <= fold_left Z.add l 0.
Proof.
  intros Hl. rewrite <- (firstn_all l) at 2.
  destruct (Nat.le_gt_cases n (length l)).
  - apply prefix_sum_mono; assumption.
  - rewrite (firstn_all2 l) by lia. rewrite firstn_all. lia.
Qed.

(** The days before a month and the days of that month stay inside the
    year. *)
Lemma days_before_month_bounds k m :
  k = 0 \/ k = 1 -> 1 <= m <= 12 ->
  0 <= days_before_month k m
  /\ days_before_month k m + DaysPerMonth_at k (m - 1) <= 365 + k.
Proof.
  intros Hk Hm. unfold days_before_month, DaysPerMonth_at.
  pose proof (DaysPerMonth_row_nonneg k Hk) as Hrow.
  pose proof (DaysPerMonth_row_length k Hk) as Hlen.
  split.
  - apply (fold_left_add_nonneg (firstn _ _) 0). apply Forall_take, Hrow.
  - rewrite <- prefix_sum_step by lia.
    rewrite <- (DaysPerMonth_row_sum k Hk). apply prefix_sum_total, Hrow.
Qed.

Lemma days_before_month_next k m1 m2 :
  k = 0 \/ k = 1 -> 1 <= m1 -> m1 < m2 <= 12 ->
  days_before_month k m1 + DaysPerMonth_at k (m1 - 1) <= days_before_month k m2.
Proof.
  intros Hk H1 H2. unfold days_before_month, DaysPerMonth_at.
  rewrite <- prefix_sum_step
    by (rewrite DaysPerMonth_row_length by assumption; lia).
  apply prefix_sum_mono; [apply DaysPerMonth_row_nonneg, Hk|lia].
Qed.

Lemma days_before_year_next y :
  1 <= y -> days_before_year (y + 1) = days_before_year y + 365 + isLeapYear y.
Proof.
  intros Hy. unfold days_before_year, isLeapYear.
  rewrite !Z.rem_mod_nonneg by lia.
  replace (y + 1 - 1) with y by lia.
  repeat match goal with
         | |- context [?a =? ?b] => destruct (Z.eqb_spec a b)
         end; cbn [andb orb negb];
    Z.div_mod_to_equations; lia.
Qed.

Lemma days_before_year_mono y1 y2 :
  1 <= y1 <= y2 -> days_before_year y1 <= days_before_year y2.
Proof.
  intros H. unfold days_before_year. Z.div_mod_to_equations. lia.
Qed.

(** Calendar order is the order of day counts. *)
Lemma day_count_increasing y1 m1 d1 y2 m2 d2 :
  calendar_date y1 m1 d1 -> calendar_date y2 m2 d2 ->
  date_before y1 m1 d1 y2 m2 d2 ->
  day_count y1 m1 d1 < day_count y2 m2 d2.
Proof.
  intros (Hy1 & Hm1 & Hd1) (Hy2 & Hm2 & Hd2) Hlt. unfold day_count.
  pose proof (days_before_month_bounds _ m1 (isLeapYear_flag y1) Hm1) as [B1 B1'].
  pose proof (days_before_month_bounds _ m2 (isLeapYear_flag y2) Hm2) as [B2 B2'].
  destruct Hlt as [Hy|[-> [Hm|[-> Hd]]]].
  - pose proof (days_before_year_next y1 Hy1).
    pose proof (days_before_year_mono (y1 + 1) y2 ltac:(lia)). lia.
  - pose proof (days_before_month_next _ m1 m2 (isLeapYear_flag y2)
                  ltac:(lia) ltac:(lia)). lia.
  - lia.
Qed.

Lemma day_count_injective y1 m1 d1 y2 m2 d2 :
  calendar_date y1 m1 d1 -> calendar_date y2 m2 d2 ->
  day_count y1 m1 d1 = day_count y2 m2 d2 ->
  y1 = y2 /\ m1 = m2 /\ d1 = d2.
Proof.
  intros H1 H2 E.
  destruct (Z.lt_trichotomy y1 y2) as [Hy|[Hy|Hy]].
  - pose proof (day_count_increasing _ _ _ _ _ _ H1 H2 (or_introl Hy)). lia.
  - subst y2. destruct (Z.lt_trichotomy m1 m2) as [Hm|[Hm|Hm]].
    + pose proof (day_count_increasing y1 m1 d1 y1 m2 d2 H1 H2
                    (or_intror (conj eq_refl (or_introl Hm)))). lia.
    + subst m2. unfold day_count in E. lia.
    + pose proof (day_count_increasing y1 m2 d2 y1 m1 d1 H2 H1
                    (or_intror (conj eq_refl (or_introl Hm)))). lia.
  - pose proof (day_count_increasing _ _ _ _ _ _ H2 H1 (or_introl Hy)). lia.
Qed.

(** Day counts up to the sentinel decode to the date 0-1-1. *)
Lemma decodeDate_early (date : DateTime) :
  int (int (Qfloor date) + DateDelta) <= 0 ->
  datetime_decodeDate date = Some (0, 1, 1).
Proof.
  intros Ht. unfold datetime_decodeDate.
  destruct (Z.leb_spec (int (int (Qfloor date) + DateDelta)) 0); [|lia].
  reflexivity.
Qed.

Lemma day_count_bounds y m d :
  calendar_date y m d ->
  days_before_year y + 1 <= day_count y m d
  /\ day_count y m d <= days_before_year y + 365 + isLeapYear y.
Proof.
  intros (Hy & Hm & Hd). unfold day_count.
  pose proof (days_before_month_bounds _ m (isLeapYear_flag y) Hm). lia.
Qed.

Lemma valid_calendar_date y m d :
  valid_date y m d <-> y <= 9999 /\ calendar_date y m d.
Proof.
  unfold valid_date, calendar_date. split.
  - intros (Hy & Hm & Hd). rewrite daysPerMonth_at in Hd by exact Hm. tauto.
  - intros (Hy & Hy' & Hm & Hd). rewrite daysPerMonth_at by exact Hm. tauto.
Qed.

(** [datetime_encodeDate] is the day count moved to the epoch, on the
    dates it accepts, and the sentinel on all others. *)
Lemma encodeDate_cases y m d :
  (valid_date y m d ->
   datetime_encodeDate y m d = inject_Z (day_count y m d - DateDelta))
  /\ (~ valid_date y m d ->
      datetime_encodeDate y m d = inject_Z (- DateDelta)).
Proof.
  unfold datetime_encodeDate.
  destruct (Z.leb_spec 1 y); cbn [andb];
    [|split; [unfold valid_date; lia|reflexivity]].
  destruct (Z.leb_spec y 9999); cbn [andb];
    [|split; [unfold valid_date; lia|reflexivity]].
  destruct (Z.leb_spec 1 m); cbn [andb];
    [|split; [unfold valid_date; lia|reflexivity]].
  destruct (Z.leb_spec m 12); cbn [andb];
    [|split; [unfold valid_date; lia|reflexivity]].
  destruct (Z.leb_spec 1 d); cbn [andb];
    [|split; [unfold valid_date; lia|reflexivity]].
  destruct (Z.leb_spec d (DaysPerMonth_at (isLeapYear y) (m - 1)));
    [|split; [rewrite valid_calendar_date; unfold calendar_date; lia
             |reflexivity]].
  split; [intros _|intros Hn; exfalso; apply Hn; apply valid_calendar_date;
                   unfold calendar_date; lia].
  assert (Hcal : calendar_date y m d) by (unfold calendar_date; lia).
  destruct (day_count_bounds y m d Hcal) as [Blo Bhi].
  destruct (isLeapYear_flag y) as [Hk|Hk].
  all: rewrite !Z.quot_div_nonneg by lia.
  all: rewrite fold_left_add_from.
  all: f_equal; rewrite int_small.
  all: try (unfold day_count, days_before_year, days_before_month; lia).
  all: unfold in_int, INT_MIN, INT_MAX, DateDelta.
  all: unfold day_count, days_before_month in *.
  all: rewrite Hk in *.
  all: revert Blo Bhi; unfold days_before_year;
    generalize (fold_left Z.add
                  (firstn (Z.to_nat (m - 1)) (DaysPerMonth_row (isLeapYear y))) 0);
    intros z; rewrite ?Hk; intros; Z.div_mod_to_equations; lia.
Qed.

(** X1.  For a [DateTime] whose whole part is an [int] to which
    [DateDelta] can be added without overflow, [datetime_decodeDate] never
    reads outside the month table and returns a month from 1 to 12 with a
    day of that month: the date 0-1-1 when the whole part is at most
    [-DateDelta] (the sentinel of [datetime_encodeDate] and all earlier
    days), and otherwise a date of a year from 1 on with
    [1 <= day <= datetime_daysPerMonth year month]. *)
Theorem decodeDate_valid (date : DateTime) :
  INT_MIN <= Qfloor date <= INT_MAX - DateDelta ->
  exists y m d,
    datetime_decodeDate date = Some (y, m, d)
    /\ 1 <= m <= 12
    /\ ((Qfloor date <= - DateDelta /\ y = 0 /\ m = 1 /\ d = 1)
        \/ (- DateDelta < Qfloor date
            /\ 1 <= y /\ 1 <= d <= datetime_daysPerMonth y m)).
Proof.
  intros Hr. unfold INT_MIN, INT_MAX, DateDelta in Hr.
  assert (Et : int (int (Qfloor date) + DateDelta) = Qfloor date + DateDelta).
  { unfold DateDelta.
    rewrite (int_small (Qfloor date))
      by (unfold in_int, INT_MIN, INT_MAX; lia).
    apply int_small. unfold in_int, INT_MIN, INT_MAX. lia. }
  destruct (Z.lt_ge_cases 0 (Qfloor date + DateDelta)) as [Ht|Ht].
  - destruct (decodeDate_counts date) as (y & m & d & E & Hy & Hm & Hd & _).
    { cbv zeta. rewrite Et. exact Ht. }
    exists y, m, d. rewrite daysPerMonth_at by exact Hm.
    split; [exact E|]. split; [exact Hm|]. right. repeat split; auto; lia.
  - exists 0, 1, 1. rewrite decodeDate_early by (rewrite Et; lia).
    split; [reflexivity|]. split; [lia|]. left. repeat split; lia.
Qed.

(** X2.  For a [DateTime] between 1 January of year 1 and 31 December 9999,
    encoding the decoded date gives back the whole days of the
    [DateTime]. *)
Theorem encodeDate_decodeDate (date : DateTime) :
  -693593 <= Qfloor date <= 2958465 ->
  exists y m d,
    datetime_decodeDate date = Some (y, m, d)
    /\ valid_date y m d
    /\ datetime_encodeDate y m d = inject_Z (Qfloor date).
Proof.
  intros Hn.
  assert (Et : int (int (Qfloor date) + DateDelta) = Qfloor date + DateDelta).
  { unfold DateDelta.
    rewrite (int_small (Qfloor date))
      by (unfold in_int, INT_MIN, INT_MAX; lia).
    apply int_small. unfold in_int, INT_MIN, INT_MAX. lia. }
  destruct (decodeDate_counts date) as (y & m & d & E & Hy & Hm & Hd & Hcount);
    [rewrite Et; unfold DateDelta; lia|].
  rewrite Et in Hcount. fold (day_count y m d) in Hcount.
  assert (Hcal : calendar_date y m d) by (unfold calendar_date; auto).
  assert (Hy' : y <= 9999).
  { destruct (Z.le_gt_cases y 9999) as [H|H]; [exact H|exfalso].
    destruct (day_count_bounds y m d Hcal) as [Blo _].
    pose proof (days_before_year_mono 10000 y ltac:(lia)) as Hmono.
    change (days_before_year 10000) with 3652059 in Hmono.
    unfold DateDelta in Hcount. lia. }
  assert (Hvalid : valid_date y m d) by (apply valid_calendar_date; auto).
  exists y, m, d. split; [exact E|]. split; [exact Hvalid|].
  rewrite (proj1 (encodeDate_cases y m d) Hvalid). f_equal. lia.
Qed.

(** X3.  [datetime_encodeDate] returns the sentinel [-DateDelta] exactly
    when the date is not one it accepts: no valid date encodes to it. *)
Theorem encodeDate_sentinel (y m d : Z) :
  datetime_encodeDate y m d = inject_Z (- DateDelta) <-> ~ valid_date y m d.
Proof.
  split.
  - intros E Hvalid.
    rewrite (proj1 (encodeDate_cases y m d) Hvalid) in E.
    injection E as E.
    apply valid_calendar_date in Hvalid. destruct Hvalid as [_ Hcal].
    destruct (day_count_bounds y m d Hcal) as [Blo _].
    assert (0 <= days_before_year y).
    { destruct Hcal as (Hy & _). unfold days_before_year.
      Z.div_mod_to_equations. lia. }
    lia.
  - apply encodeDate_cases.
Qed.

(** X4.  On valid dates [datetime_encodeDate] is strictly increasing: a
    date is earlier in the calendar exactly when it encodes to a smaller
    [DateTime]. *)
Theorem encodeDate_increasing (y1 m1 d1 y2 m2 d2 : Z) :
  valid_date y1 m1 d1 -> valid_date y2 m2 d2 ->
  (date_before y1 m1 d1 y2 m2 d2
   <-> (datetime_encodeDate y1 m1 d1 < datetime_encodeDate y2 m2 d2)%Q).
Proof.
  intros H1 H2.
  rewrite (proj1 (encodeDate_cases _ _ _) H1),
    (proj1 (encodeDate_cases _ _ _) H2).
  rewrite <- Zlt_Qlt.
  apply valid_calendar_date in H1, H2.
  destruct H1 as [_ C1], H2 as [_ C2].
  split.
  - intros Hlt. pose proof (day_count_increasing _ _ _ _ _ _ C1 C2 Hlt). lia.
  - intros Hlt.
    assert (Hc : day_count y1 m1 d1 < day_count y2 m2 d2) by lia.
    unfold date_before.
    destruct (Z.lt_trichotomy y1 y2) as [Hy|[Hy|Hy]]; [auto| |].
    + subst y2. right. split; [reflexivity|].
      destruct (Z.lt_trichotomy m1 m2) as [Hm|[Hm|Hm]]; [auto| |].
      * subst m2. right. split; [reflexivity|]. unfold day_count in Hc. lia.
      * pose proof (day_count_increasing y1 m2 d2 y1 m1 d1 C2 C1
                      (or_intror (conj eq_refl (or_introl Hm)))). lia.
    + pose proof (day_count_increasing _ _ _ _ _ _ C2 C1 (or_introl Hy)). lia.
Qed.

(** Decoding an encoded valid date. *)
Lemma decodeDate_of_encodeDate y m d :
  valid_date y m d ->
  datetime_decodeDate (datetime_encodeDate y m d) = Some (y, m, d).
Proof.
  intros Hvalid.
  rewrite (proj1 (encodeDate_cases y m d) Hvalid).
  pose proof Hvalid as Hv. apply valid_calendar_date in Hv.
  destruct Hv as [Hy Hcal].
  destruct (day_count_bounds y m d Hcal) as [Blo Bhi].
  assert (Hdby : 0 <= days_before_year y <= 3652059).
  { destruct Hcal as (Hy1 & _). split.
    - unfold days_before_year. Z.div_mod_to_equations. lia.
    - pose proof (days_before_year_mono y 10000 ltac:(lia)) as Hm.
      change (days_before_year 10000) with 3652059 in Hm. exact Hm. }
  destruct (isLeapYear_flag y) as [Hk|Hk].
  all: assert (Et : int (int (Qfloor (inject_Z (day_count y m d - DateDelta)))
                         + DateDelta) = day_count y m d)
    by (rewrite Qfloor_Z; unfold DateDelta;
        rewrite (int_small (_ - 693594))
          by (unfold in_int, INT_MIN, INT_MAX; lia);
        rewrite int_small by (unfold in_int, INT_MIN, INT_MAX; lia); lia).
  all: destruct (decodeDate_counts (inject_Z (day_count y m d - DateDelta)))
         as (y' & m' & d' & E & Hy' & Hm' & Hd' & Hcount);
    [rewrite Et; lia|].
  all: rewrite Et in Hcount; fold (day_count y' m' d') in Hcount.
  all: destruct (day_count_injective y m d y' m' d' Hcal) as (-> & -> & ->);
    [unfold calendar_date; auto|exact Hcount|exact E].
Qed.

(** X5.  [datetime_dayOfWeek] looks at the whole days only.  From the
    sentinel date on it is [(days since 31 December of year 0) mod 7 + 1],
    a number from 1 to 7; for earlier dates C's remainder is negative and
    the result lies between -5 and 1. *)
Theorem dayOfWeek_range (date : DateTime) :
  (-693594 <= Qfloor date <= INT_MAX - 693594 ->
   datetime_dayOfWeek date = (Qfloor date + 693594) mod 7 + 1
   /\ 1 <= datetime_dayOfWeek date <= 7)
  /\ (INT_MIN <= Qfloor date < -693594 ->
      -5 <= datetime_dayOfWeek date <= 1).
Proof.
  unfold datetime_dayOfWeek, DateDelta, INT_MIN, INT_MAX. split; intros Hn.
  - rewrite (int_small (Qfloor date))
      by (unfold in_int, INT_MIN, INT_MAX; lia).
    rewrite (int_small (Qfloor date + 693594))
      by (unfold in_int, INT_MIN, INT_MAX; lia).
    rewrite Z.rem_mod_nonneg by lia.
    pose proof (Z.mod_pos_bound (Qfloor date + 693594) 7 ltac:(lia)).
    rewrite int_small by (unfold in_int, INT_MIN, INT_MAX; lia). lia.
  - rewrite (int_small (Qfloor date))
      by (unfold in_int, INT_MIN, INT_MAX; lia).
    rewrite (int_small (Qfloor date + 693594))
      by (unfold in_int, INT_MIN, INT_MAX; lia).
    assert (-6 <= Z.rem (Qfloor date + 693594) 7 <= 0)
      by (Z.quot_rem_to_equations; lia).
    rewrite int_small by (unfold in_int, INT_MIN, INT_MAX; lia). lia.
Qed.

(** X6.  [datetime_monthOfYear] returns a month from 1 to 12 for every
    [DateTime] whose whole part is an [int] to which [DateDelta] can be
    added without overflow, and the month of an encoded valid date is the
    month that was encoded. *)
Theorem monthOfYear_range (date : DateTime) :
  (INT_MIN <= Qfloor date <= INT_MAX - DateDelta ->
   exists m, datetime_monthOfYear date = Some m /\ 1 <= m <= 12)
  /\ (forall y m d, valid_date y m d -> date = datetime_encodeDate y m d ->
                    datetime_monthOfYear date = Some m).
Proof.
  unfold datetime_monthOfYear. split.
  - intros _.
    destruct (Z.lt_ge_cases 0 (int (int (Qfloor date) + DateDelta)))
      as [Ht|Ht].
    + destruct (decodeDate_counts date Ht) as (y & m & d & E & _ & Hm & _).
      rewrite E. eauto.
    + rewrite decodeDate_early by lia. exists 1. split; [reflexivity|lia].
  - intros y m d Hvalid ->. rewrite decodeDate_of_encodeDate by exact Hvalid.
    reflexivity.
Qed.

Lemma Qfloor_sub_Z a b : Qfloor (inject_Z a - inject_Z b) = a - b.
Proof.
  unfold Qminus, Qplus, Qopp, inject_Z, Qfloor. cbn [Qnum Qden].
  rewrite Z.div_1_r. lia.
Qed.

(** X7.  The day of the year of an encoded valid date is the number of days
    before its month plus its day: 1 for 1 January, at most 365, or 366 in
    a leap year. *)
Theorem dayOfYear_of_encodeDate (y m d : Z) :
  valid_date y m d ->
  datetime_dayOfYear (datetime_encodeDate y m d)
  = Some (days_before_month (isLeapYear y) m + d)
  /\ 1 <= days_before_month (isLeapYear y) m + d <= 365 + isLeapYear y.
Proof.
  intros Hvalid. unfold datetime_dayOfYear.
  rewrite decodeDate_of_encodeDate by exact Hvalid.
  pose proof Hvalid as Hv. apply valid_calendar_date in Hv.
  destruct Hv as [Hy (Hy1 & Hm & Hd)].
  assert (Hjan : valid_date y 1 1).
  { apply valid_calendar_date. split; [exact Hy|].
    unfold calendar_date. split; [exact Hy1|]. split; [lia|].
    destruct (isLeapYear_flag y) as [-> | ->];
      change (DaysPerMonth_at _ (1 - 1)) with 31; lia. }
  rewrite (proj1 (encodeDate_cases y m d) Hvalid).
  rewrite (proj1 (encodeDate_cases y 1 1) Hjan).
  rewrite Qfloor_sub_Z.
  pose proof (days_before_month_bounds _ m (isLeapYear_flag y) Hm) as [B1 B2].
  assert (E : day_count y m d - DateDelta - (day_count y 1 1 - DateDelta)
              = days_before_month (isLeapYear y) m + d - 1).
  { unfold day_count.
    replace (days_before_month (isLeapYear y) 1) with 0; [lia|].
    destruct (isLeapYear_flag y) as [-> | ->]; reflexivity. }
  rewrite E. split; [|lia].
  destruct (isLeapYear_flag y) as [Hk|Hk]; rewrite Hk in *;
    rewrite !int_small by (unfold in_int, INT_MIN, INT_MAX;
                           try rewrite int_small
                             by (unfold in_int, INT_MIN, INT_MAX; lia);
                           lia);
    f_equal; lia.
Qed.

Lemma setDateFormat_keeps fmt DateFormat :
  DateFormat = Y_M_D \/ DateFormat = M_D_Y ->
  datetime_setDateFormat fmt DateFormat = Y_M_D
  \/ datetime_setDateFormat fmt DateFormat = M_D_Y.
Proof.
  intros H. unfold datetime_setDateFormat, Y_M_D, M_D_Y in *.
  destruct (Z.geb_spec fmt 0); cbn [andb]; [|exact H].
  destruct (Z.leb_spec fmt 1); [lia|exact H].
Qed.

(** X8.  However [datetime_setDateFormat] is called, the format stays
    [Y_M_D] or [M_D_Y]: the range test admits 0 and 1 only, so a call with
    [D_M_Y] changes nothing and the day-month-year format is never
    selected. *)
Theorem setDateFormat_never_D_M_Y (fmts : list Z) :
  (DateFormat_after fmts = Y_M_D \/ DateFormat_after fmts = M_D_Y)
  /\ DateFormat_after (fmts ++ [D_M_Y]) = DateFormat_after fmts.
Proof.
  unfold DateFormat_after. split.
  - assert (H : forall f0, f0 = Y_M_D \/ f0 = M_D_Y ->
              let r := fold_left
                         (fun DateFormat fmt => datetime_setDateFormat fmt DateFormat)
                         fmts f0 in
              r = Y_M_D \/ r = M_D_Y).
    { induction fmts as [|fmt fmts IH]; intros f0 H0; cbn [fold_left].
      - exact H0.
      - apply IH. apply setDateFormat_keeps, H0. }
    apply H. left. reflexivity.
  - rewrite fold_left_app. reflexivity.
Qed.

Lemma UCHAR_to_upper (b : byte) :
  UCHAR (char_value (to_upper b)) = UCHAR (char_value b).
Proof. destruct b; reflexivity. Qed.

Lemma char_at_to_upper (s : list byte) (k : nat) :
  UCHAR (char_at (map to_upper s) k) = UCHAR (char_at s k).
Proof.
  unfold char_at. rewrite nth_error_map.
  destruct (nth_error s k); cbn [option_map]; [apply UCHAR_to_upper|reflexivity].
Qed.

Lemma findMonth_loop_to_upper (s : list byte) (names : list (list byte)) :
  forall i, findMonth_loop (map to_upper s) i names = findMonth_loop s i names.
Proof.
  induction names as [|txt names IH]; intros i; cbn [findMonth_loop]; [reflexivity|].
  rewrite !char_at_to_upper, IH. reflexivity.
Qed.

Lemma findMonth_loop_range (s : list byte) (names : list (list byte)) :
  forall i, findMonth_loop s i names = 0
            \/ i + 1 <= findMonth_loop s i names <= i + Z.of_nat (length names).
Proof.
  induction names as [|txt names IH]; intros i; cbn [findMonth_loop length].
  - left. reflexivity.
  - destruct (_ && _); [right; lia|].
    destruct (IH (i + 1)) as [E|E]; [left; exact E|right; lia].
Qed.

(** X9.  [datetime_findMonth] returns a number from 0 to 12.  It looks at
    the first three characters only and takes them in either letter case: a
    month name followed by anything gives the month's number, and a string
    of fewer than three characters gives 0. *)
Theorem findMonth_names :
  (forall month, 0 <= datetime_findMonth month <= 12)
  /\ (forall month,
        datetime_findMonth (map to_upper month) = datetime_findMonth month)
  /\ (forall m rest, 1 <= m <= 12 ->
        datetime_findMonth (nth (Z.to_nat (m - 1)) MonthTxt [] ++ rest) = m)
  /\ (forall month, (length month < 3)%nat -> datetime_findMonth month = 0).
Proof.
  unfold datetime_findMonth. repeat split.
  - destruct (findMonth_loop_range month MonthTxt 0) as [E|E]; lia.
  - destruct (findMonth_loop_range month MonthTxt 0) as [E|E]; [lia|].
    change (Z.of_nat (length MonthTxt)) with 12 in E. lia.
  - intros month. apply findMonth_loop_to_upper.
  - intros m rest Hm.
    assert (Hcases : m = 1 \/ m = 2 \/ m = 3 \/ m = 4 \/ m = 5 \/ m = 6
                     \/ m = 7 \/ m = 8 \/ m = 9 \/ m = 10 \/ m = 11 \/ m = 12)
      by lia.
    repeat (destruct Hcases as [-> | Hcases]); try subst m; reflexivity.
  - intros month Hlen.
    destruct month as [|a [|b [|c month]]]; try (cbn in Hlen; lia).
    + reflexivity.
    + cbn [findMonth_loop MonthTxt map]. unfold char_at at 2 4 6 8 10 12 14 16 18 20 22 24.
      cbn. rewrite ?andb_false_r. reflexivity.
    + cbn. rewrite ?andb_false_r. reflexivity.
Qed.

(** The number of decimal digits. *)
Lemma decimal_length (k : nat) :
  forall (fuel : nat) (n : Z),
    (k < fuel)%nat ->
    (k = 0%nat -> 0 <= n) -> 10 ^ Z.of_nat k <= n \/ k = 0%nat ->
    n < 10 ^ Z.of_nat (S k) ->
    length (decimal fuel n) = S k.
Proof.
  induction k as [|k IH]; intros fuel n Hfuel H0 Hlo Hhi;
    (destruct fuel as [|fuel]; [lia|]); cbn [decimal].
  - change (10 ^ Z.of_nat 1) with 10 in Hhi.
    destruct (Z.ltb_spec n 10); [reflexivity|lia].
  - destruct Hlo as [Hlo|Hlo]; [|discriminate].
    assert (E10 : forall j : nat, 10 ^ Z.of_nat (S j) = 10 * 10 ^ Z.of_nat j).
    { intros j. rewrite Nat2Z.inj_succ, Z.pow_succ_r by lia. reflexivity. }
    rewrite E10 in Hlo, Hhi.
    assert (0 < 10 ^ Z.of_nat k) by (apply Z.pow_pos_nonneg; lia).
    destruct (Z.ltb_spec n 10); [lia|].
    rewrite length_app. cbn [length].
    rewrite (IH fuel (n / 10)); [lia|lia| | |].
    + intros ->. apply Z.div_pos; lia.
    + destruct k; [right; reflexivity|left].
      apply Z.div_le_lower_bound; [lia|]. rewrite E10 in *. lia.
    + apply Z.div_lt_upper_bound; [lia|]. lia.
Qed.

Lemma decimal_digits (n : Z) :
  0 <= n < 10 ^ 10 ->
  exists k : nat,
    (k < 10)%nat /\ length (decimal 10 n) = S k
    /\ n < 10 ^ Z.of_nat (S k) /\ (k = 0%nat \/ 10 ^ Z.of_nat k <= n).
Proof.
  intros Hn.
  assert (Hk : exists k : nat, (k < 10)%nat /\ n < 10 ^ Z.of_nat (S k)
                               /\ (k = 0%nat \/ 10 ^ Z.of_nat k <= n)).
  { destruct (Z.lt_ge_cases n (10 ^ 1)); [exists 0%nat; repeat split; auto; lia|].
    destruct (Z.lt_ge_cases n (10 ^ 2)); [exists 1%nat; repeat split; auto; lia|].
    destruct (Z.lt_ge_cases n (10 ^ 3)); [exists 2%nat; repeat split; auto; lia|].
    destruct (Z.lt_ge_cases n (10 ^ 4)); [exists 3%nat; repeat split; auto; lia|].
    destruct (Z.lt_ge_cases n (10 ^ 5)); [exists 4%nat; repeat split; auto; lia|].
    destruct (Z.lt_ge_cases n (10 ^ 6)); [exists 5%nat; repeat split; auto; lia|].
    destruct (Z.lt_ge_cases n (10 ^ 7)); [exists 6%nat; repeat split; auto; lia|].
    destruct (Z.lt_ge_cases n (10 ^ 8)); [exists 7%nat; repeat split; auto; lia|].
    destruct (Z.lt_ge_cases n (10 ^ 9)); [exists 8%nat; repeat split; auto; lia|].
    exists 9%nat; repeat split; auto; lia. }
  destruct Hk as (k & Hk & Hhi & Hlo). exists k.
  split; [exact Hk|]. split; [|auto].
  apply decimal_length; [lia|lia|destruct Hlo; auto|exact Hhi].
Qed.

Lemma length_pad width c len : length (pad width c len) = (width - len)%nat.
Proof. unfold pad. apply repeat_length. Qed.

(** [%4d] of a year: four characters up to 9999, more from 10000 on. *)
Lemma fmt_d_year y :
  0 <= y <= INT_MAX ->
  (y <= 9999 -> length (fmt_d 4 y) = 4%nat)
  /\ (10000 <= y -> (5 <= length (fmt_d 4 y))%nat).
Proof.
  intros Hy. unfold fmt_d. destruct (Z.ltb_spec y 0); [lia|].
  destruct (decimal_digits y) as (k & Hk & Hlen & Hhi & Hlo);
    [unfold INT_MAX in Hy; lia|].
  rewrite length_app, length_pad, Hlen. split; intros Hb.
  - assert (k < 4)%nat; [|lia].
    destruct Hlo as [->|Hlo]; [lia|].
    destruct (Nat.lt_ge_cases k 4) as [H4|H4]; [exact H4|exfalso].
    assert (10 ^ 4 <= 10 ^ Z.of_nat k) by (apply Z.pow_le_mono_r; lia). lia.
  - assert (4 <= k)%nat; [|lia].
    destruct (Nat.lt_ge_cases k 4) as [H4|H4]; [exfalso|exact H4].
    assert (10 ^ Z.of_nat (S k) <= 10 ^ 4) by (apply Z.pow_le_mono_r; lia). lia.
Qed.

Lemma fmt_0d_day d : 1 <= d <= 31 -> length (fmt_0d 2 d) = 2%nat.
Proof.
  intros Hd. unfold fmt_0d. destruct (Z.ltb_spec d 0); [lia|].
  destruct (decimal_digits d) as (k & Hk & Hlen & Hhi & Hlo); [lia|].
  rewrite length_app, length_pad, Hlen.
  assert (k < 2)%nat; [|lia].
  destruct Hlo as [->|Hlo]; [lia|].
  destruct (Nat.lt_ge_cases k 2) as [H2|H2]; [exact H2|exfalso].
  assert (10 ^ 2 <= 10 ^ Z.of_nat k) by (apply Z.pow_le_mono_r; lia). lia.
Qed.

Lemma MonthTxt_entry m :
  1 <= m <= 12 ->
  exists month, nth_error MonthTxt (Z.to_nat (m - 1)) = Some month
                /\ length (fmt_s 3 month) = 3%nat.
Proof.
  intros Hm.
  assert (Hcases : m = 1 \/ m = 2 \/ m = 3 \/ m = 4 \/ m = 5 \/ m = 6
                   \/ m = 7 \/ m = 8 \/ m = 9 \/ m = 10 \/ m = 11 \/ m = 12)
    by lia.
  repeat (destruct Hcases as [-> | Hcases]); try subst m;
    eexists; (split; [reflexivity|reflexivity]).
Qed.

Lemma digit_not_NUL n : 0 <= n < 10 -> digit n <> x00.
Proof.
  intros Hn. unfold digit.
  destruct (Byte.of_N (Z.to_N (48 + n))) as [b|] eqn:E.
  - apply Byte.to_of_N in E. intros ->. cbn in E. lia.
  - apply Byte.of_N_None_iff in E. lia.
Qed.

Lemma decimal_no_NUL fuel : forall n, Forall (fun b => b <> x00) (decimal fuel n).
Proof.
  induction fuel as [|fuel IH]; intros n; cbn [decimal]; [constructor|].
  apply Forall_app. split.
  - destruct (n <? 10); [constructor|apply IH].
  - constructor; [|constructor].
    apply digit_not_NUL. apply Z.mod_pos_bound. lia.
Qed.

Lemma pad_no_NUL width c len : c <> x00 -> Forall (fun b => b <> x00) (pad width c len).
Proof.
  intros Hc. unfold pad. induction (width - len)%nat; cbn [repeat]; constructor; auto.
Qed.

Lemma fmt_d_no_NUL width n : Forall (fun b => b <> x00) (fmt_d width n).
Proof.
  unfold fmt_d. apply Forall_app. split; [apply pad_no_NUL; discriminate|].
  destruct (n <? 0); [constructor; [discriminate|]|]; apply decimal_no_NUL.
Qed.

Lemma fmt_0d_no_NUL width n : Forall (fun b => b <> x00) (fmt_0d width n).
Proof.
  unfold fmt_0d. destruct (n <? 0).
  - constructor; [discriminate|]. apply Forall_app. split;
      [apply pad_no_NUL; discriminate|apply decimal_no_NUL].
  - apply Forall_app. split;
      [apply pad_no_NUL; discriminate|apply decimal_no_NUL].
Qed.

Lemma MonthTxt_no_NUL i month :
  nth_error MonthTxt i = Some month -> Forall (fun b => b <> x00) (fmt_s 3 month).
Proof.
  intros Hi.
  assert (HF : Forall (fun mo => Forall (fun b => b <> x00) (fmt_s 3 mo)) MonthTxt).
  { repeat constructor; discriminate. }
  rewrite List.Forall_forall in HF. apply HF. eapply nth_error_In; eauto.
Qed.

Lemma days_before_year_lower y : 1 <= y -> (y - 1) * 365 <= days_before_year y.
Proof.
  intros Hy. unfold days_before_year. Z.div_mod_to_equations. lia.
Qed.

(** The year a day count falls in, against the last year of four digits. *)
Lemma decodeDate_year (date : DateTime) :
  INT_MIN <= Qfloor date <= INT_MAX - DateDelta ->
  exists y m d month,
    datetime_decodeDate date = Some (y, m, d)
    /\ 1 <= m <= 12 /\ 1 <= d <= 31
    /\ nth_error MonthTxt (Z.to_nat (m - 1)) = Some month
    /\ length (fmt_s 3 month) = 3%nat
    /\ 0 <= y <= INT_MAX
    /\ (Qfloor date <= 2958465 -> y <= 9999)
    /\ (2958466 <= Qfloor date -> 10000 <= y).
Proof.
  intros Hr. unfold INT_MIN, INT_MAX, DateDelta in Hr.
  set (t := int (int (Qfloor date) + DateDelta)).
  assert (Ht : t = Qfloor date + 693594).
  { unfold t, DateDelta. rewrite (int_small (Qfloor date)) by (unfold in_int, INT_MIN, INT_MAX; lia).
    apply int_small. unfold in_int, INT_MIN, INT_MAX. lia. }
  destruct (Z_lt_le_dec 0 t) as [Hpos|Hneg].
  - destruct (decodeDate_counts date Hpos) as (y & m & d & Hdec & Hy & Hm & Hd & Hcount).
    fold t in Hcount.
    destruct (MonthTxt_entry m Hm) as (month & Hmonth & Hlen).
    assert (Hcal : calendar_date y m d) by (unfold calendar_date; auto).
    pose proof (day_count_bounds y m d Hcal) as [Hlo Hhi].
    unfold day_count in Hlo, Hhi. rewrite <- Hcount in Hlo, Hhi.
    rewrite <- days_before_year_next in Hhi by lia.
    pose proof (days_before_year_lower y Hy) as Hlow.
    assert (H31 : DaysPerMonth_at (isLeapYear y) (m - 1) <= 31).
    { destruct (isLeapYear_flag y) as [-> | ->];
        assert (Hcases : m = 1 \/ m = 2 \/ m = 3 \/ m = 4 \/ m = 5 \/ m = 6
                         \/ m = 7 \/ m = 8 \/ m = 9 \/ m = 10 \/ m = 11 \/ m = 12)
          by lia;
        repeat (destruct Hcases as [-> | Hcases]); try subst m;
        vm_compute; discriminate. }
    exists y, m, d, month. repeat split; auto; try lia.
    + unfold INT_MAX. lia.
    + intros Hle. destruct (Z_le_gt_dec y 9999) as [H|H]; [exact H|exfalso].
      assert (days_before_year 10000 <= days_before_year y)
        by (apply days_before_year_mono; lia).
      change (days_before_year 10000) with 3652059 in *. lia.
    + intros Hge. destruct (Z_le_gt_dec 10000 y) as [H|H]; [exact H|exfalso].
      assert (days_before_year (y + 1) <= days_before_year 10000)
        by (apply days_before_year_mono; lia).
      change (days_before_year 10000) with 3652059 in *. lia.
  - exists 0, 1, 1.
    destruct (MonthTxt_entry 1 ltac:(lia)) as (month & Hmonth & Hlen).
    exists month. rewrite decodeDate_early by exact Hneg.
    repeat split; auto; try lia. unfold INT_MAX; lia.
Qed.

(** X10. [datetime_dateToStr] and its twelve-byte buffer.  For a date whose
    day number is an [int] and falls on or before 31 December 9999
    (day 2958465), in each of the three formats, the function leaves in
    the caller's array of twelve bytes or more a string of exactly eleven
    characters, none of them NUL, then the NUL, and the rest of the array
    as it was.  From 1 January 10000 on, the year takes five digits or
    more and [sprintf] writes past the end of [dateStr]. *)
Theorem dateToStr_buffer (DateFormat : Z) (date : DateTime) (s : list byte) :
  (12 <= length s)%nat ->
  INT_MIN <= Qfloor date <= INT_MAX - DateDelta ->
  (Qfloor date <= 2958465 ->
   exists str,
     datetime_dateToStr DateFormat date s = Some (str ++ [x00] ++ skipn 12 s)
     /\ length str = 11%nat /\ Forall (fun b => b <> x00) str)
  /\ (2958466 <= Qfloor date -> datetime_dateToStr DateFormat date s = None).
Proof.
  intros Hs Hr.
  destruct (decodeDate_year date Hr)
    as (y & m & d & month & Hdec & Hm & Hd & Hmonth & Hlen & Hy & Hsmall & Hbig).
  destruct (fmt_d_year y Hy) as [Hy4 Hy5].
  pose proof (fmt_0d_day d Hd) as Hd2.
  unfold datetime_dateToStr. rewrite Hdec.
  destruct (Z.ltb_spec m 1); [lia|]. rewrite Hmonth.
  set (dateStr := if DateFormat =? Y_M_D then _ else _).
  assert (Hlength : length dateStr
                    = (length (fmt_d 4 y) + 7)%nat).
  { unfold dateStr.
    destruct (DateFormat =? Y_M_D); [|destruct (DateFormat =? M_D_Y)];
      repeat (rewrite length_app || cbn [length]); lia. }
  assert (Hclean : Forall (fun b => b <> x00) dateStr).
  { pose proof (fmt_d_no_NUL 4 y). pose proof (fmt_0d_no_NUL 2 d).
    pose proof (MonthTxt_no_NUL _ _ Hmonth).
    assert (Forall (fun b => b <> x00) ["-"%byte])
      by (constructor; [discriminate|constructor]).
    unfold dateStr. cbv zeta.
    destruct (DateFormat =? Y_M_D); [|destruct (DateFormat =? M_D_Y)];
      rewrite !Forall_app; repeat split; assumption. }
  unfold DATE_STR_SIZE. split.
  - intros Hle. specialize (Hy4 (Hsmall Hle)).
    destruct (Z.leb_spec (Z.of_nat (length dateStr) + 1) 12); [|lia].
    unfold strcpy.
    destruct (Nat.leb_spec (length dateStr + 1) (length s)); [|lia].
    exists dateStr. replace (length dateStr + 1)%nat with 12%nat by lia.
    repeat split; [lia|exact Hclean].
  - intros Hge. specialize (Hy5 (Hbig Hge)).
    destruct (Z.leb_spec (Z.of_nat (length dateStr) + 1) 12); [lia|reflexivity].
Qed.

(** ** The handle after a failed [SMO_open] *)

(** X11. The two failures of [SMO_open] leave the handle in opposite
    states.  When [fopen] fails the code is 434 and the block stays
    allocated with a null stream: every query answers 412 and so does
    [SMO_close], which therefore never releases the block.  When the file
    is opened but fails validation the inner [SMO_close] has freed the
    block before [SMO_open] returns: the caller's pointer dangles, and any
    further call on it, [SMO_close] included, uses freed memory. *)
Theorem open_failure_handle (heap_grants : Z -> bool)
    (fopen_rb : list byte -> option (list byte))
    (path : list byte) (garbage : SMOutputAPI) :
  (fopen_rb path = None ->
   exists s0,
     SMO_open fopen_rb path (SMO_init garbage) = Ret 434 (Some s0)
     /\ file s0 = None
     /\ SMO_close (Some s0) = Ret 412 (Some s0)
     /\ (forall c, SMO_getProjectSize c (Some s0) = Ret (412, -1) (Some s0))
     /\ (forall K x y z w out,
           get_series K x y z w out (Some s0) = Ret (412, out) (Some s0)))
  /\ (forall data,
        fopen_rb path = Some data ->
        24 <= Z.of_nat (length data) <= OFF_MAX ->
        validation_code data <> 0 ->
        SMO_open fopen_rb path (SMO_init garbage)
        = Ret (validation_code data) None
        /\ SMO_close None = Undefined None
        /\ (forall c, SMO_getProjectSize c None = Undefined None)
        /\ (forall t i n l,
              SMO_getElementName heap_grants t i n l None = Undefined None)).
Proof.
  split.
  - intros Hopen.
    exists (set_file None (set_elementNames None garbage)).
    assert (Hf : file (set_file None (set_elementNames None garbage)) = None)
      by reflexivity.
    destruct (closed_handle_NotOpen heap_grants _ 0 0 0 0 0 None Hf)
      as (_ & _ & _ & _ & _ & _ & _ & _ & _ & Hclose).
    split; [|split; [exact Hf|split; [exact Hclose|split]]].
    + unfold SMO_open. rewrite Hopen. unfold SMO_init.
      unfold bind at 1. cbn [assign].
      unfold bind at 1. rewrite Hclose. reflexivity.
    + intros c.
      destruct (closed_handle_NotOpen heap_grants _ c 0 0 0 0 None Hf)
        as (H & _). exact H.
    + intros K x y z w out.
      destruct (closed_handle_NotOpen heap_grants _ 0 x y z w out Hf)
        as (_ & _ & _ & _ & _ & _ & H & _). apply H.
  - intros data Hopen Hlen Hcode.
    split; [apply SMO_open_rejected; assumption|].
    repeat split.
Qed.

(** ** Files shorter than the epilogue *)

(** One record read from any position: the bytes obtained are what is
    left of the file, four at most, and the position moves past them. *)
Lemma post_fread_record s f (Q : list byte -> heap -> Prop) U :
  file s = Some f -> 0 <= f_pos f ->
  (forall bs f',
     f_data f' = f_data f ->
     Z.of_nat (length bs)
     = Z.max 0 (Z.min 4 (Z.of_nat (length (f_data f)) - f_pos f)) ->
     f_pos f' = f_pos f + Z.of_nat (length bs) ->
     Q bs (Some (set_file (Some f') s))) ->
  post (fread RECORDSIZE 1) (Some s) Q U.
Proof.
  intros Hf Hpos HQ. unfold post. rewrite (fread_open s f) by exact Hf.
  apply HQ.
  - reflexivity.
  - unfold file_read. cbn [fst]. unfold RECORDSIZE.
    rewrite !size_t_small by (unfold SIZE_MAX; lia).
    rewrite length_take, length_drop. lia.
  - unfold file_read. cbn [snd fst f_pos]. reflexivity.
Qed.

Lemma post_not_returning {A : Type} (m : M A) h :
  post m h (fun _ _ => False) True -> exists h', m h = Undefined h'.
Proof.
  unfold post. destruct (m h) as [a h'|h']; [contradiction|eauto].
Qed.

Ltac record_step :=
  apply post_bind; eapply post_fread_record;
  [reflexivity | cbn [f_pos]; lia | intros ? ? ? ? ?].

(** [validateFile] on a stream at position 0 of a file shorter than the
    24 bytes of the epilogue. *)
Lemma validateFile_short s data :
  file s = Some (mkFILE data 0 []) ->
  Z.of_nat (length data) < 24 ->
  exists h', validateFile (Some s) = Undefined h'.
Proof.
  intros Hf Hlen. apply post_not_returning.
  assert (Hseek : file_seek (mkFILE data 0 []) (-6 * RECORDSIZE) SEEK_END
                  = mkFILE data 0 [io_fseeko64 (-6 * RECORDSIZE) SEEK_END]).
  { unfold file_seek. cbn [f_data f_pos f_calls].
    change (-6 * RECORDSIZE) with (-24).
    destruct (Z.leb_spec 0 (Z.of_nat (length data) + -24)); [lia|].
    reflexivity. }
  unfold validateFile.
  apply post_bind. eapply post_fseeko64; [exact Hf|]. rewrite Hseek.
  apply post_bind, post_deref.
  unfold fread_F_OFF, fread_INT4, fread_INT4_local.
  apply post_bind. record_step. cbn [f_data f_pos] in *.
  apply post_ret. apply post_bind, post_assign.
  apply post_bind. record_step. apply post_ret. apply post_bind, post_assign.
  apply post_bind. record_step. apply post_ret. apply post_bind, post_assign.
  apply post_bind. record_step. apply post_ret. apply post_bind, post_assign.
  apply post_bind. record_step. apply post_ret.
  apply post_bind. record_step. apply post_ret.
  assert (Hshort : (length bs4 =? 4)%nat = false).
  { apply Nat.eqb_neq.
    repeat match goal with
           | H : f_data ?x = _, H' : context [f_data ?x] |- _ =>
               rewrite H in H'
           end.
    lia. }
  rewrite Hshort.
  apply post_bind. eapply post_fseeko64; [reflexivity|].
  rewrite file_seek_set by (unfold OFF_MAX; lia).
  apply post_bind. record_step. apply post_ret.
  apply post_bind, post_deref.
  match goal with
  | |- context [if ?b then Some _ else None] => destruct b
  end; exact I.
Qed.

(** X12. [SMO_open] on a file shorter than the 24 bytes of the epilogue,
    an empty file included, has no defined result.  The seek to 24 bytes
    before the end fails and leaves the stream at the start; the six reads
    that follow run out of bytes before the last one, so [magic2] is never
    written, and the comparison [magic1 != magic2] that decides the
    verdict reads it all the same. *)
Theorem open_short_file (fopen_rb : list byte -> option (list byte))
    (path data : list byte) (garbage : SMOutputAPI) :
  fopen_rb path = Some data ->
  Z.of_nat (length data) < 24 ->
  exists h', SMO_open fopen_rb path (SMO_init garbage) = Undefined h'.
Proof.
  intros Hopen Hlen. unfold SMO_open. rewrite Hopen. unfold SMO_init.
  unfold bind at 1. cbn [assign]. unfold bind at 1.
  destruct (validateFile_short
              (set_file (Some (mkFILE data 0 []))
                        (set_elementNames None garbage)) data)
    as (h' & E); [reflexivity|exact Hlen|].
  rewrite E. eauto.
Qed.

(** ** What a successful [SMO_open] leaves in the handle *)

(** [validateFile], with the fields it stores and where it leaves the
    stream. *)
Lemma validateFile_fields s f :
  file s = Some f ->
  24 <= Z.of_nat (length (f_data f)) <= OFF_MAX ->
  let len := Z.of_nat (length (f_data f)) in
  exists s' f',
    validateFile (Some s) = Ret (validation_code (f_data f)) (Some s')
    /\ file s' = Some f' /\ f_data f' = f_data f /\ f_pos f' = 4
    /\ elementNames s' = elementNames s
    /\ IDPos s' = off64 (overlay 8 (IDPos s) (bytes_at (f_data f) (len - 24) 4))
    /\ ObjPropPos s'
       = off64 (overlay 8 (ObjPropPos s) (bytes_at (f_data f) (len - 20) 4))
    /\ ResultsPos s'
       = off64 (overlay 8 (ResultsPos s) (bytes_at (f_data f) (len - 16) 4))
    /\ Nperiods s' = n_periods (f_data f).
Proof.
  intros Hf Hlen len. fold len in Hlen.
  assert (Hseek : file_seek f (-6 * RECORDSIZE) SEEK_END
                  = mkFILE (f_data f) (len - 24)
                      (f_calls f ++ [io_fseeko64 (-6 * RECORDSIZE) SEEK_END])).
  { unfold file_seek. fold len. change (-6 * RECORDSIZE) with (-24).
    destruct (Z.leb_spec 0 (len + -24)); [|lia].
    destruct (Z.leb_spec (len + -24) OFF_MAX); [|lia].
    cbn [andb]. f_equal; lia. }
  enough (H : post validateFile (Some s)
                (fun code h => code = validation_code (f_data f) /\
                   exists s' f', h = Some s' /\ file s' = Some f'
                     /\ f_data f' = f_data f /\ f_pos f' = 4
                     /\ elementNames s' = elementNames s
                     /\ IDPos s' = off64 (overlay 8 (IDPos s)
                                            (bytes_at (f_data f) (len - 24) 4))
                     /\ ObjPropPos s' = off64 (overlay 8 (ObjPropPos s)
                                            (bytes_at (f_data f) (len - 20) 4))
                     /\ ResultsPos s' = off64 (overlay 8 (ResultsPos s)
                                            (bytes_at (f_data f) (len - 16) 4))
                     /\ Nperiods s' = n_periods (f_data f)) False).
  { apply post_returns in H. destruct H as (code & h & E & -> & s' & f' & -> & R).
    exists s', f'. auto. }
  unfold validateFile.
  apply post_bind. eapply post_fseeko64; [exact Hf|]. rewrite Hseek.
  apply post_bind, post_deref.
  stream_step post_fread_F_OFF. apply post_bind, post_assign.
  stream_step post_fread_F_OFF. apply post_bind, post_assign.
  stream_step post_fread_F_OFF. apply post_bind, post_assign.
  stream_step post_fread_INT4. apply post_bind, post_assign.
  stream_step post_fread_INT4_local.
  stream_step post_fread_INT4_local.
  apply post_bind. eapply post_fseeko64; [reflexivity|].
  rewrite file_seek_set by (unfold OFF_MAX; lia). cbn [f_data f_calls].
  stream_step post_fread_INT4_local.
  apply post_bind, post_deref. cbn [Nperiods set_Nperiods set_file].
  fold len.
  replace (len - 24 + 4) with (len - 20) by lia.
  replace (len - 20 + 4) with (len - 16) by lia.
  replace (len - 16 + 4) with (len - 24 + 4 * 3) by lia.
  replace (len - 24 + 4 * 3 + 4) with (len - 24 + 4 * 4) by lia.
  replace (len - 24 + 4 * 4 + 4) with (len - 24 + 4 * 5) by lia.
  unfold validation_code, leading_magic, magic_trailer, n_periods,
    terminating_error, epilogue_field. fold len.
  repeat match goal with
         | |- context [if ?b then _ else _] => destruct b
         end;
    (apply post_ret; split; [reflexivity|];
     eexists _, _; split; [reflexivity|];
     repeat split; reflexivity).
Qed.

Lemma post_fseeko64_live offset origin h (Q : unit -> heap -> Prop) :
  (forall s f', h = Some s -> Q tt (Some (set_file (Some f') s))) ->
  post (fseeko64 offset origin) h Q True.
Proof.
  intros HQ. destruct h as [s|]; [|exact I].
  destruct (file s) as [f|] eqn:Hf.
  - unfold post. rewrite (fseeko64_open s f) by exact Hf. apply HQ. reflexivity.
  - unfold post. rewrite fseeko64_closed by exact Hf. exact I.
Qed.

Lemma post_fread_double_live old h (Q : Z -> heap -> Prop) :
  (forall s f' v, h = Some s -> Q v (Some (set_file (Some f') s))) ->
  post (fread_double old) h Q True.
Proof.
  intros HQ. destruct h as [s|]; [|exact I].
  unfold post, fread_double. unfold bind at 1.
  destruct (file s) as [f|] eqn:Hf.
  - rewrite (fread_open s f) by exact Hf. apply HQ. reflexivity.
  - unfold fread, bind, deref. rewrite Hf. exact I.
Qed.

Ltac live_step :=
  lazymatch goal with
  | |- post (bind deref _) _ _ _ => apply post_bind, post_deref
  | |- post (bind (assign _) _) _ _ _ => apply post_bind, post_assign
  | |- post (bind (fseeko64 _ _) _) _ _ _ =>
      apply post_bind, post_fseeko64_live; intros ? ? [= <-]
  | |- post (bind (fread_INT4 _) _) _ _ _ =>
      apply post_bind, post_fread_INT4_live; intros ? ? ? ? [= <-] _
  | |- post (bind (fread_double _) _) _ _ _ =>
      apply post_bind, post_fread_double_live; intros ? ? ? [= <-]
  end.

(** The handle after a successful [SMO_open] of a file of 28 bytes or
    more: the counts are the integers of the header, the period count is
    the epilogue's, and each of the three positions is the 8-byte object
    of the fresh block with its first four bytes overwritten. *)
Lemma SMO_open_fields fopen_rb path data garbage h1 :
  fopen_rb path = Some data ->
  28 <= Z.of_nat (length data) <= OFF_MAX ->
  SMO_open fopen_rb path (SMO_init garbage) = Ret 0 h1 ->
  let len := Z.of_nat (length data) in
  validation_code data = 0
  /\ exists s1,
    h1 = Some s1
    /\ FlowUnits s1 = header_field data 2
    /\ Nsubcatch s1 = header_field data 3
    /\ Nnodes s1 = header_field data 4
    /\ Nlinks s1 = header_field data 5
    /\ Npolluts s1 = header_field data 6
    /\ Nperiods s1 = n_periods data
    /\ IDPos s1 = off64 (overlay 8 (IDPos garbage) (bytes_at data (len - 24) 4))
    /\ ObjPropPos s1
       = off64 (overlay 8 (ObjPropPos garbage) (bytes_at data (len - 20) 4))
    /\ ResultsPos s1
       = off64 (overlay 8 (ResultsPos garbage) (bytes_at data (len - 16) 4)).
Proof.
  intros Hpath Hlen Hrun len.
  refine (post_inv (SMO_open fopen_rb path) (SMO_init garbage) 0 h1
            (fun e h => e = 0 -> _) True _ Hrun eq_refl).
  clear Hrun h1. unfold SMO_open, SMO_init. rewrite Hpath.
  apply post_bind, post_assign.
  destruct (validateFile_fields
              (set_file (Some (mkFILE data 0 [])) (set_elementNames None garbage))
              (mkFILE data 0 []) eq_refl)
    as (s' & f' & Erun & Hf' & Hd & Hp & _ & HID & HObj & HRes & HN);
    [cbn [f_data]; lia|].
  cbn [f_data IDPos ObjPropPos ResultsPos set_file set_elementNames] in *.
  fold len in HID, HObj, HRes.
  apply post_bind. unfold post at 1. rewrite Erun.
  destruct (Z.eqb_spec (validation_code data) 0) as [E0|E0]; cbn [negb].
  2:{ apply post_bind, post_any. intros ? ?. apply post_ret.
      intros; contradiction. }
  destruct f' as [d p c]. cbn [f_data f_pos] in Hd, Hp. subst d p.
  apply post_bind. eapply post_fread_INT4_local;
    [exact Hf'|cbn [f_pos]; lia|cbn [f_pos f_data]; lia|].
  cbn [f_pos f_data f_calls].
  apply post_bind, post_deref.
  stream_step post_fread_INT4. apply post_bind, post_assign.
  stream_step post_fread_INT4. apply post_bind, post_assign.
  stream_step post_fread_INT4. apply post_bind, post_assign.
  stream_step post_fread_INT4. apply post_bind, post_assign.
  stream_step post_fread_INT4. apply post_bind, post_assign.
  cbv zeta.
  do 20 live_step.
  apply post_ret. intros _. split; [exact E0|].
  eexists. split; [reflexivity|].
  cbn [FlowUnits Nsubcatch Nnodes Nlinks Npolluts Nperiods IDPos ObjPropPos
       ResultsPos set_file set_FlowUnits set_Nsubcatch set_Nnodes set_Nlinks
       set_Npolluts set_SubcatchVars set_NodeVars set_LinkVars set_SysVars
       set_StartDate set_ReportStep set_BytesPerPeriod].
  unfold header_field.
  repeat split; try assumption; reflexivity.
Qed.

(** ** Four bytes read into an eight-byte object *)

Lemma byte_of_Z_value x : Z.of_N (Byte.to_N (byte_of_Z x)) = x mod 256.
Proof.
  unfold byte_of_Z.
  assert (Hx : 0 <= x mod 256 < 256) by (apply Z.mod_pos_bound; lia).
  destruct (Byte.of_N (Z.to_N (x mod 256))) as [b|] eqn:E.
  - apply Byte.to_of_N in E. simpl. rewrite E. lia.
  - exfalso. apply Byte.of_N_None_iff in E. lia.
Qed.

Lemma uint_le_bound bs : 0 <= uint_le bs < 256 ^ Z.of_nat (length bs).
Proof.
  induction bs as [|b bs IH]; [cbn; lia|].
  cbn [uint_le length]. rewrite Nat2Z.inj_succ, Z.pow_succ_r by lia.
  pose proof (Byte.to_N_bounded b). lia.
Qed.

Lemma uint_le_app a b :
  uint_le (a ++ b) = uint_le a + 256 ^ Z.of_nat (length a) * uint_le b.
Proof.
  induction a as [|x a IH]; [cbn [app uint_le length]; cbn; lia|].
  cbn [app uint_le length]. rewrite IH, Nat2Z.inj_succ, Z.pow_succ_r by lia.
  lia.
Qed.

Lemma uint_le_le_bytes n x : uint_le (le_bytes n x) = x mod 256 ^ Z.of_nat n.
Proof.
  revert x. induction n as [|n IH]; intros x.
  - cbn [le_bytes uint_le]. change (256 ^ Z.of_nat 0) with 1.
    rewrite Z.mod_1_r. reflexivity.
  - cbn [le_bytes uint_le]. rewrite IH, byte_of_Z_value.
    rewrite Nat2Z.inj_succ, Z.pow_succ_r by lia.
    assert (0 < 256 ^ Z.of_nat n) by (apply Z.pow_pos_nonneg; lia).
    rewrite Z.rem_mul_r by lia. reflexivity.
Qed.

Lemma drop_le_bytes k n x :
  drop k (le_bytes (k + n) x) = le_bytes n (x / 256 ^ Z.of_nat k).
Proof.
  revert x. induction k as [|k IH]; intros x.
  - cbn [drop Nat.add]. change (256 ^ Z.of_nat 0) with 1. rewrite Z.div_1_r.
    reflexivity.
  - cbn [Nat.add le_bytes drop]. rewrite IH.
    rewrite Nat2Z.inj_succ, Z.pow_succ_r by lia.
    rewrite Z.div_div by (try apply Z.pow_pos_nonneg; lia). reflexivity.
Qed.

Lemma length_le_bytes n x : length (le_bytes n x) = n.
Proof. revert x. induction n; intros; cbn [le_bytes length]; auto. Qed.

(** The object after the read: its low half is the four bytes, its high
    half is what it was. *)
Lemma overlay_low_half old bs :
  in_off64 old -> length bs = 4%nat ->
  off64 (overlay 8 old bs) = uint_le bs + 2 ^ 32 * (old / 2 ^ 32).
Proof.
  intros Hold Hbs. unfold overlay. rewrite Hbs.
  change 8%nat with (4 + 4)%nat at 2. rewrite drop_le_bytes.
  rewrite take_ge by (rewrite length_app, length_le_bytes; lia).
  rewrite uint_le_app, Hbs, uint_le_le_bytes.
  pose proof (uint_le_bound bs) as Hb. rewrite Hbs in Hb.
  change (256 ^ Z.of_nat 4) with (2 ^ 32) in *.
  unfold in_off64 in Hold.
  assert (Hhi : - 2 ^ 31 <= old / 2 ^ 32 < 2 ^ 31).
  { split; [apply Z.div_le_lower_bound|apply Z.div_lt_upper_bound]; lia. }
  unfold off64, wrap.
  set (hi := old / 2 ^ 32) in *. set (lo := uint_le bs) in *.
  change (2 ^ (64 - 1)) with (2 ^ 63). 
  assert (E : (lo + 2 ^ 32 * (hi mod 2 ^ 32) + 2 ^ 63) mod 2 ^ 64
              = lo + 2 ^ 32 * hi + 2 ^ 63).
  { symmetry. apply Z.mod_unique_pos
      with (q := if hi <? 0 then 1 else 0).
    - lia.
    - destruct (Z.ltb_spec hi 0).
      + assert (hi mod 2 ^ 32 = hi + 2 ^ 32)
          by (symmetry; apply Z.mod_unique_pos with (q := -1); lia).
        lia.
      + rewrite Z.mod_small by lia. lia. }
  rewrite E. lia.
Qed.

(** X13. The three file positions of the handle are 8-byte objects, and
    [validateFile] reads four bytes into each.  After a successful
    [SMO_open], each position has the epilogue's 32-bit word as its low
    half and, as its high half, whatever the block held when [malloc]
    returned it: [SMO_init] writes none of them.  [ResultsPos], which every
    read of a result starts from, is the value stored in the file exactly
    when those four bytes of the fresh block were zero. *)
Theorem open_positions_keep_upper_half
    (fopen_rb : list byte -> option (list byte))
    (path data : list byte) (garbage s1 : SMOutputAPI) :
  fopen_rb path = Some data ->
  28 <= Z.of_nat (length data) <= OFF_MAX ->
  in_off64 (IDPos garbage) -> in_off64 (ObjPropPos garbage) ->
  in_off64 (ResultsPos garbage) ->
  SMO_open fopen_rb path (SMO_init garbage) = Ret 0 (Some s1) ->
  IDPos s1 = epilogue_word data 0 + 2 ^ 32 * (IDPos garbage / 2 ^ 32)
  /\ ObjPropPos s1
     = epilogue_word data 1 + 2 ^ 32 * (ObjPropPos garbage / 2 ^ 32)
  /\ ResultsPos s1
     = epilogue_word data 2 + 2 ^ 32 * (ResultsPos garbage / 2 ^ 32)
  /\ (ResultsPos s1 = epilogue_word data 2
      <-> 0 <= ResultsPos garbage < 2 ^ 32).
Proof.
  intros Hpath Hlen HID HObj HRes Hrun.
  destruct (SMO_open_fields _ _ _ _ _ Hpath Hlen Hrun)
    as (_ & s & [= <-] & _ & _ & _ & _ & _ & _ & EID & EObj & ERes).
  assert (Hfour : forall k, 0 <= k <= 5 ->
            length (bytes_at data (Z.of_nat (length data) - 24 + 4 * k) 4)
            = 4%nat).
  { intros k Hk. rewrite length_bytes_at; lia. }
  unfold epilogue_word.
  replace (Z.of_nat (length data) - 24)
    with (Z.of_nat (length data) - 24 + 4 * 0) in EID by lia.
  replace (Z.of_nat (length data) - 20)
    with (Z.of_nat (length data) - 24 + 4 * 1) in EObj by lia.
  replace (Z.of_nat (length data) - 16)
    with (Z.of_nat (length data) - 24 + 4 * 2) in ERes by lia.
  rewrite overlay_low_half in EID, EObj, ERes by (auto; apply Hfour; lia).
  split; [exact EID|]. split; [exact EObj|]. split; [exact ERes|].
  rewrite ERes. unfold in_off64 in HRes.
  split; intros H.
  - assert (ResultsPos garbage / 2 ^ 32 = 0) as H0 by lia.
    apply Z.div_small_iff in H0; lia.
  - rewrite Z.div_small by lia. lia.
Qed.

(** X14. What [SMO_open] returning 0 says about the file, and what the
    getters then report.  The file passed the three tests of
    [validateFile]: equal magic numbers, a positive period count, no
    terminating error.  [SMO_getProjectSize] returns the integers at bytes
    12, 16, 20 and 24 of the file, [SMO_getUnits] the integer at byte 8,
    and [SMO_getTimes] for [numPeriods] the period count of the epilogue;
    none of them touches the handle. *)
Theorem open_counts_from_header (fopen_rb : list byte -> option (list byte))
    (path data : list byte) (garbage s1 : SMOutputAPI) :
  fopen_rb path = Some data ->
  28 <= Z.of_nat (length data) <= OFF_MAX ->
  SMO_open fopen_rb path (SMO_init garbage) = Ret 0 (Some s1) ->
  (leading_magic data = magic_trailer data
   /\ 0 < n_periods data /\ terminating_error data = 0)
  /\ SMO_getProjectSize subcatchCount (Some s1)
     = Ret (0, header_field data 3) (Some s1)
  /\ SMO_getProjectSize nodeCount (Some s1)
     = Ret (0, header_field data 4) (Some s1)
  /\ SMO_getProjectSize linkCount (Some s1)
     = Ret (0, header_field data 5) (Some s1)
  /\ SMO_getProjectSize pollutantCount (Some s1)
     = Ret (0, header_field data 6) (Some s1)
  /\ SMO_getUnits flow_rate (Some s1) = Ret (0, header_field data 2) (Some s1)
  /\ SMO_getTimes numPeriods (Some s1) = Ret (0, n_periods data) (Some s1).
Proof.
  intros Hpath Hlen Hrun.
  destruct (SMO_open_fields _ _ _ _ _ Hpath Hlen Hrun)
    as (Hcode & s & [= <-] & EF & ES & EN & EL & EP & EPer & _).
  destruct (SMO_open_success _ _ _ _ Hrun) as (s & f1 & [= <-] & Hfile & _).
  split.
  - revert Hcode. unfold validation_code.
    destruct (Z.eqb_spec (leading_magic data) (magic_trailer data));
      cbn [negb]; [|discriminate].
    destruct (Z.leb_spec (n_periods data) 0); [discriminate|].
    destruct (Z.eqb_spec (terminating_error data) 0); cbn [negb];
      [auto|discriminate].
  - unfold SMO_getProjectSize, SMO_getUnits, SMO_getTimes, bind, deref, ret.
    rewrite Hfile, EF, ES, EN, EL, EP, EPer. cbn [is_NULL].
    repeat split. cbn.
    unfold n_periods, epilogue_field. rewrite int_small by apply int_range.
    reflexivity.
Qed.

(** ** A whole series *)

(** The loop stores at the indices [k0 .. k0 + n - 1] only. *)
Lemma for_loop_store_tail (g : Z -> M REAL4) (n : nat) :
  forall (k0 : Z) (out out' : list REAL4) h h',
    for_loop n k0 (fun k out => value <- g k ;; store out k value) out h
    = Ret out' h' ->
    0 <= k0 ->
    forall j : nat, (Z.to_nat k0 + n <= j)%nat -> out' !! j = out !! j.
Proof.
  induction n as [|n IH]; intros k0 out out' h h' Erun Hk j Hj.
  - cbn [for_loop] in Erun. unfold ret in Erun. congruence.
  - cbn [for_loop] in Erun. unfold bind at 1 in Erun. unfold bind at 1 in Erun.
    destruct (g k0 h) as [v h1|h1]; [|discriminate].
    unfold store in Erun.
    destruct ((0 <=? k0) && (k0 <? Z.of_nat (length out)));
      [|discriminate].
    unfold ret at 1 in Erun.
    rewrite (IH _ _ _ _ _ Erun) by lia.
    apply list_lookup_insert_ne. lia.
Qed.

(** X15. A series of [n] periods.  On an open handle, for an entity and
    attribute valid for the kind, a start period [p] and a length [n] such
    that the periods [p .. p + n - 1] lie inside the file, and an array
    with room for [n] values, [get_K_series] returns 0 and element [k] of
    the array is the value of period [p + k]: the four bytes at
    [ResultsPos + (p + k) * BytesPerPeriod + 8 + 4 * (index of the
    value)].  The elements from [n] on are left as they were, and only the
    stream of the handle has moved. *)
Theorem series_values (K : kind) (s : SMOutputAPI) (f : FILE)
    (i a p n : Z) (out : list REAL4) :
  file s = Some f -> layout_ok s -> valid_index K s i a ->
  0 <= n <= Z.of_nat (length out) ->
  (forall k, 0 <= k < n -> period_inside s (f_data f) (p + k)) ->
  exists (out' : list REAL4) (s' : SMOutputAPI),
    get_series K i a p n (Some out) (Some s) = Ret (0, Some out') (Some s')
    /\ moved s s' /\ length out' = length out
    /\ (forall k, 0 <= k < n ->
          out' !! Z.to_nat k
          = Some (value_at (f_data f) (scalar_offset K s (p + k) i a)))
    /\ (forall j : nat, (Z.to_nat n <= j)%nat -> out' !! j = out !! j).
Proof.
  intros Hf Hlay Hidx Hn Hin.
  assert (Hs : moved s s) by (eapply moved_refl; exact Hf).
  destruct (for_loop_store
              (fun k => get_value K (long (p + k)) i a)
              (fun k v => 0 <= k < n ->
                 v = value_at (f_data f) (scalar_offset K s (p + k) i a)) s)
    with (n := Z.to_nat n) (k0 := 0) (out := out) (s := s)
    as (out' & s' & Erun & Hm & Hl & Hnew & _); [|exact Hs|lia|lia|].
  { intros k s1 Hs1.
    destruct Hs1 as (f0 & f1 & Hf0 & -> & Hd).
    assert (f0 = f) by congruence. subst f0.
    destruct (Z_lt_dec k 0) as [Hneg|Hpos];
      [|destruct (Z_lt_dec k n) as [Hk|Hk]].
    - destruct (get_value_moved K (set_file (Some f1) s) f1 (long (p + k)) i a
                  eq_refl) as (v & s'' & E & Hm).
      exists v, s''. repeat split; auto. intros; lia.
    - specialize (Hin k ltac:(lia)).
      assert (El : long (p + k) = p + k).
      { apply long_small. destruct Hin as (Hp & _).
        unfold in_long, INT_MIN, INT_MAX in *. lia. }
      rewrite El.
      destruct (get_value_inside K (set_file (Some f1) s) f1 (p + k) i a)
        as (s'' & E & Hm); try reflexivity; try assumption.
      { rewrite Hd. exact Hin. }
      eexists _, s''. split; [exact E|]. split; [exact Hm|].
      intros _. rewrite Hd. reflexivity.
    - destruct (get_value_moved K (set_file (Some f1) s) f1 (long (p + k)) i a
                  eq_refl) as (v & s'' & E & Hm).
      exists v, s''. repeat split; auto. intros; lia. }
  exists out', s'.
  rewrite (get_series_open K s f) by exact Hf.
  split; [unfold bind at 1; rewrite Erun; reflexivity|].
  split; [exact Hm|]. split; [exact Hl|]. split.
  - intros k Hk. destruct (Hnew k ltac:(lia)) as (v & Hv & Ev).
    rewrite Hv, (Ev Hk). reflexivity.
  - intros j Hj.
    apply (for_loop_store_tail _ _ _ _ _ _ _ Erun); [lia|].
    change (Z.to_nat 0) with 0%nat. lia.
Qed.

(** ** Arrays from [SMO_newOutValueArray] *)

Lemma length_read_items (n : nat) :
  forall bs, (length bs <= n)%nat ->
             (4 * length (read_items bs) <= length bs + 3)%nat.
Proof.
  induction n as [|n IH]; intros bs Hn.
  - destruct bs; [cbn; lia|cbn in Hn; lia].
  - destruct bs as [|b0 [|b1 [|b2 [|b3 rest]]]]; cbn [read_items length];
      try lia.
    specialize (IH rest). cbn [length] in Hn. lia.
Qed.

Lemma store_items_room (items : list (list byte)) :
  forall (buf : list REAL4) (k : nat),
    (k + length items <= length buf)%nat ->
    exists buf', store_items buf k items = Some buf'
                 /\ length buf' = length buf.
Proof.
  induction items as [|item items IH]; intros buf k Hk; cbn [store_items].
  - eauto.
  - cbn [length] in Hk.
    destruct (buf !! k) as [old|] eqn:E.
    + destruct (IH (<[k := store_REAL4 old item]> buf) (S k))
        as (buf' & Es & Hl); [rewrite length_insert; lia|].
      exists buf'. rewrite Es, Hl, length_insert. auto.
    + apply lookup_ge_None in E. lia.
Qed.

(** A bulk read of [n] values into an array with room for [n] stays
    inside the array, whatever the file holds. *)
Lemma fread_array_room s f (buf : list REAL4) n :
  file s = Some f -> 0 <= n <= Z.of_nat (length buf) -> n <= INT_MAX ->
  exists buf' f',
    fread_array (Some buf) n (Some s)
    = Ret (Some buf') (Some (set_file (Some f') s))
    /\ f_data f' = f_data f /\ length buf' = length buf.
Proof.
  intros Hf Hn Hmax. unfold fread_array. unfold bind at 1.
  rewrite (fread_open s f) by exact Hf.
  set (bs := fst (file_read f RECORDSIZE n)).
  assert (Hbs : Z.of_nat (length bs) <= 4 * n).
  { unfold bs, file_read. cbn [fst]. unfold RECORDSIZE.
    rewrite !size_t_small by (unfold SIZE_MAX, INT_MAX in *; lia).
    rewrite length_take. lia. }
  pose proof (length_read_items (length bs) bs (le_n _)) as Hitems.
  destruct (store_items_room (read_items bs) buf 0) as (buf' & Es & Hl);
    [lia|].
  rewrite Es. exists buf', (snd (file_read f RECORDSIZE n)).
  split; [reflexivity|]. split; [reflexivity|exact Hl].
Qed.

Lemma get_attribute_room K s f p a (buf : list REAL4) :
  file s = Some f -> count_of K s <= Z.of_nat (length buf) ->
  exists buf' s',
    get_attribute K p a (Some buf) (Some s) = Ret (0, Some buf') (Some s')
    /\ moved s s' /\ length buf' = length buf.
Proof.
  intros Hf Hroom. rewrite (get_attribute_open K s f) by exact Hf.
  destruct (for_loop_store
              (fun k => get_value K p (int k) a) (fun _ _ => True) s)
    with (n := Z.to_nat (count_of K s)) (k0 := 0) (out := buf) (s := s)
    as (buf' & s' & Erun & Hm & Hl & _).
  - intros k s1 (f0 & f1 & _ & -> & _).
    destruct (get_value_moved K (set_file (Some f1) s) f1 p (int k) a eq_refl)
      as (v & s' & E & Hm).
    exists v, s'. auto.
  - eapply moved_refl; exact Hf.
  - lia.
  - lia.
  - exists buf', s'. unfold bind at 1. rewrite Erun. auto.
Qed.

Lemma get_result_room K s f p i (buf : list REAL4) :
  file s = Some f -> 0 <= vars_of K s <= Z.of_nat (length buf) ->
  vars_of K s <= INT_MAX ->
  exists buf' s',
    get_result K p i (Some buf) (Some s) = Ret (0, Some buf') (Some s')
    /\ moved s s' /\ length buf' = length buf.
Proof.
  intros Hf Hroom Hmax. rewrite (get_result_open K s f) by exact Hf.
  unfold bind at 1. rewrite (fseeko64_open s f) by exact Hf.
  set (f1 := file_seek f (code_offset K s p i 0) SEEK_SET).
  destruct (fread_array_room (set_file (Some f1) s) f1 buf (vars_of K s)
              eq_refl Hroom Hmax) as (buf' & f' & E & Hd & Hl).
  unfold bind at 1. rewrite E. rewrite set_file_set_file.
  exists buf', (set_file (Some f') s). split; [reflexivity|].
  split; [|exact Hl].
  exists f, f'. split; [exact Hf|]. split; [reflexivity|].
  rewrite Hd. reflexivity.
Qed.

(** X16. An array from [SMO_newOutValueArray] has room for the query it
    was made for.  On an open handle, for [getAttribute] the length
    returned is the number of entities of the kind (1 for the system) and
    for [getResult] the number of variables of the kind.  When that length
    is not negative and the allocator grants its [4 * length] bytes, the
    function returns an array of that many zeros with code 0, and the
    matching attribute or result query on it returns 0 without storing
    outside the array, whatever period, index or attribute it is given and
    whatever the file holds.  When the length is negative or the allocator
    refuses, the array is null and the code 411.  Any other function code
    gives 421, no array, and [*length] as it was. *)
Theorem newOutValueArray_room (heap_grants : Z -> bool) (K : kind)
    (s : SMOutputAPI) (f : FILE) (length0 errcode0 : Z) :
  file s = Some f -> in_int (count_of K s) -> in_int (vars_of K s) ->
  (exists array code,
      SMO_newOutValueArray heap_grants getAttribute (type_of K)
        length0 errcode0 (Some s)
      = Ret (array, count_of K s, code) (Some s)
      /\ (0 <= count_of K s -> heap_grants (count_of K s * 4) = true ->
          array = Some (replicate (Z.to_nat (count_of K s)) (Float 0))
          /\ code = 0)
      /\ (count_of K s < 0 \/ heap_grants (count_of K s * 4) = false ->
          array = None /\ code = 411)
      /\ forall buf, array = Some buf ->
           forall p a, exists buf' s',
             get_attribute K p a (Some buf) (Some s)
             = Ret (0, Some buf') (Some s')
             /\ moved s s' /\ length buf' = length buf)
  /\ (exists array code,
        SMO_newOutValueArray heap_grants getResult (type_of K)
          length0 errcode0 (Some s)
        = Ret (array, vars_of K s, code) (Some s)
        /\ (0 <= vars_of K s -> heap_grants (vars_of K s * 4) = true ->
            array = Some (replicate (Z.to_nat (vars_of K s)) (Float 0))
            /\ code = 0)
        /\ (vars_of K s < 0 \/ heap_grants (vars_of K s * 4) = false ->
            array = None /\ code = 411)
        /\ forall buf, array = Some buf ->
             forall p i, exists buf' s',
               get_result K p i (Some buf) (Some s)
               = Ret (0, Some buf') (Some s')
               /\ moved s s' /\ length buf' = length buf)
  /\ (forall func type,
        func <> getAttribute -> func <> getResult ->
        SMO_newOutValueArray heap_grants func type length0 errcode0 (Some s)
        = Ret (None, length0, 421) (Some s)).
Proof.
  intros Hf Hcount Hvars.
  unfold SMO_newOutValueArray, bind, deref. rewrite Hf. cbn [is_NULL].
  split; [|split].
  - change (getAttribute =? getAttribute) with true. cbv iota.
    assert (E : (if type_of K =? subcatch then Nsubcatch s
                 else if type_of K =? node then Nnodes s
                 else if type_of K =? link then Nlinks s else 1)
                = count_of K s) by (destruct K; reflexivity).
    rewrite E. eexists _, _. split; [reflexivity|]. split; [|split].
    + intros Hpos Hgrant.
      rewrite (calloc_REAL4_granted heap_grants _ Hcount Hpos Hgrant).
      split; reflexivity.
    + intros Hcase.
      rewrite (calloc_REAL4_refused heap_grants _ Hcount Hcase).
      split; reflexivity.
    + intros buf Hbuf p a.
      pose proof (calloc_REAL4_cases heap_grants (count_of K s) Hcount) as Hc.
      rewrite Hbuf in Hc. destruct Hc as [Hpos ->].
      apply (get_attribute_room K s f); [exact Hf|].
      rewrite length_replicate. lia.
  - change (getResult =? getAttribute) with false.
    change (getResult =? getResult) with true. cbv iota.
    assert (E : (if type_of K =? subcatch then SubcatchVars s
                 else if type_of K =? node then NodeVars s
                 else if type_of K =? link then LinkVars s else SysVars s)
                = vars_of K s) by (destruct K; reflexivity).
    rewrite E. eexists _, _. split; [reflexivity|]. split; [|split].
    + intros Hpos Hgrant.
      rewrite (calloc_REAL4_granted heap_grants _ Hvars Hpos Hgrant).
      split; reflexivity.
    + intros Hcase.
      rewrite (calloc_REAL4_refused heap_grants _ Hvars Hcase).
      split; reflexivity.
    + intros buf Hbuf p i.
      pose proof (calloc_REAL4_cases heap_grants (vars_of K s) Hvars) as Hc.
      rewrite Hbuf in Hc. destruct Hc as [Hpos ->].
      apply (get_result_room K s f); [exact Hf| |apply Hvars].
      rewrite length_replicate. lia.
  - intros func type H1 H2.
    destruct (Z.eqb_spec func getAttribute); [contradiction|].
    destruct (Z.eqb_spec func getResult); [contradiction|]. reflexivity.
Qed.

(** ** Element names *)

Lemma set_elementNames_set_elementNames x y s :
  set_elementNames x (set_elementNames y s) = set_elementNames x s.
Proof. destruct s; reflexivity. Qed.

Lemma set_file_set_elementNames x y s :
  set_file x (set_elementNames y s) = set_elementNames y (set_file x s).
Proof. destruct s; reflexivity. Qed.

Lemma c_string_terminated e rest :
  Forall (fun b => b <> x00) e -> c_string (e ++ x00 :: rest) = Some e.
Proof.
  induction 1 as [|b e Hb He IH]; cbn [app c_string].
  - reflexivity.
  - destruct (Byte.eqb b x00) eqn:E.
    + apply Byte.byte_dec_bl in E. contradiction.
    + rewrite IH. reflexivity.
Qed.

(** A read of exactly the bytes [a] that lie at the position. *)
Lemma file_read_prefix f size nmemb (a b : list byte) :
  0 <= f_pos f ->
  drop (Z.to_nat (f_pos f)) (f_data f) = a ++ b ->
  size_t size * size_t nmemb = Z.of_nat (length a) ->
  file_read f size nmemb
  = (a, mkFILE (f_data f) (f_pos f + Z.of_nat (length a))
               (f_calls f ++ [io_fread size nmemb]))
  /\ drop (Z.to_nat (f_pos f + Z.of_nat (length a))) (f_data f) = b.
Proof.
  intros Hpos Hdrop Hwant. unfold file_read. rewrite Hwant, Hdrop.
  rewrite length_app.
  replace (Z.to_nat (Z.min (Z.of_nat (length a))
                       (Z.of_nat (length a + length b))))
    with (length a) by lia.
  rewrite take_app_length. split; [reflexivity|].
  rewrite Z2Nat.inj_add, Nat2Z.id by lia.
  rewrite <- drop_drop, Hdrop. apply drop_app_length.
Qed.

Lemma post_fread_prefix s f size nmemb (a b : list byte)
    (Q : list byte -> heap -> Prop) U :
  file s = Some f -> 0 <= f_pos f ->
  drop (Z.to_nat (f_pos f)) (f_data f) = a ++ b ->
  size_t size * size_t nmemb = Z.of_nat (length a) ->
  Q a (Some (set_file
               (Some (mkFILE (f_data f) (f_pos f + Z.of_nat (length a))
                             (f_calls f ++ [io_fread size nmemb]))) s)) ->
  post (fread size nmemb) (Some s) Q U.
Proof.
  intros Hf Hpos Hdrop Hwant HQ. unfold post.
  rewrite (fread_open s f) by exact Hf.
  destruct (file_read_prefix f size nmemb a b Hpos Hdrop Hwant) as [E _].
  rewrite E. exact HQ.
Qed.

Lemma calloc_char_granted heap_grants n :
  (forall b, heap_grants b = true) -> 0 <= n <= INT_MAX ->
  calloc_char heap_grants n = Some (replicate (Z.to_nat n) x00).
Proof.
  intros Hg Hn. unfold calloc_char, calloc.
  rewrite size_t_small by (unfold SIZE_MAX, INT_MAX in *; lia).
  rewrite Hg, andb_true_r.
  destruct (Z.leb_spec (n * 1) SIZE_MAX);
    [reflexivity|unfold SIZE_MAX, INT_MAX in *; lia].
Qed.

Lemma calloc_idEntry_granted heap_grants n :
  (forall b, heap_grants b = true) -> 0 <= n <= INT_MAX ->
  calloc_idEntry heap_grants n
  = Some (replicate (Z.to_nat n) (mkIDentry None 0)).
Proof.
  intros Hg Hn. unfold calloc_idEntry, calloc.
  rewrite size_t_small by (unfold SIZE_MAX, INT_MAX in *; lia).
  rewrite Hg, andb_true_r.
  destruct (Z.leb_spec (n * 16) SIZE_MAX);
    [reflexivity|unfold SIZE_MAX, INT_MAX in *; lia].
Qed.

(** One turn of the loop of [initElementNames], at a name record. *)
Lemma read_IDentry_turn heap_grants s0 f (e b : list byte)
    (done : list idEntry) (k : nat) :
  (forall b, heap_grants b = true) ->
  0 <= f_pos f ->
  drop (Z.to_nat (f_pos f)) (f_data f) = id_record e ++ b ->
  Z.of_nat (length e) < INT_MAX ->
  exists f',
    read_IDentry heap_grants (Z.of_nat (length done)) tt
      (Some (set_elementNames
               (Some (done ++ mkIDentry None 0
                           :: replicate k (mkIDentry None 0)))
               (set_file (Some f) s0)))
    = Ret tt
        (Some (set_elementNames
                 (Some (done ++ loaded_entry e
                             :: replicate k (mkIDentry None 0)))
                 (set_file (Some f') s0)))
    /\ f_data f' = f_data f /\ 0 <= f_pos f'
    /\ drop (Z.to_nat (f_pos f')) (f_data f') = b.
Proof.
  intros Hg Hpos Hdrop He.
  unfold id_record in Hdrop. rewrite <- app_assoc in Hdrop.
  destruct (file_read_prefix f RECORDSIZE 1
              (le_bytes 4 (Z.of_nat (length e))) (e ++ b) Hpos Hdrop)
    as [_ Hdrop1].
  { rewrite length_le_bytes. unfold RECORDSIZE.
    rewrite !size_t_small by (unfold SIZE_MAX; lia). reflexivity. }
  rewrite length_le_bytes in Hdrop1.
  set (f1 := mkFILE (f_data f) (f_pos f + 4)
               (f_calls f ++ [io_fread RECORDSIZE 1])).
  set (f2 := mkFILE (f_data f) (f_pos f + 4 + Z.of_nat (length e))
               (f_calls f1 ++ [io_fread 1 (Z.of_nat (length e))])).
  exists f2.
  enough (H : post (read_IDentry heap_grants (Z.of_nat (length done)) tt)
                (Some (set_elementNames
                         (Some (done ++ mkIDentry None 0
                                     :: replicate k (mkIDentry None 0)))
                         (set_file (Some f) s0)))
                (fun _ h =>
                   h = Some (set_elementNames
                               (Some (done ++ loaded_entry e
                                           :: replicate k (mkIDentry None 0)))
                               (set_file (Some f2) s0))) False).
  { apply post_returns in H. destruct H as ([] & h & E & ->).
    split; [exact E|]. split; [reflexivity|]. split; [cbn [f2 f_pos]; lia|].
    destruct (file_read_prefix f1 1 (Z.of_nat (length e)) e b) as [_ D];
      [cbn [f1 f_pos]; lia|exact Hdrop1| |exact D].
    rewrite !size_t_small by (unfold SIZE_MAX, INT_MAX in *; lia). lia. }
  unfold read_IDentry. apply post_bind, post_deref.
  cbn [elementNames set_elementNames]. rewrite Nat2Z.id.
  rewrite list_lookup_middle by reflexivity.
  unfold fread_INT4. apply post_bind. apply post_bind.
  eapply post_fread_prefix with (a := le_bytes 4 (Z.of_nat (length e)));
    [reflexivity|exact Hpos|exact Hdrop|
     rewrite length_le_bytes; unfold RECORDSIZE;
     rewrite !size_t_small by (unfold SIZE_MAX; lia); reflexivity|].
  rewrite length_le_bytes. fold f1. apply post_ret.
  rewrite overlay_full by apply length_le_bytes.
  rewrite uint_le_le_bytes.
  change (256 ^ Z.of_nat 4) with (2 ^ 32).
  rewrite Z.mod_small by (unfold INT_MAX in He; lia).
  rewrite (int_small (Z.of_nat (length e)))
    by (unfold in_int, INT_MIN, INT_MAX in *; lia).
  rewrite (int_small (Z.of_nat (length e) + 1))
    by (unfold in_int, INT_MIN, INT_MAX in *; lia).
  rewrite calloc_char_granted by (auto; lia).
  apply post_bind.
  eapply post_fread_prefix with (a := e);
    [reflexivity|cbn [f1 f_pos]; lia|exact Hdrop1|
     rewrite !size_t_small by (unfold SIZE_MAX, INT_MAX in *; lia); lia|].
  cbn [f_data f_pos f1]. fold f1. fold f2.
  rewrite length_replicate.
  destruct (Nat.leb_spec (length e) (Z.to_nat (Z.of_nat (length e) + 1)));
    [|lia].
  apply post_assign.
  rewrite !set_file_set_file, set_file_set_elementNames,
    set_elementNames_set_elementNames, set_file_set_file.
  f_equal. f_equal. f_equal.
  rewrite drop_replicate.
  replace (Z.to_nat (Z.of_nat (length e) + 1) - length e)%nat with 1%nat by lia.
  replace (length done) with (length done + 0)%nat at 1 by lia.
  rewrite insert_app_r. reflexivity.
Qed.

Lemma read_IDentry_loop heap_grants s0 (tail : list byte) :
  (forall b, heap_grants b = true) ->
  forall (rest : list (list byte)) (done : list idEntry) (f : FILE),
    0 <= f_pos f ->
    drop (Z.to_nat (f_pos f)) (f_data f) = id_table rest ++ tail ->
    Forall (fun e => Z.of_nat (length e) < INT_MAX) rest ->
    exists f',
      for_loop (length rest) (Z.of_nat (length done))
        (read_IDentry heap_grants) tt
        (Some (set_elementNames
                 (Some (done ++ replicate (length rest) (mkIDentry None 0)))
                 (set_file (Some f) s0)))
      = Ret tt
          (Some (set_elementNames
                   (Some (done ++ map loaded_entry rest))
                   (set_file (Some f') s0)))
      /\ f_data f' = f_data f.
Proof.
  intros Hg rest.
  induction rest as [|e rest IH]; intros done f Hpos Hdrop Hlen.
  - exists f. split; reflexivity.
  - cbn [length for_loop replicate map].
    change (id_table (e :: rest)) with (id_record e ++ id_table rest) in Hdrop.
    rewrite <- app_assoc in Hdrop.
    apply Forall_cons in Hlen. destruct Hlen as [He Hlen].
    destruct (read_IDentry_turn heap_grants s0 f e (id_table rest ++ tail)
                done (length rest) Hg Hpos Hdrop He)
      as (f1 & E1 & Hd1 & Hpos1 & Hdrop1).
    unfold bind at 1. rewrite E1.
    destruct (IH (done ++ [loaded_entry e]) f1 Hpos1 Hdrop1 Hlen)
      as (f' & E & Hd).
    rewrite length_app, Nat2Z.inj_add in E. cbn [length] in E.
    rewrite <- !app_assoc in E. cbn [app] in E.
    exists f'. split; [exact E|congruence].
Qed.

(** [initElementNames] on a file whose table of names lies at [IDPos]. *)
Lemma initElementNames_loads heap_grants s f (es : list (list byte))
    (pre tail : list byte) :
  (forall b, heap_grants b = true) ->
  file s = Some f ->
  f_data f = pre ++ id_table es ++ tail ->
  Z.of_nat (length pre) = IDPos s -> IDPos s <= OFF_MAX ->
  Z.of_nat (length es) = Nsubcatch s + Nnodes s + Nlinks s + Npolluts s ->
  Z.of_nat (length es) <= INT_MAX ->
  Forall (fun e => Z.of_nat (length e) < INT_MAX) es ->
  exists f',
    initElementNames heap_grants (Some s)
    = Ret tt (Some (set_elementNames (Some (map loaded_entry es))
                      (set_file (Some f') s)))
    /\ f_data f' = f_data f.
Proof.
  intros Hg Hf Hdata Hpre Hmax Hcount Hn Hlen.
  unfold initElementNames. unfold bind at 1. cbn [deref].
  rewrite <- Hcount.
  rewrite (int_small (Z.of_nat (length es)))
    by (unfold in_int, INT_MIN, INT_MAX in *; lia).
  rewrite calloc_idEntry_granted by (auto; lia). rewrite Nat2Z.id.
  unfold bind at 1. cbn [assign]. unfold bind at 1.
  rewrite (fseeko64_open _ f) by exact Hf.
  rewrite file_seek_set by lia.
  rewrite set_file_set_elementNames.
  set (f0 := mkFILE (f_data f) (IDPos s)
               (f_calls f ++ [io_fseeko64 (IDPos s) SEEK_SET])).
  destruct (read_IDentry_loop heap_grants s tail Hg es [] f0)
    as (f' & E & Hd); [cbn [f0 f_pos]; lia| |exact Hlen|].
  { cbn [f0 f_pos f_data]. rewrite Hdata, <- Hpre, Nat2Z.id.
    apply drop_app_length. }
  cbn [app length] in E. change (Z.of_nat 0) with 0 in E.
  exists f'. split; [exact E|exact Hd].
Qed.

(** [SMO_getElementName] once the names are in memory: no stream access,
    the handle is left as it is. *)
Lemma getElementName_loaded heap_grants s (es : list (list byte)) K i
    (e dst : list byte) n :
  elementNames s = Some (map loaded_entry es) ->
  0 <= Nsubcatch s -> 0 <= Nnodes s -> 0 <= Nlinks s -> 0 <= Npolluts s ->
  Z.of_nat (length es) = Nsubcatch s + Nnodes s + Nlinks s + Npolluts s ->
  Z.of_nat (length es) <= INT_MAX ->
  0 <= i < name_count K s ->
  es !! Z.to_nat (name_index K s i) = Some e ->
  Forall (fun b => b <> x00) e ->
  in_int n -> 0 <= n <= Z.of_nat (length dst) ->
  SMO_getElementName heap_grants (type_of K) i (Some dst) n (Some s)
  = Ret (0,
         Some (take (Z.to_nat n) (e ++ replicate (Z.to_nat n) x00)
               ++ drop (Z.to_nat n) dst),
         Z.of_nat (length e)) (Some s).
Proof.
  intros Hnames H1 H2 H3 H4 Hcount Hmax Hi He Hclean Hn Hroom.
  unfold SMO_getElementName. unfold bind at 1. cbn [deref].
  rewrite Hnames. cbn [is_NULL]. unfold bind at 1. unfold ret at 1.
  unfold bind at 1. cbn [deref].
  assert (Hidx : 0 <= name_index K s i < Z.of_nat (length es))
    by (destruct K; cbn [name_index name_count] in *; lia).
  assert (Hentry : map loaded_entry es !! Z.to_nat (name_index K s i)
                   = Some (loaded_entry e))
    by (rewrite list_lookup_fmap, He; reflexivity).
  assert (Hcopy : strncpy dst e n
                  = Some (take (Z.to_nat n) (e ++ replicate (Z.to_nat n) x00)
                          ++ drop (Z.to_nat n) dst)).
  { unfold strncpy.
    rewrite size_t_small
      by (unfold in_int, INT_MIN, INT_MAX, SIZE_MAX in *; lia).
    destruct (Z.leb_spec n (Z.of_nat (length dst))); [reflexivity|lia]. }
  assert (Hint : int (name_index K s i) = name_index K s i)
    by (apply int_small; unfold in_int, INT_MIN, INT_MAX in *; lia).
  assert (Hstr : c_string (e ++ [x00]) = Some e)
    by (apply c_string_terminated; exact Hclean).
  destruct K; cbn [type_of name_count name_index] in *;
    cbn [Z.eqb subcatch node link sys Pos.eqb];
    (destruct (Z.ltb_spec i 0); [lia|]);
    match goal with
    | |- context [i >=? ?c] =>
        destruct (Z.geb_spec i c); [lia|]
    end;
    cbn [orb]; rewrite ?Hint; rewrite Z.eqb_refl; rewrite Hnames;
    (match goal with
     | |- context [?x <? 0] => destruct (Z.ltb_spec x 0); [lia|]
     end);
    rewrite Hentry; cbn [loaded_entry IDname IDlength];
    rewrite Hstr, Hcopy; reflexivity.
Qed.

Lemma bind_deref {A : Type} (k : SMOutputAPI -> M A) s :
  bind deref k (Some s) = k s (Some s).
Proof. reflexivity. Qed.

Lemma bind_of_eq {A B : Type} (m : M A) (k : A -> M B) h a h' :
  m h = Ret a h' -> bind m k h = k a h'.
Proof. intros E. unfold bind. rewrite E. reflexivity. Qed.

Lemma getElementName_first_call heap_grants s s1 type index name length :
  elementNames s = None ->
  initElementNames heap_grants (Some s) = Ret tt (Some s1) ->
  elementNames s1 <> None ->
  SMO_getElementName heap_grants type index name length (Some s)
  = SMO_getElementName heap_grants type index name length (Some s1).
Proof.
  intros Hnone Einit Hsome.
  unfold SMO_getElementName. rewrite !bind_deref.
  rewrite Hnone. cbn [is_NULL]. rewrite (bind_of_eq _ _ _ _ _ Einit).
  destruct (elementNames s1); [|contradiction]. reflexivity.
Qed.

(** X17. The first [SMO_getElementName] on a handle loads the table of
    names from the file and answers from it.  For a file whose table lies
    at [IDPos] and holds one record per element, an allocator that grants
    every request, an index valid for the kind and a caller's array of at
    least [n] bytes: the code is 0, [*length] becomes the stored length of
    the name whatever [n] is, and the first [n] bytes of the array are the
    name followed by NULs, cut to [n] bytes; so the array holds the name
    as a C string when [n] exceeds its length, and no terminator is
    written when it does not.  Names are taken in the order
    subcatchments, nodes, links, pollutants.  The handle keeps the loaded
    table, and a second call gives the same answer from memory and leaves
    the handle as it is. *)
Theorem getElementName_from_table (heap_grants : Z -> bool)
    (s : SMOutputAPI) (f : FILE) (es : list (list byte))
    (pre tail : list byte) (K : kind) (i : Z) (e dst : list byte) (n : Z) :
  (forall b, heap_grants b = true) ->
  file s = Some f -> elementNames s = None ->
  f_data f = pre ++ id_table es ++ tail ->
  Z.of_nat (length pre) = IDPos s -> IDPos s <= OFF_MAX ->
  0 <= Nsubcatch s -> 0 <= Nnodes s -> 0 <= Nlinks s -> 0 <= Npolluts s ->
  Z.of_nat (length es) = Nsubcatch s + Nnodes s + Nlinks s + Npolluts s ->
  Z.of_nat (length es) <= INT_MAX ->
  Forall (fun e => Z.of_nat (length e) < INT_MAX) es ->
  0 <= i < name_count K s ->
  es !! Z.to_nat (name_index K s i) = Some e ->
  Forall (fun b => b <> x00) e ->
  in_int n -> 0 <= n <= Z.of_nat (length dst) ->
  exists (dst' : list byte) (s' : SMOutputAPI) (f' : FILE),
    SMO_getElementName heap_grants (type_of K) i (Some dst) n (Some s)
    = Ret (0, Some dst', Z.of_nat (length e)) (Some s')
    /\ dst' = take (Z.to_nat n) (e ++ replicate (Z.to_nat n) x00)
              ++ drop (Z.to_nat n) dst
    /\ (Z.of_nat (length e) < n -> c_string dst' = Some e)
    /\ (n <= Z.of_nat (length e) ->
        take (Z.to_nat n) dst' = take (Z.to_nat n) e)
    /\ s' = set_elementNames (Some (map loaded_entry es))
              (set_file (Some f') s)
    /\ f_data f' = f_data f
    /\ SMO_getElementName heap_grants (type_of K) i (Some dst) n (Some s')
       = Ret (0, Some dst', Z.of_nat (length e)) (Some s').
Proof.
  intros Hg Hf Hnone Hdata Hpre Hpos H1 H2 H3 H4 Hcount Hmax Hlen Hi He
    Hclean Hn Hroom.
  destruct (initElementNames_loads heap_grants s f es pre tail
              Hg Hf Hdata Hpre Hpos Hcount Hmax Hlen) as (f' & Einit & Hd).
  set (s' := set_elementNames (Some (map loaded_entry es))
               (set_file (Some f') s)) in *.
  assert (Hcall : SMO_getElementName heap_grants (type_of K) i (Some dst) n
                    (Some s')
                  = Ret (0,
                         Some (take (Z.to_nat n)
                                 (e ++ replicate (Z.to_nat n) x00)
                               ++ drop (Z.to_nat n) dst),
                         Z.of_nat (length e)) (Some s')).
  { apply (getElementName_loaded heap_grants s' es K i e dst n);
      try assumption; reflexivity. }
  exists (take (Z.to_nat n) (e ++ replicate (Z.to_nat n) x00)
          ++ drop (Z.to_nat n) dst), s', f'.
  split.
  { rewrite (getElementName_first_call heap_grants s s')
      by (try assumption; discriminate).
    exact Hcall. }
  split; [reflexivity|]. split; [|split].
  - intros Hlong.
    rewrite take_app_ge by lia. rewrite take_replicate.
    replace ((Z.to_nat n - length e) `min` Z.to_nat n)%nat
      with (S (Z.to_nat n - length e - 1)) by lia.
    cbn [replicate]. rewrite <- app_assoc. cbn [app].
    apply c_string_terminated. exact Hclean.
  - intros Hshort.
    rewrite take_app_le
      by (rewrite length_take, length_app, length_replicate; lia).
    rewrite take_take, Nat.min_id.
    apply take_app_le. lia.
  - split; [reflexivity|]. split; [exact Hd|exact Hcall].
Qed.

(** ** The date of a period *)

(** X18. [getTimeValue] for a period inside the file reads the eight
    bytes at [ResultsPos + p * BytesPerPeriod], the start of the period's
    record, and leaves the stream on the first value of the period: the
    date of a period directly precedes its values, at the offset the
    scalar readers skip with [2 * RECORDSIZE]. *)
Theorem getTimeValue_period_date (s : SMOutputAPI) (f : FILE) (p : Z) :
  file s = Some f -> layout_ok s -> period_inside s (f_data f) p ->
  let X := ResultsPos s + p * BytesPerPeriod s in
  getTimeValue p (Some s)
  = Ret (Some (uint_le (bytes_at (f_data f) X 8)))
        (Some (set_file
                 (Some (mkFILE (f_data f) (X + 8)
                          (f_calls f ++ [io_fseeko64 X SEEK_SET;
                                         io_fread (RECORDSIZE * 2) 1]))) s))
  /\ length (bytes_at (f_data f) X 8) = 8%nat
  /\ X + 8 = scalar_offset Subcatchment s p 0 0.
Proof.
  intros Hf Hlay Hin X.
  destruct Hin as (Hp & HR & HB & Hend & Hmax).
  assert (Hvpp : 0 <= values_per_period s).
  { destruct Hlay as (H1 & H2 & H3 & H4 & H5 & H6 & H7 & _).
    unfold values_per_period. nia. }
  assert (HX : 0 <= X) by (unfold X; nia).
  assert (Hlen : length (bytes_at (f_data f) X 8) = 8%nat)
    by (rewrite length_bytes_at; lia).
  split; [|split; [exact Hlen|]].
  - unfold getTimeValue. rewrite bind_deref. fold X.
    rewrite off64_small by (unfold in_off64, OFF_MAX in *; lia).
    unfold bind at 1. rewrite (fseeko64_open s f) by exact Hf.
    rewrite file_seek_set by lia.
    unfold fread_double_local. unfold bind at 1. unfold bind at 1.
    rewrite (fread_open _ (mkFILE (f_data f) X
                             (f_calls f ++ [io_fseeko64 X SEEK_SET])))
      by reflexivity.
    change (RECORDSIZE * 2) with 8.
    rewrite file_read_inside
      by (cbn [f_pos f_data]; unfold INT_MAX; lia).
    cbn [fst snd f_data f_pos f_calls]. rewrite Z.mul_1_r.
    unfold ret. rewrite Hlen. cbn [Nat.eqb].
    rewrite set_file_set_file, <- app_assoc. reflexivity.
  - unfold scalar_offset, X. cbn [value_index]. lia.
Qed.

(** ** The walk of [SMO_open] through a readable file *)

Lemma file_seek_cur f offset :
  0 <= f_pos f + offset <= OFF_MAX ->
  file_seek f offset SEEK_CUR
  = mkFILE (f_data f) (f_pos f + offset)
           (f_calls f ++ [io_fseeko64 offset SEEK_CUR]).
Proof.
  intros H. unfold file_seek.
  destruct (Z.leb_spec 0 (f_pos f + offset)); [|lia].
  destruct (Z.leb_spec (f_pos f + offset) OFF_MAX); [|lia].
  reflexivity.
Qed.

Lemma post_fread_double old s f (Q : Z -> heap -> Prop) U :
  file s = Some f -> 0 <= f_pos f ->
  f_pos f + 8 <= Z.of_nat (length (f_data f)) ->
  Q (uint_le (bytes_at (f_data f) (f_pos f) 8))
    (Some (set_file
             (Some (mkFILE (f_data f) (f_pos f + 8)
                           (f_calls f ++ [io_fread DATESIZE 1]))) s)) ->
  post (fread_double old) (Some s) Q U.
Proof.
  intros Hf Hpos Hlen HQ.
  unfold post, fread_double, bind. rewrite (fread_open s f) by exact Hf.
  unfold DATESIZE. rewrite file_read_inside by (unfold INT_MAX; lia).
  cbn [fst snd]. rewrite Z.mul_1_r. unfold ret.
  rewrite overlay_full by (rewrite length_bytes_at; lia).
  exact HQ.
Qed.

(** [SMO_open] on a readable file, read by read. *)
Lemma SMO_open_walk fopen_rb path data garbage :
  fopen_rb path = Some data ->
  readable_layout data -> validation_code data = 0 ->
  0 <= ObjPropPos garbage < 2 ^ 32 -> 0 <= ResultsPos garbage < 2 ^ 32 ->
  exists s1 f1,
    SMO_open fopen_rb path (SMO_init garbage) = Ret 0 (Some s1)
    /\ file s1 = Some f1 /\ f_data f1 = data /\ elementNames s1 = None
    /\ SubcatchVars s1 = file_SubcatchVars data
    /\ NodeVars s1 = file_NodeVars data
    /\ LinkVars s1 = file_LinkVars data
    /\ SysVars s1 = file_SysVars data
    /\ StartDate s1 = file_StartDate data
    /\ ReportStep s1 = file_ReportStep data
    /\ ObjPropPos s1 = file_ObjPropPos data
    /\ ResultsPos s1 = file_ResultsPos data.
Proof.
  intros Hpath Hlay Hcode HgObj HgRes.
  destruct Hlay as (Hlen & Hc3 & Hc4 & Hc5 & Hskip & Hv1 & Hm1 & Hv2 & Hm2
                    & Hv3 & Hm3 & Hend & Hres).
  enough (H : post (SMO_open fopen_rb path) (SMO_init garbage)
                (fun e h => e = 0 /\ exists s1 f1, h = Some s1
                   /\ file s1 = Some f1 /\ f_data f1 = data
                   /\ elementNames s1 = None
                   /\ SubcatchVars s1 = file_SubcatchVars data
                   /\ NodeVars s1 = file_NodeVars data
                   /\ LinkVars s1 = file_LinkVars data
                   /\ SysVars s1 = file_SysVars data
                   /\ StartDate s1 = file_StartDate data
                   /\ ReportStep s1 = file_ReportStep data
                   /\ ObjPropPos s1 = file_ObjPropPos data
                   /\ ResultsPos s1 = file_ResultsPos data) False).
  { apply post_returns in H.
    destruct H as (e & h & E & -> & s1 & f1 & -> & R).
    exists s1, f1. auto. }
  unfold SMO_open, SMO_init. rewrite Hpath.
  apply post_bind, post_assign.
  destruct (validateFile_fields
              (set_file (Some (mkFILE data 0 [])) (set_elementNames None garbage))
              (mkFILE data 0 []) eq_refl)
    as (s' & f' & Erun & Hf' & Hd & Hp & Hnames & HID & HObj & HRes & HN);
    [cbn [f_data]; lia|].
  cbn [f_data IDPos ObjPropPos ResultsPos set_file set_elementNames
       elementNames] in *.
  assert (Hfour : forall k, 0 <= k <= 5 ->
            length (bytes_at data (Z.of_nat (length data) - 24 + 4 * k) 4)
            = 4%nat).
  { intros k Hk. rewrite length_bytes_at; lia. }
  replace (Z.of_nat (length data) - 20)
    with (Z.of_nat (length data) - 24 + 4 * 1) in HObj by lia.
  replace (Z.of_nat (length data) - 16)
    with (Z.of_nat (length data) - 24 + 4 * 2) in HRes by lia.
  rewrite overlay_low_half in HObj, HRes
    by (try (unfold in_off64; lia); apply Hfour; lia).
  rewrite (Z.div_small (ObjPropPos garbage)), Z.mul_0_r, Z.add_0_r in HObj
    by lia.
  rewrite (Z.div_small (ResultsPos garbage)), Z.mul_0_r, Z.add_0_r in HRes
    by lia.
  fold (epilogue_word data 1) in HObj. fold (file_ObjPropPos data) in HObj.
  fold (epilogue_word data 2) in HRes. fold (file_ResultsPos data) in HRes.
  apply post_bind. unfold post at 1. rewrite Erun, Hcode.
  change (negb (0 =? 0)) with false. cbv iota.
  destruct f' as [d p c]. cbn [f_data f_pos] in Hd, Hp. subst d p.
  apply post_bind. eapply post_fread_INT4_local;
    [exact Hf'|cbn [f_pos]; lia|cbn [f_pos f_data]; lia|].
  cbn [f_pos f_data f_calls].
  apply post_bind, post_deref.
  stream_step post_fread_INT4. apply post_bind, post_assign.
  stream_step post_fread_INT4. apply post_bind, post_assign.
  stream_step post_fread_INT4. apply post_bind, post_assign.
  stream_step post_fread_INT4. apply post_bind, post_assign.
  stream_step post_fread_INT4. apply post_bind, post_assign.
  apply post_bind, post_deref. cbv zeta.
  cbn [Nsubcatch Nnodes Nlinks ObjPropPos ResultsPos SubcatchVars NodeVars
       LinkVars SysVars StartDate ReportStep
       set_file set_FlowUnits set_Nsubcatch set_Nnodes set_Nlinks
       set_Npolluts].
  change (int (uint_le (bytes_at data (4 + 4 + 4) 4)))
    with (header_field data 3).
  change (int (uint_le (bytes_at data (4 + 4 + 4 + 4) 4)))
    with (header_field data 4).
  change (int (uint_le (bytes_at data (4 + 4 + 4 + 4 + 4) 4)))
    with (header_field data 5).
  change ((header_field data 3 + 2) * RECORDSIZE
          + (3 * header_field data 4 + 4) * RECORDSIZE
          + (5 * header_field data 5 + 6) * RECORDSIZE)
    with (file_inputs_size data).
  assert (Hsize : 48 <= file_inputs_size data)
    by (unfold file_inputs_size; lia).
  assert (HwO : 0 <= file_ObjPropPos data)
    by (unfold file_ObjPropPos, epilogue_word; apply uint_le_bound).
  assert (HP0 : 0 <= file_SubcatchVars_pos data)
    by (unfold file_SubcatchVars_pos; lia).
  assert (HP1 : file_NodeVars_pos data
                = file_SubcatchVars_pos data + 4 + file_SubcatchVars data * 4)
    by (unfold file_NodeVars_pos; lia).
  assert (HP2 : file_LinkVars_pos data
                = file_NodeVars_pos data + 4 + file_NodeVars data * 4)
    by (unfold file_LinkVars_pos; lia).
  assert (HP3 : file_SysVars_pos data
                = file_LinkVars_pos data + 4 + file_LinkVars data * 4)
    by (unfold file_SysVars_pos; lia).
  unfold OFF_MAX in Hlen.
  rewrite (int_small (file_inputs_size data))
    by (unfold in_int, INT_MIN, INT_MAX in *; lia).
  rewrite HObj, HRes. rewrite Z.add_comm. fold (file_SubcatchVars_pos data).
  rewrite off64_small by (unfold in_off64; lia).
  apply post_bind. eapply post_fseeko64; [reflexivity|].
  rewrite file_seek_set by (unfold OFF_MAX; lia). cbn [f_data f_calls].
  stream_step post_fread_INT4.
  fold (word_at data (file_SubcatchVars_pos data)).
  fold (file_SubcatchVars data).
  apply post_bind, post_assign.
  rewrite (int_small (file_SubcatchVars data * RECORDSIZE))
    by (unfold in_int, INT_MIN, INT_MAX, RECORDSIZE in *; lia).
  apply post_bind. eapply post_fseeko64; [reflexivity|].
  rewrite file_seek_cur
    by (cbn [f_pos]; unfold OFF_MAX, RECORDSIZE; lia).
  cbn [f_data f_pos f_calls].
  change (file_SubcatchVars data * RECORDSIZE) with (file_SubcatchVars data * 4).
  rewrite <- HP1.
  stream_step post_fread_INT4.
  fold (word_at data (file_NodeVars_pos data)). fold (file_NodeVars data).
  apply post_bind, post_assign.
  rewrite (int_small (file_NodeVars data * RECORDSIZE))
    by (unfold in_int, INT_MIN, INT_MAX, RECORDSIZE in *; lia).
  apply post_bind. eapply post_fseeko64; [reflexivity|].
  rewrite file_seek_cur
    by (cbn [f_pos]; unfold OFF_MAX, RECORDSIZE; lia).
  cbn [f_data f_pos f_calls].
  change (file_NodeVars data * RECORDSIZE) with (file_NodeVars data * 4).
  rewrite <- HP2.
  stream_step post_fread_INT4.
  fold (word_at data (file_LinkVars_pos data)). fold (file_LinkVars data).
  apply post_bind, post_assign.
  rewrite (int_small (file_LinkVars data * RECORDSIZE))
    by (unfold in_int, INT_MIN, INT_MAX, RECORDSIZE in *; lia).
  apply post_bind. eapply post_fseeko64; [reflexivity|].
  rewrite file_seek_cur
    by (cbn [f_pos]; unfold OFF_MAX, RECORDSIZE; lia).
  cbn [f_data f_pos f_calls].
  change (file_LinkVars data * RECORDSIZE) with (file_LinkVars data * 4).
  rewrite <- HP3.
  stream_step post_fread_INT4.
  fold (word_at data (file_SysVars_pos data)). fold (file_SysVars data).
  apply post_bind, post_assign.
  change (3 * RECORDSIZE) with 12.
  rewrite off64_small by (unfold in_off64; lia).
  apply post_bind. eapply post_fseeko64; [reflexivity|].
  rewrite file_seek_set by (unfold OFF_MAX; lia). cbn [f_data f_calls].
  apply post_bind. eapply post_fread_double;
    [reflexivity|cbn [f_pos]; lia|cbn [f_pos f_data]; lia|].
  cbn [f_pos f_data f_calls]. fold (file_StartDate data).
  apply post_bind, post_assign.
  replace (file_ResultsPos data - 12 + 8) with (file_ResultsPos data - 4)
    by lia.
  stream_step post_fread_INT4.
  fold (word_at data (file_ResultsPos data - 4)).
  fold (file_ReportStep data).
  apply post_bind, post_assign.
  apply post_bind, post_deref.
  apply post_bind, post_assign.
  apply post_ret. split; [reflexivity|].
  eexists _, _. split; [reflexivity|].
  cbn [file elementNames SubcatchVars NodeVars LinkVars SysVars StartDate
       ReportStep ObjPropPos ResultsPos
       set_file set_FlowUnits set_Nsubcatch set_Nnodes set_Nlinks
       set_Npolluts set_SubcatchVars set_NodeVars set_LinkVars set_SysVars
       set_StartDate set_ReportStep set_BytesPerPeriod].
  repeat split; try assumption; reflexivity.
Qed.

(** X19. [SMO_open] on a well-formed file.  For a file that passes
    [validateFile], whose walk stays inside the file without [int]
    overflow, opened on a block whose [ObjPropPos] and [ResultsPos] had
    zero upper halves, [SMO_open] returns 0 and the handle holds what the
    file stores: the counts of the header, the period count of the
    epilogue, the four variable counts found after the saved input values
    (each count followed by that many codes), the position of the results,
    and [BytesPerPeriod] computed from them.  [SMO_getStartTime] then
    returns the eight bytes stored twelve bytes before the results and
    [SMO_getTimes] for [reportStep] the integer stored four bytes before
    them. *)
Theorem open_reads_layout (fopen_rb : list byte -> option (list byte))
    (path data : list byte) (garbage : SMOutputAPI) :
  fopen_rb path = Some data ->
  readable_layout data -> validation_code data = 0 ->
  0 <= ObjPropPos garbage < 2 ^ 32 -> 0 <= ResultsPos garbage < 2 ^ 32 ->
  exists s1,
    SMO_open fopen_rb path (SMO_init garbage) = Ret 0 (Some s1)
    /\ Nperiods s1 = n_periods data
    /\ Nsubcatch s1 = header_field data 3
    /\ Nnodes s1 = header_field data 4
    /\ Nlinks s1 = header_field data 5
    /\ Npolluts s1 = header_field data 6
    /\ SubcatchVars s1 = file_SubcatchVars data
    /\ NodeVars s1 = file_NodeVars data
    /\ LinkVars s1 = file_LinkVars data
    /\ SysVars s1 = file_SysVars data
    /\ ResultsPos s1 = file_ResultsPos data
    /\ BytesPerPeriod s1 = int (8 + values_per_period s1 * 4)
    /\ SMO_getStartTime (Some s1) = Ret (0, file_StartDate data) (Some s1)
    /\ SMO_getTimes reportStep (Some s1)
       = Ret (0, file_ReportStep data) (Some s1).
Proof.
  intros Hpath Hlay Hcode HgObj HgRes.
  destruct (SMO_open_walk _ _ _ _ Hpath Hlay Hcode HgObj HgRes)
    as (s1 & f1 & Hrun & Hfile & _ & _ & E1 & E2 & E3 & E4 & ED & ER & _ & ERes).
  destruct (SMO_open_fields _ _ _ _ _ Hpath (proj1 Hlay) Hrun)
    as (_ & s & [= <-] & _ & ES & EN & EL & EP & EPer & _).
  destruct (SMO_open_success _ _ _ _ Hrun) as (s & f & [= <-] & _ & EB).
  exists s1. split; [exact Hrun|].
  repeat (split; [assumption|]).
  unfold SMO_getStartTime, SMO_getTimes, bind, deref, ret.
  rewrite Hfile, ED, ER. cbn [is_NULL]. split; reflexivity.
Qed.

(** ** Reading past the end of the file *)

Lemma scalar_read_past_end f X :
  Z.of_nat (length (f_data f)) <= X <= OFF_MAX ->
  fst (scalar_read f X) = [].
Proof.
  intros HX. unfold scalar_read. rewrite file_seek_set by lia.
  unfold file_read. cbn [fst f_data f_pos].
  rewrite drop_ge by lia. apply take_nil.
Qed.

Lemma get_value_past_end K s f p i a :
  file s = Some f ->
  Z.of_nat (length (f_data f)) <= code_offset K s p i a ->
  exists s',
    get_value K p i a (Some s) = Ret Indeterminate (Some s') /\ moved s s'.
Proof.
  intros Hf Hpast. rewrite (get_value_run K s f) by exact Hf.
  rewrite scalar_read_past_end.
  - eexists. split; [reflexivity|].
    exists f. eexists. split; [exact Hf|split; reflexivity].
  - split; [exact Hpast|].
    unfold code_offset, off64.
    pose proof (wrap_range 64 (period_offset s p
                                + int (RECORDSIZE * value_index K s i a))
                  ltac:(lia)) as Hw.
    change (2 ^ (64 - 1)) with (2 ^ 63) in Hw. unfold OFF_MAX. lia.
Qed.

Lemma code_offset_no_wrap K s p i a :
  layout_ok s -> valid_index K s i a -> 0 <= p ->
  0 <= ResultsPos s -> 0 <= BytesPerPeriod s ->
  ResultsPos s + p * BytesPerPeriod s + 8 + 4 * values_per_period s
  <= OFF_MAX ->
  code_offset K s p i a = scalar_offset K s p i a
  /\ ResultsPos s + p * BytesPerPeriod s + 8 <= scalar_offset K s p i a.
Proof.
  intros Hlay Hidx Hp Hr Hb Hmax.
  destruct (value_index_bounds K s i a Hlay Hidx) as [Hlo Hhi].
  destruct Hidx as [Hi Ha].
  assert (Hint : values_per_period s * 4 + 8 <= INT_MAX).
  { destruct Hlay as (_ & _ & _ & _ & _ & _ & _ & H).
    unfold DATESIZE, RECORDSIZE in H. lia. }
  assert (0 <= p * BytesPerPeriod s) by nia.
  unfold code_offset, scalar_offset, period_offset, RECORDSIZE.
  unfold INT_MAX, OFF_MAX in *.
  rewrite (int_small (4 * value_index K s i a))
    by (unfold in_int, INT_MIN, INT_MAX; lia).
  rewrite (off64_small (ResultsPos s + p * BytesPerPeriod s + 2 * 4))
    by (unfold in_off64; lia).
  rewrite off64_small by (unfold in_off64; lia).
  lia.
Qed.

(** X20. A series that starts past the end of the file.  On an open
    handle, for an entity and attribute valid for the kind, when the record
    of period [p] would start at or after the end of the file (and the
    offsets of the [n] periods asked for fit [off64_t]), [get_K_series]
    still returns 0: each of the [n] reads obtains nothing, and each
    element of the array receives the content of the local [value] that no
    read has filled.  Elements from [n] on are left as they were. *)
Theorem series_past_end (K : kind) (s : SMOutputAPI) (f : FILE)
    (i a p n : Z) (out : list REAL4) :
  file s = Some f -> layout_ok s -> valid_index K s i a ->
  0 <= n <= Z.of_nat (length out) ->
  0 <= p -> p + n <= INT_MAX ->
  0 <= ResultsPos s -> 0 <= BytesPerPeriod s ->
  ResultsPos s + (p + n) * BytesPerPeriod s + 8 + 4 * values_per_period s
  <= OFF_MAX ->
  Z.of_nat (length (f_data f)) <= ResultsPos s + p * BytesPerPeriod s + 8 ->
  exists (out' : list REAL4) (s' : SMOutputAPI),
    get_series K i a p n (Some out) (Some s) = Ret (0, Some out') (Some s')
    /\ moved s s' /\ length out' = length out
    /\ (forall k, 0 <= k < n -> out' !! Z.to_nat k = Some Indeterminate)
    /\ (forall j : nat, (Z.to_nat n <= j)%nat -> out' !! j = out !! j).
Proof.
  intros Hf Hlay Hidx Hn Hp Hpn Hr Hb Hmax Hpast.
  assert (Hs : moved s s) by (eapply moved_refl; exact Hf).
  assert (Hvpp : 0 <= values_per_period s).
  { destruct Hlay as (H1 & H2 & H3 & H4 & H5 & H6 & H7 & _).
    unfold values_per_period. nia. }
  destruct (for_loop_store
              (fun k => get_value K (long (p + k)) i a)
              (fun k v => 0 <= k < n -> v = Indeterminate) s)
    with (n := Z.to_nat n) (k0 := 0) (out := out) (s := s)
    as (out' & s' & Erun & Hm & Hl & Hnew & _); [|exact Hs|lia|lia|].
  { intros k s1 Hs1.
    destruct Hs1 as (f0 & f1 & Hf0 & -> & Hd).
    assert (f0 = f) by congruence. subst f0.
    destruct (Z_lt_dec k 0) as [Hneg|Hpos];
      [|destruct (Z_lt_dec k n) as [Hk|Hk]].
    - destruct (get_value_moved K (set_file (Some f1) s) f1 (long (p + k)) i a
                  eq_refl) as (v & s'' & E & Hm).
      exists v, s''. repeat split; auto. intros; lia.
    - assert (El : long (p + k) = p + k)
        by (apply long_small; unfold in_long, INT_MIN, INT_MAX in *; lia).
      rewrite El.
      destruct (code_offset_no_wrap K s (p + k) i a) as [Eoff Hoff];
        try assumption; try lia; try nia.
      destruct (get_value_past_end K (set_file (Some f1) s) f1 (p + k) i a)
        as (s'' & E & Hm); [reflexivity| |].
      { change (code_offset K (set_file (Some f1) s) (p + k) i a)
          with (code_offset K s (p + k) i a).
        rewrite Eoff, Hd. nia. }
      exists Indeterminate, s''. auto.
    - destruct (get_value_moved K (set_file (Some f1) s) f1 (long (p + k)) i a
                  eq_refl) as (v & s'' & E & Hm).
      exists v, s''. repeat split; auto. intros; lia. }
  exists out', s'.
  rewrite (get_series_open K s f) by exact Hf.
  split; [unfold bind at 1; rewrite Erun; reflexivity|].
  split; [exact Hm|]. split; [exact Hl|]. split.
  - intros k Hk. destruct (Hnew k ltac:(lia)) as (v & Hv & Ev).
    rewrite Hv, (Ev Hk). reflexivity.
  - intros j Hj.
    apply (for_loop_store_tail _ _ _ _ _ _ _ Erun); [lia|].
    change (Z.to_nat 0) with 0%nat. lia.
Qed.

(** X21. A result row asked for past the end of the file.  On an open
    handle with a non-null array, for an entity index valid for a kind
    that has variables, when the record of period [p] would start at or
    after the end of the file, [get_K_result] returns 0 although the bulk
    read obtains nothing: the caller's array comes back exactly as it was
    passed, whatever its length. *)
Theorem result_past_end (K : kind) (s : SMOutputAPI) (f : FILE)
    (p i : Z) (out : list REAL4) :
  file s = Some f -> layout_ok s ->
  0 <= i < count_of K s -> 0 < vars_of K s ->
  0 <= p -> 0 <= ResultsPos s -> 0 <= BytesPerPeriod s ->
  ResultsPos s + p * BytesPerPeriod s + 8 + 4 * values_per_period s
  <= OFF_MAX ->
  Z.of_nat (length (f_data f)) <= ResultsPos s + p * BytesPerPeriod s + 8 ->
  exists s',
    get_result K p i (Some out) (Some s) = Ret (0, Some out) (Some s')
    /\ moved s s'.
Proof.
  intros Hf Hlay Hi Hv Hp Hr Hb Hmax Hpast.
  destruct (code_offset_no_wrap K s p i 0) as [Eoff Hoff];
    try assumption; [split; [exact Hi|lia]|].
  rewrite (get_result_open K s f) by exact Hf.
  unfold bind at 1. rewrite (fseeko64_open s f) by exact Hf.
  assert (Hmax' : scalar_offset K s p i 0 <= OFF_MAX).
  { rewrite <- Eoff. unfold code_offset, off64.
    pose proof (wrap_range 64 (period_offset s p
                                + int (RECORDSIZE * value_index K s i 0))
                  ltac:(lia)) as Hw.
    change (2 ^ (64 - 1)) with (2 ^ 63) in Hw. unfold OFF_MAX. lia. }
  rewrite Eoff, file_seek_set by lia.
  unfold fread_array. unfold bind at 1. unfold bind at 1.
  rewrite (fread_open _ (mkFILE (f_data f) (scalar_offset K s p i 0)
                           (f_calls f ++ [io_fseeko64
                                            (scalar_offset K s p i 0)
                                            SEEK_SET])))
    by reflexivity.
  unfold file_read at 1. cbn [fst f_data f_pos].
  rewrite drop_ge by lia. rewrite take_nil.
  cbn [read_items store_items]. unfold ret. rewrite set_file_set_file.
  eexists. split; [reflexivity|].
  exists f. eexists. split; [exact Hf|]. split; reflexivity.
Qed.

(** ** Opening a handle again *)

Lemma post_fread_live size nmemb h (Q : list byte -> heap -> Prop) :
  (forall s f' bs, h = Some s -> Q bs (Some (set_file (Some f') s))) ->
  post (fread size nmemb) h Q True.
Proof.
  intros HQ. destruct h as [s|]; [|exact I].
  destruct (file s) as [f|] eqn:Hf.
  - unfold post. rewrite (fread_open s f) by exact Hf. apply HQ. reflexivity.
  - unfold post, fread, bind, deref. rewrite Hf. exact I.
Qed.

Ltac names_step :=
  lazymatch goal with
  | |- post (bind deref _) _ _ _ => apply post_bind, post_deref
  | |- post (bind (assign _) _) _ _ _ => apply post_bind, post_assign
  | |- post (bind (fseeko64 _ _) _) _ _ _ =>
      apply post_bind, post_fseeko64_live; intros ? ? [= <-]
  | |- post (bind (bind (fread _ _) _) _) _ _ _ =>
      apply post_bind; apply post_bind, post_fread_live; intros ? ? ? [= <-];
      apply post_ret
  end.

(** With a table of names in the handle, [SMO_getElementName] makes no
    call on the stream. *)
Lemma getElementName_from_memory (heap_grants : Z -> bool)
    (s : SMOutputAPI) (type index : Z) (name : option (list byte))
    (length : Z) r h' :
  elementNames s <> None ->
  SMO_getElementName heap_grants type index name length (Some s) = Ret r h' ->
  h' = Some s.
Proof.
  intros Hnames. unfold SMO_getElementName. rewrite bind_deref.
  destruct (elementNames s) as [names|] eqn:E; [|contradiction].
  cbn [is_NULL]. unfold bind at 1, ret at 1. rewrite bind_deref. rewrite E.
  repeat match goal with
         | |- context [if ?b then _ else _] => destruct b
         end;
    cbn [Z.eqb Pos.eqb];
    unfold undefined, ret;
    repeat match goal with
           | |- context [match ?x with _ => _ end] => destruct x
           end;
    intros [= _ <-] || discriminate; reflexivity.
Qed.

(** X22. [SMO_open] never writes [elementNames].  Whatever handle it is
    given, when it returns 0 the stream is open and the table of names is
    the one the handle held before the call: null after [SMO_init], and,
    on a handle that was already used, the names loaded from the file
    opened earlier.  [SMO_getElementName] then answers without a single
    call on the new stream (the handle, whose stream records every call,
    comes back as it was): the names stay those of the earlier file. *)
Theorem open_keeps_names (heap_grants : Z -> bool)
    (fopen_rb : list byte -> option (list byte))
    (path : list byte) (s0 s1 : SMOutputAPI) :
  SMO_open fopen_rb path (Some s0) = Ret 0 (Some s1) ->
  elementNames s1 = elementNames s0
  /\ (exists f1, file s1 = Some f1)
  /\ (elementNames s0 <> None ->
      forall type index name length r h',
        SMO_getElementName heap_grants type index name length (Some s1)
        = Ret r h' ->
        h' = Some s1).
Proof.
  intros Hrun.
  destruct (SMO_open_success _ _ _ _ Hrun) as (s & f1 & [= <-] & Hfile & _).
  enough (Hkeep : elementNames s1 = elementNames s0).
  { split; [exact Hkeep|]. split; [eauto|].
    intros Hsome type index name length r h'.
    apply getElementName_from_memory. rewrite Hkeep. exact Hsome. }
  refine (post_inv (SMO_open fopen_rb path) (Some s0) 0 (Some s1)
            (fun e h => e = 0 -> forall s, h = Some s ->
                                  elementNames s = elementNames s0)
            True _ Hrun eq_refl s1 eq_refl).
  clear Hrun Hfile f1 s1. unfold SMO_open.
  destruct (fopen_rb path) as [data|].
  2:{ do 2 skip_step. apply post_ret. discriminate. }
  apply post_bind, post_assign.
  unfold validateFile, fread_F_OFF, fread_INT4, fread_INT4_local,
    fread_double.
  apply post_bind.
  repeat names_step.
  repeat match goal with
         | |- context [if ?b then _ else _] => destruct b
         end;
    lazymatch goal with
    | |- post undefined _ _ _ => exact I
    | |- post (ret 0) _ _ _ =>
        apply post_ret; change (negb (0 =? 0)) with false; cbv iota;
        cbv zeta; repeat names_step; apply post_ret;
        intros _ s [= <-]; reflexivity
    | |- post (ret _) _ _ _ =>
        apply post_ret; cbn [negb Z.eqb]; skip_step; apply post_ret;
        discriminate
    end.
Qed.

(** ** The further theorems at concrete inputs *)

Lemma valid_2024_02_29 : valid_date 2024 2 29.
Proof.
  unfold valid_date. change (datetime_daysPerMonth 2024 2) with 29. lia.
Qed.

Lemma valid_2024_03_01 : valid_date 2024 3 1.
Proof.
  unfold valid_date. change (datetime_daysPerMonth 2024 3) with 31. lia.
Qed.

(** Day 45351 decodes to a date of a year from 1 on. *)
Lemma decodeDate_valid_witness :
  exists y m d,
    datetime_decodeDate (inject_Z 45351) = Some (y, m, d)
    /\ 1 <= m <= 12
    /\ ((Qfloor (inject_Z 45351) <= - DateDelta /\ y = 0 /\ m = 1 /\ d = 1)
        \/ (- DateDelta < Qfloor (inject_Z 45351)
            /\ 1 <= y /\ 1 <= d <= datetime_daysPerMonth y m)).
Proof.
  apply (decodeDate_valid (inject_Z 45351)).
  rewrite Qfloor_Z. unfold INT_MIN, INT_MAX, DateDelta. lia.
Defined.

(** Day 45351 is 29 February 2024. *)
Lemma encodeDate_decodeDate_witness :
  exists y m d,
    datetime_decodeDate (inject_Z 45351) = Some (y, m, d)
    /\ valid_date y m d
    /\ datetime_encodeDate y m d = inject_Z (Qfloor (inject_Z 45351)).
Proof.
  apply (encodeDate_decodeDate (inject_Z 45351)).
  rewrite Qfloor_Z. lia.
Defined.

(** 29 February 2023 does not exist. *)
Lemma encodeDate_sentinel_witness :
  datetime_encodeDate 2023 2 29 = inject_Z (- DateDelta).
Proof.
  apply (encodeDate_sentinel 2023 2 29).
  unfold valid_date. change (datetime_daysPerMonth 2023 2) with 28. lia.
Defined.

Lemma encodeDate_increasing_witness :
  date_before 2024 2 29 2024 3 1
  <-> (datetime_encodeDate 2024 2 29 < datetime_encodeDate 2024 3 1)%Q.
Proof.
  apply (encodeDate_increasing 2024 2 29 2024 3 1);
    [exact valid_2024_02_29|exact valid_2024_03_01].
Defined.

(** 29 February 2024 was a Thursday, day 5 of a week that starts on
    Sunday. *)
Lemma dayOfWeek_range_witness :
  datetime_dayOfWeek (inject_Z 45351) = 5.
Proof.
  destruct (proj1 (dayOfWeek_range (inject_Z 45351))) as [E _].
  - rewrite Qfloor_Z. unfold INT_MAX. lia.
  - rewrite E, Qfloor_Z. reflexivity.
Defined.

Lemma monthOfYear_range_witness :
  (exists m, datetime_monthOfYear (inject_Z 45351) = Some m /\ 1 <= m <= 12)
  /\ datetime_monthOfYear (datetime_encodeDate 2024 2 29) = Some 2.
Proof.
  split.
  - apply (proj1 (monthOfYear_range (inject_Z 45351))).
    rewrite Qfloor_Z. unfold INT_MIN, INT_MAX, DateDelta. lia.
  - apply (proj2 (monthOfYear_range (datetime_encodeDate 2024 2 29))
             2024 2 29);
      [exact valid_2024_02_29|reflexivity].
Defined.

(** 1 March 2024 is day 61 of its year. *)
Lemma dayOfYear_of_encodeDate_witness :
  datetime_dayOfYear (datetime_encodeDate 2024 3 1)
  = Some (days_before_month (isLeapYear 2024) 3 + 1)
  /\ 1 <= days_before_month (isLeapYear 2024) 3 + 1 <= 365 + isLeapYear 2024.
Proof.
  apply (dayOfYear_of_encodeDate 2024 3 1). exact valid_2024_03_01.
Defined.

Lemma findMonth_names_witness :
  datetime_findMonth
    (nth (Z.to_nat (12 - 1)) MonthTxt [] ++ list_byte_of_string "ember") = 12.
Proof.
  apply (proj1 (proj2 (proj2 findMonth_names))). lia.
Defined.

(** 29 February 2024 in the format year-month-day, and the first day of
    the year 10000. *)
Lemma dateToStr_buffer_witness :
  (exists str,
      datetime_dateToStr Y_M_D (inject_Z 45351) (replicate 12 x00)
      = Some (str ++ [x00] ++ skipn 12 (replicate 12 x00))
      /\ length str = 11%nat /\ Forall (fun b => b <> x00) str)
  /\ datetime_dateToStr Y_M_D (inject_Z 2958466) (replicate 16 x00) = None.
Proof.
  split.
  - apply (proj1 (dateToStr_buffer Y_M_D (inject_Z 45351) (replicate 12 x00)
                    ltac:(cbn; lia)
                    ltac:(rewrite Qfloor_Z; unfold INT_MIN, INT_MAX, DateDelta;
                          lia))).
    rewrite Qfloor_Z. lia.
  - apply (proj2 (dateToStr_buffer Y_M_D (inject_Z 2958466) (replicate 16 x00)
                    ltac:(cbn; lia)
                    ltac:(rewrite Qfloor_Z; unfold INT_MIN, INT_MAX, DateDelta;
                          lia))).
    rewrite Qfloor_Z. lia.
Defined.

(** No file at the path; then the file of a terminated run. *)
Lemma open_failure_handle_witness :
  (exists s0,
      SMO_open no_disk [] (SMO_init blank) = Ret 434 (Some s0)
      /\ file s0 = None
      /\ SMO_close (Some s0) = Ret 412 (Some s0)
      /\ (forall c, SMO_getProjectSize c (Some s0) = Ret (412, -1) (Some s0))
      /\ (forall K x y z w out,
            get_series K x y z w out (Some s0) = Ret (412, out) (Some s0)))
  /\ (SMO_open (disk_of terminated_file) [] (SMO_init blank)
      = Ret (validation_code terminated_file) None
      /\ SMO_close None = Undefined None
      /\ (forall c, SMO_getProjectSize c None = Undefined None)
      /\ (forall t i n l,
            SMO_getElementName grant_all t i n l None = Undefined None)).
Proof.
  split.
  - apply (proj1 (open_failure_handle grant_all no_disk [] blank)).
    reflexivity.
  - apply (proj2 (open_failure_handle grant_all (disk_of terminated_file)
                    [] blank) terminated_file).
    + reflexivity.
    + unfold OFF_MAX. cbn. lia.
    + vm_compute. discriminate.
Defined.

(** An empty file. *)
Lemma open_short_file_witness :
  exists h', SMO_open (disk_of []) [] (SMO_init blank) = Undefined h'.
Proof.
  apply (open_short_file (disk_of []) [] [] blank); [reflexivity|cbn; lia].
Defined.

Lemma dirty_opened :
  SMO_open (disk_of sample_file) [] (SMO_init dirty_block)
  = Ret 0 (Some dirty_handle).
Proof. vm_compute. reflexivity. Qed.

Lemma sample_file_length : Z.of_nat (length sample_file) = 344.
Proof. vm_compute. reflexivity. Qed.

(** The sample file opened on a block whose bits were all set: the
    results are looked for 4 GiB before the start of the file. *)
Lemma open_positions_keep_upper_half_witness :
  IDPos dirty_handle
  = epilogue_word sample_file 0 + 2 ^ 32 * (IDPos dirty_block / 2 ^ 32)
  /\ ObjPropPos dirty_handle
     = epilogue_word sample_file 1 + 2 ^ 32 * (ObjPropPos dirty_block / 2 ^ 32)
  /\ ResultsPos dirty_handle
     = epilogue_word sample_file 2 + 2 ^ 32 * (ResultsPos dirty_block / 2 ^ 32)
  /\ (ResultsPos dirty_handle = epilogue_word sample_file 2
      <-> 0 <= ResultsPos dirty_block < 2 ^ 32).
Proof.
  apply (open_positions_keep_upper_half (disk_of sample_file) [] sample_file
           dirty_block dirty_handle).
  - reflexivity.
  - rewrite sample_file_length. unfold OFF_MAX. lia.
  - unfold in_off64. cbn. lia.
  - unfold in_off64. cbn. lia.
  - unfold in_off64. cbn. lia.
  - exact dirty_opened.
Defined.

Lemma open_counts_from_header_witness :
  (leading_magic sample_file = magic_trailer sample_file
   /\ 0 < n_periods sample_file /\ terminating_error sample_file = 0)
  /\ SMO_getProjectSize subcatchCount (Some sample_handle)
     = Ret (0, header_field sample_file 3) (Some sample_handle)
  /\ SMO_getProjectSize nodeCount (Some sample_handle)
     = Ret (0, header_field sample_file 4) (Some sample_handle)
  /\ SMO_getProjectSize linkCount (Some sample_handle)
     = Ret (0, header_field sample_file 5) (Some sample_handle)
  /\ SMO_getProjectSize pollutantCount (Some sample_handle)
     = Ret (0, header_field sample_file 6) (Some sample_handle)
  /\ SMO_getUnits flow_rate (Some sample_handle)
     = Ret (0, header_field sample_file 2) (Some sample_handle)
  /\ SMO_getTimes numPeriods (Some sample_handle)
     = Ret (0, n_periods sample_file) (Some sample_handle).
Proof.
  apply (open_counts_from_header (disk_of sample_file) [] sample_file blank
           sample_handle).
  - reflexivity.
  - rewrite sample_file_length. unfold OFF_MAX. lia.
  - exact sample_opened.
Defined.

(** Attribute 2 of link 1 of the sample file over its two periods, into an
    array of three. *)
Lemma series_values_witness :
  exists (out' : list REAL4) (s' : SMOutputAPI),
    get_series Link 1 2 0 2 (Some (replicate 3 Indeterminate))
      (Some sample_handle) = Ret (0, Some out') (Some s')
    /\ moved sample_handle s'
    /\ length out' = length (replicate 3 Indeterminate)
    /\ (forall k, 0 <= k < 2 ->
          out' !! Z.to_nat k
          = Some (value_at (f_data sample_stream)
                    (scalar_offset Link sample_handle (0 + k) 1 2)))
    /\ (forall j : nat, (Z.to_nat 2 <= j)%nat ->
          out' !! j = replicate 3 Indeterminate !! j).
Proof.
  apply (series_values Link sample_handle sample_stream 1 2 0 2
           (replicate 3 Indeterminate)).
  - reflexivity.
  - apply sample_layout.
  - unfold valid_index. cbn. lia.
  - cbn. lia.
  - intros k Hk. unfold period_inside, values_per_period, INT_MAX, OFF_MAX.
    cbn. lia.
Defined.

(** The links of the sample file, with an allocator that grants: an
    array of two zeros for an attribute and of three for a result, and the
    queries they are made for. *)
Lemma newOutValueArray_room_witness :
  SMO_newOutValueArray grant_all getAttribute (type_of Link) 0 0
    (Some sample_handle)
  = Ret (Some (replicate 2 (Float 0)), 2, 0) (Some sample_handle)
  /\ SMO_newOutValueArray grant_all getResult (type_of Link) 0 0
       (Some sample_handle)
     = Ret (Some (replicate 3 (Float 0)), 3, 0) (Some sample_handle)
  /\ (forall p a, exists buf' s',
        get_attribute Link p a (Some (replicate 2 (Float 0)))
          (Some sample_handle) = Ret (0, Some buf') (Some s')
        /\ moved sample_handle s'
        /\ length buf' = length (replicate 2 (Float 0)))
  /\ (forall p i, exists buf' s',
        get_result Link p i (Some (replicate 3 (Float 0)))
          (Some sample_handle) = Ret (0, Some buf') (Some s')
        /\ moved sample_handle s'
        /\ length buf' = length (replicate 3 (Float 0))).
Proof.
  destruct (newOutValueArray_room grant_all Link sample_handle sample_stream
              0 0)
    as ((a1 & c1 & E1 & G1 & _ & R1) & (a2 & c2 & E2 & G2 & _ & R2) & _).
  - reflexivity.
  - unfold in_int, INT_MIN, INT_MAX. cbn. lia.
  - unfold in_int, INT_MIN, INT_MAX. cbn. lia.
  - destruct (G1 ltac:(cbn; lia) eq_refl) as [-> ->].
    destruct (G2 ltac:(cbn; lia) eq_refl) as [-> ->].
    split; [exact E1|]. split; [exact E2|]. split.
    + exact (R1 _ eq_refl).
    + exact (R2 _ eq_refl).
Defined.

(** The name of link 1 of the sample file, into an array of eight bytes. *)
Lemma getElementName_from_table_witness :
  exists (dst' : list byte) (s' : SMOutputAPI) (f' : FILE),
    SMO_getElementName grant_all (type_of Link) 1 (Some (replicate 8 x01)) 8
      (Some sample_handle)
    = Ret (0, Some dst', Z.of_nat (length (list_byte_of_string "L2")))
          (Some s')
    /\ dst' = take (Z.to_nat 8)
                (list_byte_of_string "L2" ++ replicate (Z.to_nat 8) x00)
              ++ drop (Z.to_nat 8) (replicate 8 x01)
    /\ (Z.of_nat (length (list_byte_of_string "L2")) < 8 ->
        c_string dst' = Some (list_byte_of_string "L2"))
    /\ (8 <= Z.of_nat (length (list_byte_of_string "L2")) ->
        take (Z.to_nat 8) dst' = take (Z.to_nat 8) (list_byte_of_string "L2"))
    /\ s' = set_elementNames (Some (map loaded_entry sample_names))
              (set_file (Some f') sample_handle)
    /\ f_data f' = f_data sample_stream
    /\ SMO_getElementName grant_all (type_of Link) 1 (Some (replicate 8 x01)) 8
         (Some s')
       = Ret (0, Some dst', Z.of_nat (length (list_byte_of_string "L2")))
             (Some s').
Proof.
  apply (getElementName_from_table grant_all sample_handle sample_stream
           sample_names (take 28 sample_file)
           (drop (28 + length (id_table sample_names)) sample_file)
           Link 1 (list_byte_of_string "L2") (replicate 8 x01) 8).
  - reflexivity.
  - reflexivity.
  - reflexivity.
  - vm_compute. reflexivity.
  - reflexivity.
  - unfold OFF_MAX. cbn. lia.
  - cbn. lia.
  - cbn. lia.
  - cbn. lia.
  - cbn. lia.
  - reflexivity.
  - unfold INT_MAX. cbn. lia.
  - unfold INT_MAX. repeat constructor; cbn; lia.
  - cbn. lia.
  - reflexivity.
  - repeat constructor; discriminate.
  - unfold in_int, INT_MIN, INT_MAX. lia.
  - cbn. lia.
Defined.

(** The date of period 1 of the sample file. *)
Lemma getTimeValue_period_date_witness :
  getTimeValue 1 (Some sample_handle)
  = Ret (Some (uint_le (bytes_at (f_data sample_stream)
                          (ResultsPos sample_handle
                           + 1 * BytesPerPeriod sample_handle) 8)))
        (Some (set_file
                 (Some (mkFILE (f_data sample_stream)
                          (ResultsPos sample_handle
                           + 1 * BytesPerPeriod sample_handle + 8)
                          (f_calls sample_stream
                           ++ [io_fseeko64
                                 (ResultsPos sample_handle
                                  + 1 * BytesPerPeriod sample_handle) SEEK_SET;
                               io_fread (RECORDSIZE * 2) 1])))
                 sample_handle))
  /\ length (bytes_at (f_data sample_stream)
               (ResultsPos sample_handle + 1 * BytesPerPeriod sample_handle) 8)
     = 8%nat
  /\ ResultsPos sample_handle + 1 * BytesPerPeriod sample_handle + 8
     = scalar_offset Subcatchment sample_handle 1 0 0.
Proof.
  apply (getTimeValue_period_date sample_handle sample_stream 1).
  - reflexivity.
  - apply sample_layout.
  - apply sample_layout.
Defined.

Lemma sample_readable : readable_layout sample_file.
Proof.
  unfold readable_layout.
  repeat split; apply Z.leb_le; vm_compute; reflexivity.
Qed.

(** The sample file: variable counts 2, 1, 3 and 2, results at 216. *)
Lemma open_reads_layout_witness :
  exists s1,
    SMO_open (disk_of sample_file) [] (SMO_init blank) = Ret 0 (Some s1)
    /\ Nperiods s1 = n_periods sample_file
    /\ Nsubcatch s1 = header_field sample_file 3
    /\ Nnodes s1 = header_field sample_file 4
    /\ Nlinks s1 = header_field sample_file 5
    /\ Npolluts s1 = header_field sample_file 6
    /\ SubcatchVars s1 = file_SubcatchVars sample_file
    /\ NodeVars s1 = file_NodeVars sample_file
    /\ LinkVars s1 = file_LinkVars sample_file
    /\ SysVars s1 = file_SysVars sample_file
    /\ ResultsPos s1 = file_ResultsPos sample_file
    /\ BytesPerPeriod s1 = int (8 + values_per_period s1 * 4)
    /\ SMO_getStartTime (Some s1)
       = Ret (0, file_StartDate sample_file) (Some s1)
    /\ SMO_getTimes reportStep (Some s1)
       = Ret (0, file_ReportStep sample_file) (Some s1).
Proof.
  apply (open_reads_layout (disk_of sample_file) [] sample_file blank).
  - reflexivity.
  - exact sample_readable.
  - vm_compute. reflexivity.
  - cbn. lia.
  - cbn. lia.
Defined.

(** Period 5 of the sample file, which holds two. *)
Lemma series_past_end_witness :
  exists (out' : list REAL4) (s' : SMOutputAPI),
    get_series Link 1 2 5 2 (Some (replicate 3 (Float 7)))
      (Some sample_handle) = Ret (0, Some out') (Some s')
    /\ moved sample_handle s'
    /\ length out' = length (replicate 3 (Float 7))
    /\ (forall k, 0 <= k < 2 -> out' !! Z.to_nat k = Some Indeterminate)
    /\ (forall j : nat, (Z.to_nat 2 <= j)%nat ->
          out' !! j = replicate 3 (Float 7) !! j).
Proof.
  apply (series_past_end Link sample_handle sample_stream 1 2 5 2
           (replicate 3 (Float 7))).
  - reflexivity.
  - apply sample_layout.
  - unfold valid_index. cbn. lia.
  - cbn. lia.
  - lia.
  - unfold INT_MAX. lia.
  - cbn. lia.
  - cbn. lia.
  - unfold values_per_period, OFF_MAX. cbn. lia.
  - cbn. lia.
Defined.

(** Period 5 of the sample file, the row of link 1. *)
Lemma result_past_end_witness :
  exists s',
    get_result Link 5 1 (Some (replicate 3 (Float 7))) (Some sample_handle)
    = Ret (0, Some (replicate 3 (Float 7))) (Some s')
    /\ moved sample_handle s'.
Proof.
  apply (result_past_end Link sample_handle sample_stream 5 1
           (replicate 3 (Float 7))).
  - reflexivity.
  - apply sample_layout.
  - cbn. lia.
  - cbn. lia.
  - lia.
  - cbn. lia.
  - cbn. lia.
  - unfold values_per_period, OFF_MAX. cbn. lia.
  - cbn. lia.
Defined.

(** The sample file opened again on a handle that holds names. *)
Lemma open_keeps_names_witness :
  elementNames named_handle = elementNames named_handle
  /\ (exists f1, file named_handle = Some f1)
  /\ (elementNames named_handle <> None ->
      forall type index name length r h',
        SMO_getElementName grant_all type index name length
          (Some named_handle) = Ret r h' ->
        h' = Some named_handle).
Proof.
  apply (open_keeps_names grant_all (disk_of sample_file) []
           named_handle named_handle).
  vm_compute. reflexivity.
Defined.
